(** * telegramkefu: the per-chat conversation state machine of the relay bot

    A shallow embedding of the Go sources (package [main], [internal/cache],
    [internal/welcome], [internal/broadcast]) together with the properties of
    the specification that can be decided on them.

    Conventions of the embedding.
    - A Go [string] is a byte sequence; it is modelled by [string], whose
      characters are the bytes.  Literals of the source are copied as they
      stand (their UTF-8 bytes).
    - Go [int] and [int64] values are modelled by [Z].  Every arithmetic
      expression of the modelled code is bounded by the length of a slice
      plus a small constant, so no 64-bit wrap-around can occur and none is
      written out.
    - Go maps are finite maps ([gmap]); reading an absent key yields the zero
      value of the element type, as in Go.
    - Redis sets are finite sets of strings ([gset string]).
    - Mutable state (the shared [adminStates] map, the drafts, the Redis
      store, the log of Bot API calls) lives in one [World]; functions of the
      source with side effects are computations in the monad [M]. *)

From Stdlib Require Import ZArith NArith Ascii DecimalString DecimalZ DecimalN
  DecimalPos Lia.
From stdpp Require Import gmap strings list fin_maps.

Local Open Scope Z_scope.

(** ** Go standard library: package [strings] *)

Module Strings.

Definition byte (c : ascii) : N := N_of_ascii c.

Definition LF : ascii := "010"%char.
Definition Pipe : ascii := "|"%char.
Definition Backtick : ascii := "`"%char.

  (** [strings.HasPrefix]. *)
Definition HasPrefix (s pre : string) : bool := String.prefix pre s.

  (** [strings.Split(s, sep)] for a separator of one byte: the pieces between
      the occurrences of [sep]; [Split "" sep] is the list holding one empty
      string. *)
Fixpoint Split (s : string) (sep : ascii) : list string :=
    match s with
    | EmptyString => [EmptyString]
    | String c r =>
        if Ascii.eqb c sep then EmptyString :: Split r sep
        else match Split r sep with
             | [] => [String c EmptyString]
             | piece :: rest => String c piece :: rest
             end
    end.

  (** The text before and after the first occurrence of [sep], if any. *)
Fixpoint Cut (s : string) (sep : ascii) : option (string * string) :=
    match s with
    | EmptyString => None
    | String c r =>
        if Ascii.eqb c sep then Some (EmptyString, r)
        else match Cut r sep with
             | Some (before, after) => Some (String c before, after)
             | None => None
             end
    end.

  (** [strings.SplitN(s, sep, 2)] for a separator of one byte: at most two
      pieces, cut at the first occurrence of [sep]. *)
Definition SplitN2 (s : string) (sep : ascii) : list string :=
    match Cut s sep with
    | Some (before, after) => [before; after]
    | None => [s]
    end.

  (** [strings.Join]. *)
Fixpoint Join (elems : list string) (sep : string) : string :=
    match elems with
    | [] => ""
    | [e] => e
    | e :: rest => e +:+ sep +:+ Join rest sep
    end.

  (** *** Trimming

      [TrimSpace] and [Trim] remove leading and trailing runes.  A rune to be
      removed is recognised on the bytes of its UTF-8 encoding: [p1] accepts
      an encoding of one byte, [p2] one of two bytes, [p3] one of three.
      Decoding stops at the first byte sequence that is not such an encoding
      (any other rune, or an invalid byte, is kept). *)
Section Runes.
Variable p1 : ascii -> bool.
Variable p2 : ascii -> ascii -> bool.
Variable p3 : ascii -> ascii -> ascii -> bool.

Fixpoint trimLeftRunes (s : string) : string :=
  match s with
  | EmptyString => EmptyString
  | String a r =>
      if p1 a then trimLeftRunes r
      else match r with
           | EmptyString => s
           | String b r' =>
               if p2 a b then trimLeftRunes r'
               else match r' with
                    | EmptyString => s
                    | String c r'' =>
                        if p3 a b c then trimLeftRunes r'' else s
                    end
           end
  end.
End Runes.

  (** Trailing runes are found by reading the string backwards; the bytes of
      an encoding then come in reverse order. *)
Definition trimRightRunes (p1 : ascii -> bool) (p2 : ascii -> ascii -> bool)
      (p3 : ascii -> ascii -> ascii -> bool) (s : string) : string :=
    String.rev
      (trimLeftRunes p1 (fun b a => p2 a b) (fun c b a => p3 a b c) (String.rev s)).

  (** [unicode.IsSpace] on the UTF-8 encoding.  One byte: tab, line feed,
      vertical tab, form feed, carriage return, space. *)
Definition isSpace1 (a : ascii) : bool :=
    ((9 <=? byte a) && (byte a <=? 13) || (byte a =? 32))%N.

  (** Two bytes: U+0085 (C2 85) and U+00A0 (C2 A0). *)
Definition isSpace2 (a b : ascii) : bool :=
    ((byte a =? 194) && ((byte b =? 133) || (byte b =? 160)))%N.

  (** Three bytes: U+1680 (E1 9A 80), U+2000..U+200A (E2 80 80..8A),
      U+2028, U+2029 (E2 80 A8, A9), U+202F (E2 80 AF), U+205F (E2 81 9F),
      U+3000 (E3 80 80). *)
Definition isSpace3 (a b c : ascii) : bool :=
    ((byte a =? 225) && (byte b =? 154) && (byte c =? 128)
     || (byte a =? 226) && (byte b =? 128)
        && ((128 <=? byte c) && (byte c <=? 138)
            || (byte c =? 168) || (byte c =? 169) || (byte c =? 175))
     || (byte a =? 226) && (byte b =? 129) && (byte c =? 159)
     || (byte a =? 227) && (byte b =? 128) && (byte c =? 128))%N.

  (** [strings.TrimSpace]. *)
Definition TrimLeftSpace : string -> string :=
    trimLeftRunes isSpace1 isSpace2 isSpace3.
Definition TrimRightSpace : string -> string :=
    trimRightRunes isSpace1 isSpace2 isSpace3.
Definition TrimSpace (s : string) : string :=
    TrimRightSpace (TrimLeftSpace s).

  (** [strings.Trim(s, cutset)] for a cutset of one ASCII byte. *)
Definition isByte (cut a : ascii) : bool := Ascii.eqb a cut.
Definition no2 (_ _ : ascii) : bool := false.
Definition no3 (_ _ _ : ascii) : bool := false.
Definition TrimLeft (s : string) (cut : ascii) : string :=
    trimLeftRunes (isByte cut) no2 no3 s.
Definition TrimRight (s : string) (cut : ascii) : string :=
    trimRightRunes (isByte cut) no2 no3 s.
Definition Trim (s : string) (cut : ascii) : string :=
    TrimRight (TrimLeft s cut) cut.

  (** [strings.ReplaceAll(s, old, new)] for [old] of one byte. *)
Fixpoint ReplaceAll (s : string) (old : ascii) (new : string) : string :=
    match s with
    | EmptyString => EmptyString
    | String c r =>
        if Ascii.eqb c old then new +:+ ReplaceAll r old new
        else String c (ReplaceAll r old new)
    end.

End Strings.

(** ** Go standard library: package [strconv] and the [%d] verb of [fmt] *)

Module Strconv.

  (** [strconv.FormatInt(i, 10)], also the rendering of [%d]. *)
Definition FormatInt (i : Z) : string := NilZero.string_of_int (Z.to_int i).

Definition digit (c : ascii) : option N :=
    let n := N_of_ascii c in
    if ((48 <=? n) && (n <=? 57))%N then Some (n - 48)%N else None.

Fixpoint digits (acc : N) (s : string) : option N :=
    match s with
    | EmptyString => Some acc
    | String c r =>
        match digit c with
        | Some d => digits (acc * 10 + d)%N r
        | None => None
        end
    end.

  (** [strconv.ParseInt(s, 10, 64)]: the value and whether [err == nil].  A
      syntax error yields 0; a value out of range yields the nearest bound
      together with the error. *)
Definition ParseInt (s : string) : Z * bool :=
    match s with
    | EmptyString => (0, false)
    | String c r =>
        let neg := Ascii.eqb c "-"%char in
        let body := if Ascii.eqb c "+"%char || neg then r else s in
        match body with
        | EmptyString => (0, false)
        | _ =>
            match digits 0%N body with
            | None => (0, false)
            | Some un =>
                let cutoff := 2 ^ 63 in
                if negb neg && (cutoff <=? Z.of_N un) then (cutoff - 1, false)
                else if neg && (cutoff <? Z.of_N un) then (- cutoff, false)
                else (if neg then - Z.of_N un else Z.of_N un, true)
            end
        end
    end.

  (** [strconv.Atoi] on a 64-bit platform. *)
Definition Atoi (s : string) : Z * bool := ParseInt s.

End Strconv.

(** ** The Bot API client library (package [tgbotapi]): the data the core
    exchanges with it *)

Module tgbotapi.

  (** [InlineKeyboardButton]: a button opens a URL or carries callback data. *)
Inductive InlineKeyboardButton : Type :=
  | ButtonURL (text url : string)
  | ButtonData (text data : string).

Definition NewInlineKeyboardButtonURL (text url : string) := ButtonURL text url.
Definition NewInlineKeyboardButtonData (text data : string) := ButtonData text data.

  (** [InlineKeyboardMarkup]: its rows of buttons (field [InlineKeyboard]). *)
Definition InlineKeyboardMarkup : Type := list (list InlineKeyboardButton).

Definition NewInlineKeyboardRow (buttons : list InlineKeyboardButton) :
    list InlineKeyboardButton := buttons.
Definition NewInlineKeyboardMarkup (rows : list (list InlineKeyboardButton)) :
    InlineKeyboardMarkup := rows.

Record User : Type := {
    ID : Z;
    FirstName : string;
    LastName : string;
    UserName : string
  }.

  (** The fields of the message an admin replies to that the core reads. *)
Record RepliedMessage : Type := {
    ReplyText : string;
    ReplyCaption : string
  }.

  (** [Message].  [Photo] holds the file references of the photo sizes,
      [Video], [Sticker] and [Document] the file reference when present.
      [IsCommand] and [Command] are the results of the library methods of the
      same names, which the library computes from the message entities. *)
Record Message : Type := {
    MessageID : Z;
    From : option User;
    ChatID : Z;
    Text : string;
    Caption : string;
    Photo : list string;
    Video : option string;
    Sticker : option string;
    Document : option string;
    ReplyToMessage : option RepliedMessage;
    IsCommand : bool;
    Command : string
  }.

Record CallbackQuery : Type := {
    QueryID : string;
    Data : string;
    QueryMessage : option Message
  }.

Record Update : Type := {
    UpdateMessage : option Message;
    UpdateCallbackQuery : option CallbackQuery
  }.

  (** What the core hands to [API.Send] and [API.Request]. *)
Inductive Chattable : Type :=
  | MessageConfig (chat : Z) (text parseMode : string)
      (replyMarkup : option InlineKeyboardMarkup)
  | PhotoConfig (chat : Z) (file caption parseMode : string)
      (replyMarkup : option InlineKeyboardMarkup)
  | VideoConfig (chat : Z) (file caption parseMode : string)
      (replyMarkup : option InlineKeyboardMarkup)
  | DocumentConfig (chat : Z) (file caption parseMode : string)
      (replyMarkup : option InlineKeyboardMarkup)
  | StickerConfig (chat : Z) (file : string)
  | DeleteMessageConfig (chat : Z) (messageID : Z)
  | CallbackConfig (queryID text : string)
  | SetMyCommandsConfig (chat : Z) (commands : list (string * string)).

Definition NewMessage (chat : Z) (text : string) : Chattable :=
    MessageConfig chat text "" None.
Definition NewDeleteMessage (chat messageID : Z) : Chattable :=
    DeleteMessageConfig chat messageID.
Definition NewCallback (queryID text : string) : Chattable :=
    CallbackConfig queryID text.

Definition ModeMarkdown : string := "Markdown".

End tgbotapi.

Import tgbotapi.

(** ** The state of the process and of its collaborators *)

(** [broadcast.Message]: the draft of a broadcast.  [Type'] is the field
    [Type] of the source. *)
Module Draft.
Record Message : Type := {
    Text : string;
    MediaID : string;
    Type' : string;
    Buttons : InlineKeyboardMarkup
  }.
  (** The zero value, read from the map [Broadcasts] at an absent key. *)
Definition zero : Message :=
    {| Text := ""; MediaID := ""; Type' := ""; Buttons := [] |}.
End Draft.

(** A Go [error]: [None] is [nil], [Some text] an error with that text. *)
Definition error : Type := option string.

(** The Redis store: sets, plain strings and hashes, each by key. *)
Record Redis : Type := {
  rsets : gmap string (gset string);
  rstrings : gmap string string;
  rhashes : gmap string (gmap string string)
}.

(** The fan-out goroutine started by [executeBroadcast]: the chat to report
    to, the snapshot of the known users and the draft it captured. *)
Record FanOut : Type := {
  fanChat : Z;
  fanUsers : list string;
  fanBroadcast : Draft.Message
}.

(** The verdict lines that [handleAdminStatefulMessage] logs. *)
Inductive LogEvent : Type :=
| LogHandledByWelcome (chat : Z)
| LogHandledByBroadcast (chat : Z)
| LogUnhandledAdminMessage (chat : Z) (text : string).

(** [adminStates] is the one map shared by the [BotInstance] and both
    managers.  [redisFail n] and [apiResult n] tell how the store answers the
    [n]-th call made to it and how the Bot API answers the [n]-th request:
    with an error, or (for the API) with the identifier of the message sent. *)
Record World : Type := {
  adminStates : gmap Z Z;
  Broadcasts : gmap Z Draft.Message;
  BroadcastPromptMessageIDs : gmap Z Z;
  redis : Redis;
  redisCalls : nat;
  redisFail : nat -> error;
  sent : list Chattable;
  apiResult : nat -> option Z;
  spawned : list FanOut;
  logs : list LogEvent
}.

Definition setAdminStates (f : gmap Z Z -> gmap Z Z) (w : World) : World :=
  {| adminStates := f (adminStates w); Broadcasts := Broadcasts w;
     BroadcastPromptMessageIDs := BroadcastPromptMessageIDs w;
     redis := redis w; redisCalls := redisCalls w; redisFail := redisFail w;
     sent := sent w; apiResult := apiResult w; spawned := spawned w;
     logs := logs w |}.

Definition setBroadcasts (f : gmap Z Draft.Message -> gmap Z Draft.Message)
    (w : World) : World :=
  {| adminStates := adminStates w; Broadcasts := f (Broadcasts w);
     BroadcastPromptMessageIDs := BroadcastPromptMessageIDs w;
     redis := redis w; redisCalls := redisCalls w; redisFail := redisFail w;
     sent := sent w; apiResult := apiResult w; spawned := spawned w;
     logs := logs w |}.

Definition setPromptIDs (f : gmap Z Z -> gmap Z Z) (w : World) : World :=
  {| adminStates := adminStates w; Broadcasts := Broadcasts w;
     BroadcastPromptMessageIDs := f (BroadcastPromptMessageIDs w);
     redis := redis w; redisCalls := redisCalls w; redisFail := redisFail w;
     sent := sent w; apiResult := apiResult w; spawned := spawned w;
     logs := logs w |}.

(** One call to the store has been answered, leaving the store as [r]. *)
Definition redisAnswered (r : Redis) (w : World) : World :=
  {| adminStates := adminStates w; Broadcasts := Broadcasts w;
     BroadcastPromptMessageIDs := BroadcastPromptMessageIDs w;
     redis := r; redisCalls := S (redisCalls w); redisFail := redisFail w;
     sent := sent w; apiResult := apiResult w; spawned := spawned w;
     logs := logs w |}.

(** One request has been handed to the Bot API. *)
Definition delivered (c : Chattable) (w : World) : World :=
  {| adminStates := adminStates w; Broadcasts := Broadcasts w;
     BroadcastPromptMessageIDs := BroadcastPromptMessageIDs w;
     redis := redis w; redisCalls := redisCalls w; redisFail := redisFail w;
     sent := sent w ++ [c]; apiResult := apiResult w; spawned := spawned w;
     logs := logs w |}.

Definition started (t : FanOut) (w : World) : World :=
  {| adminStates := adminStates w; Broadcasts := Broadcasts w;
     BroadcastPromptMessageIDs := BroadcastPromptMessageIDs w;
     redis := redis w; redisCalls := redisCalls w; redisFail := redisFail w;
     sent := sent w; apiResult := apiResult w; spawned := spawned w ++ [t];
     logs := logs w |}.

Definition logged (e : LogEvent) (w : World) : World :=
  {| adminStates := adminStates w; Broadcasts := Broadcasts w;
     BroadcastPromptMessageIDs := BroadcastPromptMessageIDs w;
     redis := redis w; redisCalls := redisCalls w; redisFail := redisFail w;
     sent := sent w; apiResult := apiResult w; spawned := spawned w;
     logs := logs w ++ [e] |}.

(** ** The monad of the embedding: state, and [None] for a run-time panic *)

Definition M (A : Type) : Type := World -> option (A * World).

#[global] Instance M_ret : MRet M := fun A (a : A) w => Some (a, w).
#[global] Instance M_bind : MBind M := fun A B (k : A -> M B) (c : M A) w =>
  match c w with
  | Some (a, w') => k a w'
  | None => None
  end.

(** Dereferencing a nil pointer. *)
Definition panic {A : Type} : M A := fun _ => None.

Definition gets {A : Type} (f : World -> A) : M A := fun w => Some (f w, w).
Definition modify (f : World -> World) : M unit := fun w => Some (tt, f w).
Definition world : M World := gets (fun w => w).

(** [p.field] for a pointer [p] that may be nil. *)
Definition deref {A : Type} (p : option A) : M A :=
  match p with
  | Some a => mret a
  | None => panic
  end.

(** [API.Send] and [API.Request]: the request is recorded; the answer is the
    identifier of the message sent, or [None] for an error. *)
Definition Send (c : Chattable) : M (option Z) := fun w =>
  Some (apiResult w (length (sent w)), delivered c w).
Definition Request (c : Chattable) : M (option Z) := Send c.

Definition logEvent (e : LogEvent) : M unit := modify (logged e).

(** The [go] statement. *)
Definition go (t : FanOut) : M unit := modify (started t).

(** ** What the process finds when it starts

    The environment variables as [os.Getenv] reads them once [godotenv.Load]
    has run, the outcome of connecting to the Bot API with a token and of
    the ping sent to the store, the store itself, and how the store and the
    Bot API answer afterwards. *)
Record Environment : Type := {
  Getenv : string -> string;
  NewBotAPI : string -> error;
  Ping : string -> string -> Z -> error;
  store : Redis;
  storeFail : nat -> error;
  apiAnswers : nat -> option Z
}.

(** ** Package [cache]: the Redis client *)

Module cache.

Definition UsersSetKey : string := "telegram_bot_users".
Definition BlockedUsersSet : string := "blocked_users".

  (** [NewRedisClient]: the client is returned when the ping is answered. *)
Definition NewRedisClient (env : Environment) (addr password : string) (db : Z) :
    error :=
    Ping env addr password db.

  (** One command sent to the store: it fails as the environment decides, or
      runs [op] on the store. *)
Definition command {A : Type} (op : Redis -> A * Redis) : M (A + string) :=
    fun w =>
      match redisFail w (redisCalls w) with
      | Some e => Some (inr e, redisAnswered (redis w) w)
      | None => let '(a, r) := op (redis w) in Some (inl a, redisAnswered r w)
      end.

Definition members (key : string) (r : Redis) : gset string :=
    default ∅ (rsets r !! key).

Definition SAdd (key member : string) (r : Redis) : unit * Redis :=
    (tt, {| rsets := <[key := {[member]} ∪ members key r]> (rsets r);
            rstrings := rstrings r; rhashes := rhashes r |}).
Definition SRem (key member : string) (r : Redis) : unit * Redis :=
    (tt, {| rsets := <[key := members key r ∖ {[member]}]> (rsets r);
            rstrings := rstrings r; rhashes := rhashes r |}).
Definition SIsMember (key member : string) (r : Redis) : bool * Redis :=
    (bool_decide (member ∈ members key r), r).
Definition SMembers (key : string) (r : Redis) : list string * Redis :=
    (elements (members key r), r).
Definition Set' (key value : string) (r : Redis) : unit * Redis :=
    (tt, {| rsets := rsets r; rstrings := <[key := value]> (rstrings r);
            rhashes := rhashes r |}).
Definition Get (key : string) (r : Redis) : option string * Redis :=
    (rstrings r !! key, r).
Definition HSet (key field value : string) (r : Redis) : unit * Redis :=
    (tt, {| rsets := rsets r; rstrings := rstrings r;
            rhashes := <[key := <[field := value]> (default ∅ (rhashes r !! key))]>
                         (rhashes r) |}).
Definition HMGet (key : string) (fields : list string) (r : Redis) :
      list (option string) * Redis :=
    (map (fun f => default ∅ (rhashes r !! key) !! f) fields, r).

  (** [CheckAndAddUser]: the outcome of [SAdd] is dropped. *)
Definition CheckAndAddUser (key : string) (userID : Z) : M unit :=
    _ ← command (SAdd key (Strconv.FormatInt userID)); mret tt.

Definition GetAllUserIDs (key : string) : M (list string * error) :=
    r ← command (SMembers key);
    mret (match r with inl ids => (ids, None) | inr e => ([], Some e) end).

Definition SetConfigValue (key value : string) : M error :=
    r ← command (Set' key value);
    mret (match r with inl _ => None | inr e => Some e end).

Definition GetConfigValue (key : string) : M (string * error) :=
    r ← command (Get key);
    mret (match r with
          | inl (Some val) => (val, None)
          | inl None => ("", None)
          | inr e => ("", Some e)
          end).

Definition AddBlockedUser (userID : Z) : M error :=
    r ← command (SAdd BlockedUsersSet (Strconv.FormatInt userID));
    mret (match r with inl _ => None | inr e => Some e end).

Definition RemoveBlockedUser (userID : Z) : M error :=
    r ← command (SRem BlockedUsersSet (Strconv.FormatInt userID));
    mret (match r with inl _ => None | inr e => Some e end).

Definition IsUserBlocked (userID : Z) : M (bool * error) :=
    r ← command (SIsMember BlockedUsersSet (Strconv.FormatInt userID));
    mret (match r with inl b => (b, None) | inr e => (false, Some e) end).

Definition GetBlockedUserIDs : M (list string * error) :=
    r ← command (SMembers BlockedUsersSet);
    mret (match r with inl ids => (ids, None) | inr e => ([], Some e) end).

Definition userKey (userID : Z) : string := "user:" +:+ Strconv.FormatInt userID.

Definition StoreUserInfo (user : option User) : M error :=
    match user with
    | None => mret None
    | Some user =>
        let key := userKey (ID user) in
        r ← command (HSet key "first_name" (FirstName user));
        match r with
        | inr e => mret (Some e)
        | inl _ =>
            r ← command (HSet key "last_name" (LastName user));
            match r with
            | inr e => mret (Some e)
            | inl _ =>
                r ← command (HSet key "username" (UserName user));
                match r with
                | inr e => mret (Some e)
                | inl _ => mret None
                end
            end
        end
    end.

  (** [GetUserInfo]: first name, last name, user name and the error. *)
Definition GetUserInfo (userID : Z) : M (string * string * string * error) :=
    r ← command (HMGet (userKey userID) ["first_name"; "last_name"; "username"]);
    mret (match r with
          | inr e => ("", "", "", Some e)
          | inl vals =>
              let field (i : nat) := default "" (mjoin (vals !! i)) in
              (field 0%nat, field 1%nat, field 2%nat, None)
          end).

End cache.

(** The line feed written [\n] in the literals of the source. *)
Definition nl : string := String Strings.LF "".

(** [len(s) > 0] for a slice. *)
Definition nonEmpty {A : Type} (l : list A) : bool :=
  match l with [] => false | _ => true end.

(** ** Button specifications: [ParseButtons]

    The packages [welcome] and [broadcast] each carry a copy of this helper;
    the two copies have the same text and are embedded once, here, and named
    in both packages below. *)

Module Buttons.

(** The body of the first loop: one line of the specification, appended to
    the buttons collected so far. *)
Definition parseLine (buttons : list InlineKeyboardButton) (line : string) :
    list InlineKeyboardButton :=
  let line := Strings.TrimSpace line in
  if String.eqb line "" then buttons
  else
    match Strings.SplitN2 line Strings.Pipe with
    | [part0; part1] =>
        let text := Strings.TrimSpace part0 in
        let url := Strings.TrimSpace part1 in
        let url := Strings.Trim url Strings.Backtick in
        buttons ++ [NewInlineKeyboardButtonURL text url]
    | _ => buttons
    end.

(** The second loop, [for i := 0; i < len(buttons); i += 2].  [fuel] bounds
    the number of iterations; [length buttons] is always enough. *)
Fixpoint rowsLoop (fuel i : nat) (buttons : list InlineKeyboardButton)
    (rows : list (list InlineKeyboardButton)) : list (list InlineKeyboardButton) :=
  match fuel with
  | O => rows
  | S fuel' =>
      match buttons !! i with
      | None => rows
      | Some first =>
          match buttons !! (i + 1)%nat with
          | Some second =>
              rowsLoop fuel' (i + 2)%nat buttons
                (rows ++ [NewInlineKeyboardRow [first; second]])
          | None =>
              rowsLoop fuel' (i + 2)%nat buttons
                (rows ++ [NewInlineKeyboardRow [first]])
          end
      end
  end.

Definition ParseButtons (data : string) : InlineKeyboardMarkup :=
  let lines := Strings.Split data Strings.LF in
  let buttons := fold_left parseLine lines [] in
  let rows := rowsLoop (length buttons) 0 buttons [] in
  NewInlineKeyboardMarkup rows.

End Buttons.

(** ** Package [welcome] *)

Module welcome.

Definition StateAwaitingWelcomeMessage : Z := 20.
Definition StateAwaitingWelcomeButtons : Z := 21.

Definition ConfigWelcomeMessage : string := "config:welcome_message".
Definition ConfigWelcomeButtons : string := "config:welcome_buttons".

Definition ParseButtons : string -> InlineKeyboardMarkup := Buttons.ParseButtons.

Definition defaultWelcome : string :=
  "👋 欢迎光临，我是私信小助手。直接在这里发消息，技术会回复。".

Definition HandleStartCommand (chatID : Z) : M unit :=
  '(welcomeMsgText, err) ← cache.GetConfigValue ConfigWelcomeMessage;
  let welcomeMsgText :=
    if bool_decide (err ≠ None) || String.eqb welcomeMsgText ""
    then defaultWelcome else welcomeMsgText in
  '(buttonsStr, err) ← cache.GetConfigValue ConfigWelcomeButtons;
  let keyboard : InlineKeyboardMarkup :=
    if bool_decide (err = None) && negb (String.eqb buttonsStr "")
    then ParseButtons buttonsStr else [] in
  let replyMarkup := if nonEmpty keyboard then Some keyboard else None in
  _ ← Send (MessageConfig chatID welcomeMsgText "" replyMarkup);
  mret tt.

Definition StartSetWelcomeProcess (chatID : Z) : M unit :=
  '(currentMsg, err) ← cache.GetConfigValue ConfigWelcomeMessage;
  let currentMsg :=
    if bool_decide (err ≠ None) then "（无法获取当前欢迎语）"
    else if String.eqb currentMsg "" then "（当前无欢迎语）"
    else currentMsg in
  _ ← Send (NewMessage chatID
         ("当前欢迎语：" +:+ nl +:+ currentMsg +:+ nl +:+ nl
          +:+ "请输入新的欢迎语文本（可基于当前内容修改）："));
  modify (setAdminStates <[chatID := StateAwaitingWelcomeMessage]>).

Definition StartSetButtonsProcess (chatID : Z) : M unit :=
  '(currentButtons, err) ← cache.GetConfigValue ConfigWelcomeButtons;
  let currentButtons :=
    if bool_decide (err ≠ None) then "（无法获取当前按钮）"
    else if String.eqb currentButtons "" then "（当前无按钮）"
    else currentButtons in
  let msgText :=
    "当前欢迎按钮：" +:+ nl +:+ currentButtons +:+ nl +:+ nl
    +:+ "请输入新的欢迎按钮，每行一个，格式为：" +:+ nl
    +:+ "`按钮文字 | 链接`" +:+ nl +:+ nl +:+ "例如：" +:+ nl
    +:+ "`关注频道 | https://t.me/channel`" +:+ nl
    +:+ "`靓号商城 | https://t.me/store`" +:+ nl
    +:+ "（可基于当前内容修改）" in
  _ ← Send (MessageConfig chatID msgText ModeMarkdown None);
  modify (setAdminStates <[chatID := StateAwaitingWelcomeButtons]>).

Definition handleWelcomeMessageInput (msg : Message) : M unit :=
  let chatID := ChatID msg in
  err ← cache.SetConfigValue ConfigWelcomeMessage (Text msg);
  match err with
  | Some e =>
      _ ← Send (NewMessage chatID ("保存欢迎语失败: " +:+ e)); mret tt
  | None =>
      _ ← modify (setAdminStates <[chatID := 0]>);
      _ ← Send (NewMessage chatID "✅ 欢迎语已更新。");
      HandleStartCommand chatID
  end.

Definition handleWelcomeButtonsInput (msg : Message) : M unit :=
  let chatID := ChatID msg in
  err ← cache.SetConfigValue ConfigWelcomeButtons (Text msg);
  match err with
  | Some e =>
      _ ← Send (NewMessage chatID ("保存按钮失败: " +:+ e)); mret tt
  | None =>
      _ ← modify (setAdminStates <[chatID := 0]>);
      _ ← Send (NewMessage chatID "✅ 欢迎按钮已更新。");
      HandleStartCommand chatID
  end.

(** The state is read at the key [msg.From.ID]. *)
Definition HandleAdminMessageInput (msg : Message) : M bool :=
  from ← deref (From msg);
  states ← gets adminStates;
  match states !! ID from with
  | None => mret false
  | Some state =>
      if state =? StateAwaitingWelcomeMessage then
        _ ← handleWelcomeMessageInput msg; mret true
      else if state =? StateAwaitingWelcomeButtons then
        _ ← handleWelcomeButtonsInput msg; mret true
      else mret false
  end.

End welcome.

(** ** Package [broadcast] *)

Module broadcast.

Definition StateBroadcastAwaitText : Z := 10.
Definition StateBroadcastAwaitMedia : Z := 11.
Definition StateBroadcastAwaitButtons : Z := 12.

Definition ParseButtons : string -> InlineKeyboardMarkup := Buttons.ParseButtons.

(** [m.Broadcasts[chatID]]. *)
Definition draftOf (w : World) (chatID : Z) : Draft.Message :=
  default Draft.zero (Broadcasts w !! chatID).

Definition getSkipMediaKeyboard : InlineKeyboardMarkup :=
  let skipButton := NewInlineKeyboardButtonData "⏭️ 跳过媒体" "bbuild_skip_media" in
  let row := NewInlineKeyboardRow [skipButton] in
  NewInlineKeyboardMarkup [row].

Definition getSkipButtonsKeyboard : InlineKeyboardMarkup :=
  let skipButton := NewInlineKeyboardButtonData "⏭️ 跳过按钮" "bbuild_skip_buttons" in
  let row := NewInlineKeyboardRow [skipButton] in
  NewInlineKeyboardMarkup [row].

Definition getCancelKeyboard : InlineKeyboardMarkup :=
  let cancelButton := NewInlineKeyboardButtonData "❌ 取消广播" "bbuild_cancel" in
  let row := NewInlineKeyboardRow [cancelButton] in
  NewInlineKeyboardMarkup [row].

Definition textPrompt : string := "请输入广播的文本内容，或点击下方按钮取消：".

(** The tail shared by the three prompts for buttons. *)
Definition buttonsPromptTail : string :=
  "请输入广播的按钮，每行一个，格式为：" +:+ nl
  +:+ "`按钮文字 | 链接`" +:+ nl +:+ nl +:+ "例如：" +:+ nl
  +:+ "`关注频道 | https://t.me/channel`" +:+ nl
  +:+ "`靓号商城 | https://t.me/store`" +:+ nl
  +:+ "或点击下方按钮跳过（清除按钮）：".

Definition StartBroadcastBuilder (chatID : Z) : M unit :=
  _ ← modify (setBroadcasts <[chatID := Draft.zero]>);
  _ ← modify (setAdminStates <[chatID := StateBroadcastAwaitText]>);
  _ ← Send (MessageConfig chatID textPrompt "" (Some getCancelKeyboard));
  mret tt.

Definition getBroadcastBuilderKeyboard (broadcast : Draft.Message) :
    InlineKeyboardMarkup :=
  let row1 := NewInlineKeyboardRow
    [NewInlineKeyboardButtonData "1️⃣ 修改文本" "bbuild_set_text";
     NewInlineKeyboardButtonData "2️⃣ 修改媒体" "bbuild_set_media"] in
  let row2 := NewInlineKeyboardRow
    [NewInlineKeyboardButtonData "3️⃣ 修改按钮" "bbuild_set_buttons"] in
  let rows := [row1; row2] in
  let rows :=
    if negb (String.eqb (Draft.Text broadcast) "")
       || negb (String.eqb (Draft.MediaID broadcast) "")
    then
      let previewRow := NewInlineKeyboardRow
        [NewInlineKeyboardButtonData "👀 发送预览" "bbuild_preview"] in
      let sendRow := NewInlineKeyboardRow
        [NewInlineKeyboardButtonData "🚀 确认发送" "bbuild_send"] in
      rows ++ [previewRow] ++ [sendRow]
    else rows in
  let cancelRow := NewInlineKeyboardRow
    [NewInlineKeyboardButtonData "❌ 取消" "bbuild_cancel"] in
  NewInlineKeyboardMarkup (rows ++ [cancelRow]).

Definition builderMenuText (broadcast : Draft.Message) : string :=
  let text := "📢 **广播消息构建器**" +:+ nl +:+ nl in
  let text := text +:+ "请确认你的广播消息内容：" +:+ nl +:+ nl in
  let text := text +:+ "1️⃣ **文本内容:** " in
  let text :=
    if negb (String.eqb (Draft.Text broadcast) "")
    then text +:+ "✅ " +:+ Draft.Text broadcast +:+ nl
    else text +:+ "❌ (未设置)" +:+ nl in
  let text := text +:+ "2️⃣ **媒体内容 (图片/视频):** " in
  let text :=
    if negb (String.eqb (Draft.MediaID broadcast) "")
    then text +:+ "✅ (" +:+ Draft.Type' broadcast +:+ " 已设置)" +:+ nl
    else text +:+ "❌ (未设置)" +:+ nl in
  let text := text +:+ "3️⃣ **按钮:** " in
  let text :=
    if nonEmpty (Draft.Buttons broadcast)
    then text +:+ "✅ (已设置)" +:+ nl
    else text +:+ "❌ (未设置)" +:+ nl in
  let text := text +:+ nl in
  if negb (String.eqb (Draft.Text broadcast) "")
     || negb (String.eqb (Draft.MediaID broadcast) "")
  then text +:+ "点击 **发送预览** 查看当前效果。" +:+ nl
            +:+ "点击 **确认发送** 将消息推送给所有用户。" +:+ nl
  else text +:+ "请至少设置文本或媒体内容以继续。" +:+ nl.

Definition sendBroadcastBuilderMenu (chatID : Z) : M unit :=
  w ← world;
  let broadcast := draftOf w chatID in
  let msg := MessageConfig chatID (builderMenuText broadcast) ModeMarkdown
               (Some (getBroadcastBuilderKeyboard broadcast)) in
  let prompt := default 0 (BroadcastPromptMessageIDs w !! chatID) in
  _ ← (if negb (prompt =? 0)
       then _ ← Request (NewDeleteMessage chatID prompt); mret tt
       else mret tt);
  sentMsg ← Send msg;
  match sentMsg with
  | Some messageID => modify (setPromptIDs <[chatID := messageID]>)
  | None => mret tt
  end.

(** [sendComplexMessage]: the text or the captioned media of the draft, with
    the marker glyph in front; [true] when no error occurred. *)
Definition sendComplexMessage (chatID : Z) (broadcast : Draft.Message) : M bool :=
  let messageText := "📢 " +:+ Draft.Text broadcast in
  if negb (String.eqb (Draft.MediaID broadcast) "") then
    let markup :=
      if nonEmpty (Draft.Buttons broadcast) then Some (Draft.Buttons broadcast)
      else None in
    if String.eqb (Draft.Type' broadcast) "photo" then
      r ← Send (PhotoConfig chatID (Draft.MediaID broadcast) messageText "" markup);
      mret (bool_decide (is_Some r))
    else if String.eqb (Draft.Type' broadcast) "video" then
      r ← Send (VideoConfig chatID (Draft.MediaID broadcast) messageText "" markup);
      mret (bool_decide (is_Some r))
    else mret false
  else if negb (String.eqb (Draft.Text broadcast) "") then
    let markup :=
      if nonEmpty (Draft.Buttons broadcast) then Some (Draft.Buttons broadcast)
      else None in
    r ← Send (MessageConfig chatID messageText "" markup);
    mret (bool_decide (is_Some r))
  else mret true.

Definition sendBroadcastPreview (chatID : Z) : M unit :=
  w ← world;
  let broadcast := draftOf w chatID in
  if String.eqb (Draft.Text broadcast) "" && String.eqb (Draft.MediaID broadcast) ""
  then
    _ ← Send (NewMessage chatID "无法预览，广播内容为空。"); mret tt
  else
    _ ← Send (NewMessage chatID "--- 预览 ---");
    _ ← sendComplexMessage chatID broadcast;
    mret tt.



Definition executeBroadcast (chatID : Z) : M unit :=
  w ← world;
  let broadcast := draftOf w chatID in
  if String.eqb (Draft.Text broadcast) "" && String.eqb (Draft.MediaID broadcast) ""
  then
    _ ← Send (NewMessage chatID "无法发送，广播内容为空。"); mret tt
  else
    '(allUserIDsStr, err) ← cache.GetAllUserIDs "telegram_bot_users";
    match err with
    | Some _ =>
        _ ← Send (NewMessage chatID "广播失败：无法获取用户列表。"); mret tt
    | None =>
        go {| fanChat := chatID; fanUsers := allUserIDsStr;
              fanBroadcast := broadcast |}
    end.

(** The two ways a line of a button specification is refused in the state
    [StateBroadcastAwaitButtons], with the line number reported. *)
Inductive ButtonLineError : Type :=
| FormatError (lineNo : Z) (line : string)
| URLError (lineNo : Z) (url : string).

(** The text sent for a refused line. *)
Definition lineErrorText (e : ButtonLineError) : string :=
  match e with
  | FormatError lineNo line =>
      "第 " +:+ Strconv.FormatInt lineNo +:+ " 行格式错误：" +:+ line +:+ nl
      +:+ "正确格式为：按钮文字 | 链接" +:+ nl
      +:+ "例如：关注频道 | https://t.me/channel"
  | URLError lineNo url =>
      "第 " +:+ Strconv.FormatInt lineNo +:+ " 行 URL 无效：" +:+ url +:+ nl
      +:+ "请使用 http:// 或 https:// 开头的链接"
  end.

(** The body of the validation loop for the line of index [i]: [None] when
    the loop goes on to the next line. *)
Definition checkLine (i : nat) (line : string) : option ButtonLineError :=
  let line := Strings.TrimSpace line in
  if String.eqb line "" then None
  else
    match Strings.SplitN2 line Strings.Pipe with
    | [part0; part1] =>
        if String.eqb (Strings.TrimSpace part0) ""
           || String.eqb (Strings.TrimSpace part1) ""
        then Some (FormatError (Z.of_nat i + 1) line)
        else
          let url := Strings.TrimSpace part1 in
          let url := Strings.Trim url Strings.Backtick in
          if negb (Strings.HasPrefix url "http://")
             && negb (Strings.HasPrefix url "https://")
          then Some (URLError (Z.of_nat i + 1) url)
          else None
    | _ => Some (FormatError (Z.of_nat i + 1) line)
    end.

(** The validation loop [for i, line := range lines]: the first refusal, at
    which the source sends the error and returns. *)
Fixpoint checkLines (i : nat) (lines : list string) : option ButtonLineError :=
  match lines with
  | [] => None
  | line :: rest =>
      match checkLine i line with
      | Some e => Some e
      | None => checkLines (S i) rest
      end
  end.

Definition withText (b : Draft.Message) (text : string) : Draft.Message :=
  {| Draft.Text := text; Draft.MediaID := Draft.MediaID b;
     Draft.Type' := Draft.Type' b; Draft.Buttons := Draft.Buttons b |}.
Definition withMedia (b : Draft.Message) (mediaID mediaType : string) :
    Draft.Message :=
  {| Draft.Text := Draft.Text b; Draft.MediaID := mediaID;
     Draft.Type' := mediaType; Draft.Buttons := Draft.Buttons b |}.
Definition withButtons (b : Draft.Message) (buttons : InlineKeyboardMarkup) :
    Draft.Message :=
  {| Draft.Text := Draft.Text b; Draft.MediaID := Draft.MediaID b;
     Draft.Type' := Draft.Type' b; Draft.Buttons := buttons |}.

Definition HandleMessageInput (msg : Message) : M bool :=
  let chatID := ChatID msg in
  w ← world;
  match adminStates w !! chatID with
  | None => mret false
  | Some state =>
      let currentBroadcast := draftOf w chatID in
      if state =? StateBroadcastAwaitText then
        if String.eqb (Text msg) "" then
          _ ← Send (MessageConfig chatID "请输入有效的文本内容，或点击下方按钮取消。" ""
                 (Some getCancelKeyboard));
          mret true
        else
          let currentBroadcast := withText currentBroadcast (Text msg) in
          _ ← modify (setBroadcasts <[chatID := currentBroadcast]>);
          _ ← modify (setAdminStates <[chatID := StateBroadcastAwaitMedia]>);
          _ ← Request (NewDeleteMessage chatID (MessageID msg));
          _ ← Send (MessageConfig chatID
                 "文本已设置！请发送一张图片或一个视频作为广播的媒体内容，或点击下方按钮跳过："
                 "" (Some getSkipMediaKeyboard));
          mret true
      else if state =? StateBroadcastAwaitMedia then
        let media :=
          match last (Photo msg), Video msg with
          | Some fileID, _ => Some (fileID, "photo")
          | None, Some fileID => Some (fileID, "video")
          | None, None => None
          end in
        match media with
        | None =>
            _ ← Send (MessageConfig chatID
                   "❌ 无效输入。请发送图片或视频，或点击下方按钮跳过。" ""
                   (Some getSkipMediaKeyboard));
            mret true
        | Some (mediaID, mediaType) =>
            let currentBroadcast := withMedia currentBroadcast mediaID mediaType in
            _ ← modify (setBroadcasts <[chatID := currentBroadcast]>);
            _ ← modify (setAdminStates <[chatID := StateBroadcastAwaitButtons]>);
            _ ← Request (NewDeleteMessage chatID (MessageID msg));
            _ ← Send (MessageConfig chatID ("媒体已设置！" +:+ buttonsPromptTail)
                   ModeMarkdown (Some getSkipButtonsKeyboard));
            mret true
        end
      else if state =? StateBroadcastAwaitButtons then
        let lines := Strings.Split (Text msg) Strings.LF in
        match checkLines 0 lines with
        | Some e =>
            _ ← Send (MessageConfig chatID (lineErrorText e) ""
                   (Some getSkipButtonsKeyboard));
            mret true
        | None =>
            let currentBroadcast :=
              withButtons currentBroadcast (ParseButtons (Text msg)) in
            _ ← modify (setBroadcasts <[chatID := currentBroadcast]>);
            _ ← modify (setAdminStates <[chatID := 0]>);
            _ ← Request (NewDeleteMessage chatID (MessageID msg));
            _ ← sendBroadcastBuilderMenu chatID;
            mret true
        end
      else mret true
  end.

Definition HandleCallbackQuery (q : CallbackQuery) : M bool :=
  if negb (Strings.HasPrefix (Data q) "bbuild_") then mret false
  else
    message ← deref (QueryMessage q);
    _ ← Request (NewCallback (QueryID q) "");
    let chatID := ChatID message in
    let action := Data q in
    _ ← (if String.eqb action "bbuild_set_text" then
           _ ← modify (setAdminStates <[chatID := StateBroadcastAwaitText]>);
           _ ← Send (MessageConfig chatID textPrompt "" (Some getCancelKeyboard));
           mret tt
         else if String.eqb action "bbuild_set_media" then
           _ ← modify (setAdminStates <[chatID := StateBroadcastAwaitMedia]>);
           _ ← Send (MessageConfig chatID
                  "请发送一张图片或一个视频作为广播的媒体内容，或点击下方按钮跳过："
                  "" (Some getSkipMediaKeyboard));
           mret tt
         else if String.eqb action "bbuild_skip_media" then
           w ← world;
           let currentBroadcast := withMedia (draftOf w chatID) "" "" in
           _ ← modify (setBroadcasts <[chatID := currentBroadcast]>);
           _ ← modify (setAdminStates <[chatID := StateBroadcastAwaitButtons]>);
           _ ← Request (NewCallback (QueryID q) "✅ 已跳过媒体设置");
           _ ← Send (MessageConfig chatID ("媒体已跳过！" +:+ buttonsPromptTail)
                  ModeMarkdown (Some getSkipButtonsKeyboard));
           mret tt
         else if String.eqb action "bbuild_set_buttons" then
           _ ← modify (setAdminStates <[chatID := StateBroadcastAwaitButtons]>);
           _ ← Send (MessageConfig chatID buttonsPromptTail ModeMarkdown
                  (Some getSkipButtonsKeyboard));
           mret tt
         else if String.eqb action "bbuild_skip_buttons" then
           w ← world;
           let currentBroadcast :=
             withButtons (draftOf w chatID) (NewInlineKeyboardMarkup []) in
           _ ← modify (setBroadcasts <[chatID := currentBroadcast]>);
           _ ← modify (setAdminStates <[chatID := 0]>);
           _ ← Request (NewCallback (QueryID q) "✅ 已跳过按钮设置");
           sendBroadcastBuilderMenu chatID
         else if String.eqb action "bbuild_preview" then
           sendBroadcastPreview chatID
         else if String.eqb action "bbuild_cancel" then
           _ ← modify (setAdminStates <[chatID := 0]>);
           _ ← modify (setBroadcasts (delete chatID));
           _ ← modify (setPromptIDs (delete chatID));
           _ ← Request (NewDeleteMessage chatID (MessageID message));
           _ ← Send (NewMessage chatID "广播创建已取消。");
           mret tt
         else if String.eqb action "bbuild_send" then
           _ ← executeBroadcast chatID;
           _ ← modify (setAdminStates <[chatID := 0]>);
           _ ← modify (setBroadcasts (delete chatID));
           _ ← modify (setPromptIDs (delete chatID));
           _ ← Request (NewDeleteMessage chatID (MessageID message));
           mret tt
         else mret tt);
    mret true.

End broadcast.

(** ** Package [main]: the dispatcher *)

Module main.

Definition StateNone : Z := 0.
Definition UsersPerPage : Z := 10.

(** The parts of [BotInstance] fixed at start-up; its managers, API client,
    Redis client and [adminStates] map are the [World]. *)
Record BotInstance : Type := {
  adminIDs : gmap Z bool;
  forwardToAdminID : Z
}.

Definition isAdmin (b : BotInstance) (userID : Z) : bool :=
  default false (adminIDs b !! userID).

(** [len(s)] as a Go [int]. *)
Definition len {A : Type} (l : list A) : Z := Z.of_nat (length l).

(** [s[low:high]]; the bounds are checked against the length. *)
Definition slice {A : Type} (l : list A) (low high : Z) : M (list A) :=
  if (0 <=? low) && (low <=? high) && (high <=? len l)
  then mret (take (Z.to_nat (high - low)) (drop (Z.to_nat low) l))
  else panic.

Definition setCommandsForUser (b : BotInstance) (chatID : Z) : M unit :=
  let commands :=
    if isAdmin b chatID then
      [("start", "查看欢迎信息"); ("setwelcome", "设置欢迎语");
       ("setbuttons", "设置欢迎按钮"); ("broadcast", "创建广播");
       ("listblocked", "查看拉黑用户列表"); ("stats", "查看用户统计")]
    else [("start", "获取欢迎信息")] in
  _ ← Request (SetMyCommandsConfig chatID commands);
  mret tt.

(** The name shown for a blocked user in the list. *)
Definition displayNameOf (firstName lastName username idStr : string) : string :=
  let displayName := if negb (String.eqb username "") then "@" +:+ username else "" in
  let fullName := Strings.TrimSpace (firstName +:+ " " +:+ lastName) in
  let displayName :=
    if negb (String.eqb fullName "") then
      if negb (String.eqb displayName "")
      then displayName +:+ " (" +:+ fullName +:+ ")"
      else fullName
    else displayName in
  let displayName := if String.eqb displayName "" then "Unknown" else displayName in
  displayName +:+ " - ID: " +:+ idStr.

(** The first loop of [handleListBlocked], over [currentIDs] from index [i]. *)
Fixpoint listEntries (start : Z) (i : nat) (currentIDs : list string)
    (sb : string) : M string :=
  match currentIDs with
  | [] => mret sb
  | idStr :: rest =>
      let index := start + Z.of_nat i + 1 in
      let '(userID, _) := Strconv.ParseInt idStr in
      '(firstName, lastName, username, _) ← cache.GetUserInfo userID;
      let displayName := displayNameOf firstName lastName username idStr in
      listEntries start (S i) rest
        (sb +:+ Strconv.FormatInt index +:+ ". " +:+ displayName +:+ nl)
  end.

Definition unblockButtonText (firstName lastName username idStr : string) : string :=
  if negb (String.eqb username "") then
    "解除拉黑 @" +:+ username +:+ " (" +:+ idStr +:+ ")"
  else if negb (String.eqb firstName "") then
    "解除拉黑 " +:+ firstName +:+ " " +:+ lastName +:+ " (" +:+ idStr +:+ ")"
  else "解除拉黑 " +:+ idStr.

(** The second loop of [handleListBlocked]. *)
Fixpoint unblockRows (currentIDs : list string)
    (keyboard : list (list InlineKeyboardButton)) :
    M (list (list InlineKeyboardButton)) :=
  match currentIDs with
  | [] => mret keyboard
  | idStr :: rest =>
      let '(userID, _) := Strconv.ParseInt idStr in
      '(firstName, lastName, username, _) ← cache.GetUserInfo userID;
      let buttonText := unblockButtonText firstName lastName username idStr in
      let unblockCallback := "unblock_" +:+ idStr in
      let unblockButton := NewInlineKeyboardButtonData buttonText unblockCallback in
      unblockRows rest (keyboard ++ [NewInlineKeyboardRow [unblockButton]])
  end.

Definition paginationRow (page totalPages : Z) : list InlineKeyboardButton :=
  let row := [] in
  let row :=
    if page >? 1
    then row ++ [NewInlineKeyboardButtonData "上一页"
                   ("page_prev_" +:+ Strconv.FormatInt (page - 1))]
    else row in
  if page <? totalPages
  then row ++ [NewInlineKeyboardButtonData "下一页"
                 ("page_next_" +:+ Strconv.FormatInt (page + 1))]
  else row.

Definition listHeader (page totalPages : Z) : string :=
  "拉黑用户列表 (第 " +:+ Strconv.FormatInt page +:+ "/"
  +:+ Strconv.FormatInt totalPages +:+ " 页):" +:+ nl.

Definition handleListBlocked (chatID : Z) (page : Z) : M unit :=
  '(blockedIDs, err) ← cache.GetBlockedUserIDs;
  match err with
  | Some _ =>
      _ ← Send (NewMessage chatID "❌ 获取拉黑用户列表失败。"); mret tt
  | None =>
      if len blockedIDs =? 0 then
        _ ← Send (NewMessage chatID "当前没有拉黑的用户。"); mret tt
      else
        let totalPages := Z.quot (len blockedIDs + UsersPerPage - 1) UsersPerPage in
        let page := if (page <? 1) || (page >? totalPages) then 1 else page in
        let start := (page - 1) * UsersPerPage in
        let end' := start + UsersPerPage in
        let end' := if end' >? len blockedIDs then len blockedIDs else end' in
        currentIDs ← slice blockedIDs start end';
        sb ← listEntries start 0 currentIDs (listHeader page totalPages);
        keyboard ← unblockRows currentIDs [];
        let keyboard :=
          if totalPages >? 1 then
            let row := paginationRow page totalPages in
            if nonEmpty row then keyboard ++ [row] else keyboard
          else keyboard in
        _ ← Send (MessageConfig chatID sb ""
               (if nonEmpty keyboard then Some keyboard else None));
        mret tt
  end.

Definition statsText (totalUsers activeUsers blockedCount : Z) : string :=
  "用户统计：" +:+ nl +:+ "- 总用户数: " +:+ Strconv.FormatInt totalUsers +:+ nl
  +:+ "- 活跃用户数: " +:+ Strconv.FormatInt activeUsers +:+ nl
  +:+ "- 拉黑用户数: " +:+ Strconv.FormatInt blockedCount.

Definition handleUserStats (chatID : Z) : M unit :=
  '(userIDs, err) ← cache.GetAllUserIDs cache.UsersSetKey;
  match err with
  | Some _ =>
      _ ← Send (NewMessage chatID "❌ 获取用户统计失败。"); mret tt
  | None =>
      let totalUsers := len userIDs in
      '(blockedUsers, _) ← cache.GetBlockedUserIDs;
      let blockedCount := len blockedUsers in
      let activeUsers := totalUsers - blockedCount in
      _ ← Send (NewMessage chatID (statsText totalUsers activeUsers blockedCount));
      mret tt
  end.

Definition handleAdminStatefulMessage (msg : Message) : M unit :=
  handled ← welcome.HandleAdminMessageInput msg;
  if (handled : bool) then logEvent (LogHandledByWelcome (ChatID msg))
  else
    handled ← broadcast.HandleMessageInput msg;
    if (handled : bool) then logEvent (LogHandledByBroadcast (ChatID msg))
    else logEvent (LogUnhandledAdminMessage (ChatID msg) (Text msg)).

(** The digits at the front of [s], as long as they go, and what follows. *)
Fixpoint digitRun (s : string) : string * string :=
  match s with
  | EmptyString => (EmptyString, EmptyString)
  | String c r =>
      match Strconv.digit c with
      | Some _ => let '(ds, rest) := digitRun r in (String c ds, rest)
      | None => (EmptyString, s)
      end
  end.

(** The group of the leftmost match of the pattern [\((\d+)\)] in [s]. *)
Fixpoint findUserID (s : string) : option string :=
  match s with
  | EmptyString => None
  | String c r =>
      if Ascii.eqb c "("%char then
        let '(ds, rest) := digitRun r in
        if negb (String.eqb ds "") && Strings.HasPrefix rest ")" then Some ds
        else findUserID r
      else findUserID r
  end.

(** The part of [handleAdminMessage] after the reply branch: the commands,
    then the stateful handlers. *)
Definition handleAdminCommand (b : BotInstance) (msg : Message) : M unit :=
  if IsCommand msg then
    if String.eqb (Command msg) "start" then
      _ ← setCommandsForUser b (ChatID msg);
      welcome.HandleStartCommand (ChatID msg)
    else if String.eqb (Command msg) "setwelcome" then
      welcome.StartSetWelcomeProcess (ChatID msg)
    else if String.eqb (Command msg) "setbuttons" then
      welcome.StartSetButtonsProcess (ChatID msg)
    else if String.eqb (Command msg) "broadcast" then
      broadcast.StartBroadcastBuilder (ChatID msg)
    else if String.eqb (Command msg) "listblocked" then
      handleListBlocked (ChatID msg) 1
    else if String.eqb (Command msg) "stats" then
      handleUserStats (ChatID msg)
    else handleAdminStatefulMessage msg
  else handleAdminStatefulMessage msg.

(** The reply branch of [handleAdminMessage]: the admin answers the user
    whose identifier is read off the message replied to. *)
Definition replyToUser (b : BotInstance) (msg : Message)
    (replied : RepliedMessage) : M unit :=
  let textToParse :=
    if negb (String.eqb (ReplyText replied) "") then ReplyText replied
    else if negb (String.eqb (ReplyCaption replied) "") then ReplyCaption replied
    else "" in
  let originalUserID :=
    if negb (String.eqb textToParse "") then
      match findUserID textToParse with
      | Some group =>
          let '(id, ok) := Strconv.ParseInt group in
          if ok then id else 0
      | None => 0
      end
    else 0 in
  if negb (originalUserID =? 0) then
    let replyMsg :=
      if negb (String.eqb (Text msg) "") then
        Some (NewMessage originalUserID (Text msg))
      else match Sticker msg, last (Photo msg), Video msg, Document msg with
           | Some file, _, _, _ => Some (StickerConfig originalUserID file)
           | None, Some file, _, _ =>
               Some (PhotoConfig originalUserID file (Caption msg) "" None)
           | None, None, Some file, _ =>
               Some (VideoConfig originalUserID file (Caption msg) "" None)
           | None, None, None, Some file =>
               Some (DocumentConfig originalUserID file (Caption msg) "" None)
           | None, None, None, None => None
           end in
    match replyMsg with
    | Some replyMsg =>
        r ← Send replyMsg;
        match r with
        | None =>
            _ ← Send (NewMessage (forwardToAdminID b)
                   ("❌ 回复用户 " +:+ Strconv.FormatInt originalUserID
                    +:+ " 失败。"));
            mret tt
        | Some _ =>
            _ ← Send (NewMessage (forwardToAdminID b) "✅ 已回复给用户。");
            mret tt
        end
    | None =>
        _ ← Send (NewMessage (forwardToAdminID b)
               "❌ 回复失败，不支持的消息类型。");
        mret tt
    end
  else
    _ ← Send (NewMessage (forwardToAdminID b)
           "❌ 回复失败，无法从此消息中解析到用户ID。");
    mret tt.

Definition handleAdminMessage (b : BotInstance) (msg : Message) : M unit :=
  match ReplyToMessage msg with
  | Some replied =>
      if forwardToAdminID b =? ChatID msg then replyToUser b msg replied
      else handleAdminCommand b msg
  | None => handleAdminCommand b msg
  end.

(** [strings.Split(q.Data, "_")]. *)
Definition underscore : ascii := "_"%char.

Definition handleCallbackQuery (b : BotInstance) (q : CallbackQuery) : M unit :=
  if Strings.HasPrefix (Data q) "unblock_" then
    match Strings.Split (Data q) underscore with
    | [_; part1] =>
        let '(userID, ok) := Strconv.ParseInt part1 in
        if negb ok then mret tt
        else
          err ← cache.RemoveBlockedUser userID;
          match err with
          | Some _ => mret tt
          | None =>
              _ ← Request (NewCallback (QueryID q) "✅ 用户已解除拉黑");
              let currentPage := 1 in
              message ← deref (QueryMessage q);
              handleListBlocked (ChatID message) currentPage
          end
    | _ => mret tt
    end
  else if Strings.HasPrefix (Data q) "page_prev_"
          || Strings.HasPrefix (Data q) "page_next_" then
    match Strings.Split (Data q) underscore with
    | [_; _; part2] =>
        let '(newPage, ok) := Strconv.Atoi part2 in
        if negb ok then mret tt
        else
          message ← deref (QueryMessage q);
          _ ← handleListBlocked (ChatID message) newPage;
          _ ← Request (NewCallback (QueryID q) "");
          mret tt
    | _ => mret tt
    end
  else if Strings.HasPrefix (Data q) "block_" then
    match Strings.Split (Data q) underscore with
    | [_; part1] =>
        let '(userID, ok) := Strconv.ParseInt part1 in
        if negb ok then mret tt
        else
          err ← cache.AddBlockedUser userID;
          match err with
          | Some _ => mret tt
          | None =>
              _ ← Request (NewCallback (QueryID q) "✅ 用户已拉黑"); mret tt
          end
    | _ => mret tt
    end
  else
    handled ← broadcast.HandleCallbackQuery q;
    if (handled : bool) then mret tt
    else _ ← Request (NewCallback (QueryID q) ""); mret tt.

Definition reservedChars : list ascii :=
  ["_"; "*"; "["; "]"; "("; ")"; "~"; "`"; ">"; "#"; "+"; "-"; "="; "|";
   "{"; "}"; "."; "!"]%char.

Definition escapeMarkdownV2 (text : string) : string :=
  fold_left
    (fun text char => Strings.ReplaceAll text char (String "\"%char (String char "")))
    reservedChars text.

Definition userCaption (from : User) : string :=
  let escapedName := escapeMarkdownV2 (FirstName from) in
  "收到来自用户 [" +:+ escapedName +:+ " \(" +:+ Strconv.FormatInt (ID from)
  +:+ "\)](tg://user?id=" +:+ Strconv.FormatInt (ID from) +:+ ") 的消息:".

Definition handleUserMessage (b : BotInstance) (msg : Message) : M unit :=
  from ← deref (From msg);
  '(isBlocked, err) ← cache.IsUserBlocked (ID from);
  match err with
  | Some _ => mret tt
  | None =>
      if (isBlocked : bool) then
        _ ← Send (NewMessage (ChatID msg) "您已经被拉黑，暂时无法使用。"); mret tt
      else if IsCommand msg && String.eqb (Command msg) "start" then
        _ ← setCommandsForUser b (ChatID msg);
        welcome.HandleStartCommand (ChatID msg)
      else if negb (forwardToAdminID b =? 0) then
        let caption := userCaption from in
        '(isBlocked, _) ← cache.IsUserBlocked (ID from);
        let blockButton :=
          if (isBlocked : bool)
          then NewInlineKeyboardButtonData "解除拉黑"
                 ("unblock_" +:+ Strconv.FormatInt (ID from))
          else NewInlineKeyboardButtonData "拉黑用户"
                 ("block_" +:+ Strconv.FormatInt (ID from)) in
        let dialogButton :=
          NewInlineKeyboardButtonURL "与用户对话"
            ("tg://user?id=" +:+ Strconv.FormatInt (ID from)) in
        let keyboard :=
          NewInlineKeyboardMarkup [NewInlineKeyboardRow [dialogButton; blockButton]] in
        let admin := forwardToAdminID b in
        toAdminMsg ←
          (if negb (String.eqb (Text msg) "") then
             let escapedText := escapeMarkdownV2 (Text msg) in
             mret (MessageConfig admin (caption +:+ nl +:+ nl +:+ escapedText)
                     "MarkdownV2" (Some keyboard))
           else match last (Photo msg), Sticker msg, Video msg, Document msg with
                | Some file, _, _, _ =>
                    mret (PhotoConfig admin file caption "MarkdownV2" (Some keyboard))
                | None, Some file, _, _ =>
                    _ ← Send (StickerConfig admin file);
                    mret (MessageConfig admin caption "MarkdownV2" (Some keyboard))
                | None, None, Some file, _ =>
                    mret (VideoConfig admin file caption "MarkdownV2" (Some keyboard))
                | None, None, None, Some file =>
                    mret (DocumentConfig admin file caption "MarkdownV2" (Some keyboard))
                | None, None, None, None =>
                    mret (MessageConfig admin
                            (caption +:+ nl +:+ nl +:+ "[不支持的消息类型]")
                            "MarkdownV2" (Some keyboard))
                end);
        _ ← Send toAdminMsg;
        _ ← Send (NewMessage (ChatID msg) "消息已收到，我们会尽快回复您。");
        mret tt
      else
        _ ← Send (NewMessage (ChatID msg)
               "抱歉，当前无法处理您的消息。请稍后再试或联系管理员。");
        mret tt
  end.

Definition handleMessage (b : BotInstance) (msg : Message) : M unit :=
  from ← deref (From msg);
  if isAdmin b (ID from) then handleAdminMessage b msg
  else handleUserMessage b msg.

Definition handleUpdate (b : BotInstance) (update : Update) : M unit :=
  match UpdateMessage update with
  | Some message =>
      _ ← (match From message with
           | Some _ => _ ← cache.StoreUserInfo (From message); mret tt
           | None => mret tt
           end);
      from ← deref (From message);
      '(isBlocked, _) ← cache.IsUserBlocked (ID from);
      _ ← (if negb isBlocked
           then cache.CheckAndAddUser cache.UsersSetKey (ID from)
           else mret tt);
      handleMessage b message
  | None =>
      match UpdateCallbackQuery update with
      | Some q => handleCallbackQuery b q
      | None => mret tt
      end
  end.

(** The body of the loop of [NewBotInstance] over the pieces of [ADMIN_IDS]. *)
Definition addAdminID (adminIDs : gmap Z bool) (idStr : string) : gmap Z bool :=
  let '(id, ok) := Strconv.ParseInt (Strings.TrimSpace idStr) in
  if (ok : bool) then <[id := true]> adminIDs else adminIDs.

Definition comma : ascii := ","%char.

(** [NewBotInstance]: the instance and the state it starts in, or the error
    returned.  The maps made by the two [NewManager] and the [adminStates]
    map they share start empty. *)
Definition NewBotInstance (env : Environment) : (BotInstance * World) + string :=
  let token := Getenv env "TELEGRAM_BOT_TOKEN" in
  if String.eqb token "" then inr "请设置 TELEGRAM_BOT_TOKEN 环境变量"
  else
    match NewBotAPI env token with
    | Some err => inr err
    | None =>
        let redisAddr := Getenv env "REDIS_ADDR" in
        let redisPassword := Getenv env "REDIS_PASSWORD" in
        let redisDBStr := Getenv env "REDIS_DB" in
        let '(redisDB, _) := Strconv.Atoi redisDBStr in
        match cache.NewRedisClient env redisAddr redisPassword redisDB with
        | Some err => inr ("无法连接到 Redis: " +:+ err)
        | None =>
            let adminIDStr := Getenv env "ADMIN_IDS" in
            let adminIDs :=
              if negb (String.eqb adminIDStr "")
              then fold_left addAdminID (Strings.Split adminIDStr comma) ∅
              else ∅ in
            let forwardToAdminIDStr := Getenv env "FORWARD_TO_ADMIN_ID" in
            let forwardToAdminID :=
              if negb (String.eqb forwardToAdminIDStr "")
              then fst (Strconv.ParseInt forwardToAdminIDStr)
              else 0 in
            inl ({| adminIDs := adminIDs; forwardToAdminID := forwardToAdminID |},
                 {| adminStates := ∅; Broadcasts := ∅;
                    BroadcastPromptMessageIDs := ∅;
                    redis := store env; redisCalls := 0;
                    redisFail := storeFail env;
                    sent := []; apiResult := apiAnswers env;
                    spawned := []; logs := [] |})
        end
    end.

(** [Run]: every update the channel delivers, in order, until it is closed. *)
Fixpoint Run (b : BotInstance) (updates : list Update) : M unit :=
  match updates with
  | [] => mret tt
  | update :: rest => _ ← handleUpdate b update; Run b rest
  end.

(** [main]: the fatal error of the start-up, or the run of the instance
    ([None] when it panics, the final state otherwise). *)
Definition main (env : Environment) (updates : list Update) :
    option World + string :=
  match NewBotInstance env with
  | inr err => inr ("初始化机器人失败: " +:+ err)
  | inl (bot, w) => inl (snd <$> Run bot updates w)
  end.

End main.

(** * Notions used to state the properties *)

(** Sample data for the concrete instances below. *)
Module Sample.

(** An idle process with an empty store that never fails; the Bot API
    answers the [n]-th request with message [100 + n]. *)
Definition idle : World :=
  {| adminStates := ∅; Broadcasts := ∅; BroadcastPromptMessageIDs := ∅;
     redis := {| rsets := ∅; rstrings := ∅; rhashes := ∅ |};
     redisCalls := 0; redisFail := fun _ => None;
     sent := []; apiResult := fun n => Some (100 + Z.of_nat n);
     spawned := []; logs := [] |}.

Definition user (id : Z) : User :=
  {| ID := id; FirstName := "Ann"; LastName := ""; UserName := "" |}.

(** A plain text message sent by [id] in the private chat with the bot. *)
Definition textFrom (id : Z) (text : string) : Message :=
  {| MessageID := 1; From := Some (user id); ChatID := id; Text := text;
     Caption := ""; Photo := []; Video := None; Sticker := None;
     Document := None; ReplyToMessage := None; IsCommand := false;
     Command := "" |}.

(** A press on a button carrying [data] in the chat [id]. *)
Definition press (id : Z) (data : string) : CallbackQuery :=
  {| QueryID := "q"; Data := data; QueryMessage := Some (textFrom id "") |}.

(** One administrator, 7, whose chat also receives the forwarded messages. *)
Definition bot : main.BotInstance :=
  {| main.adminIDs := {[ 7 := true ]}; main.forwardToAdminID := 7 |}.

Definition withState (chat state : Z) (w : World) : World :=
  setAdminStates <[chat := state]> w.
Definition withDraft (chat : Z) (d : Draft.Message) (w : World) : World :=
  setBroadcasts <[chat := d]> w.
Definition withSets (users blocked : gset string) (w : World) : World :=
  redisAnswered
    {| rsets := <[cache.UsersSetKey := users]>
                  (<[cache.BlockedUsersSet := blocked]> ∅);
       rstrings := ∅; rhashes := ∅ |} w.

End Sample.

(** The world [w] with a store whose call number [k] fails with [e], every
    other call being answered. *)
Definition failingAt (k : nat) (e : string) (w : World) : World :=
  {| adminStates := adminStates w; Broadcasts := Broadcasts w;
     BroadcastPromptMessageIDs := BroadcastPromptMessageIDs w;
     redis := redis w; redisCalls := redisCalls w;
     redisFail := fun n => if Nat.eqb n k then Some e else None;
     sent := sent w; apiResult := apiResult w; spawned := spawned w;
     logs := logs w |}.

(** The notices for a draft without content. *)
Definition previewEmptyNotice (chatID : Z) : Chattable :=
  NewMessage chatID "无法预览，广播内容为空。".
Definition sendEmptyNotice (chatID : Z) : Chattable :=
  NewMessage chatID "无法发送，广播内容为空。".

(** The sets of the store the claims speak of. *)
Definition knownUsers (w : World) : gset string :=
  cache.members cache.UsersSetKey (redis w).
Definition blockedUsers (w : World) : gset string :=
  cache.members cache.BlockedUsersSet (redis w).

(** The update that delivers the message [msg]. *)
Definition messageUpdate (msg : Message) : Update :=
  {| UpdateMessage := Some msg; UpdateCallbackQuery := None |}.

Definition blockedNotice (chatID : Z) : Chattable :=
  NewMessage chatID "您已经被拉黑，暂时无法使用。".

(** The world after [StoreUserInfo] wrote the three fields of [user]. *)
Definition storedUserInfo (user : User) (w : World) : World :=
  let key := cache.userKey (ID user) in
  let w1 := redisAnswered
              (snd (cache.HSet key "first_name" (FirstName user) (redis w))) w in
  let w2 := redisAnswered
              (snd (cache.HSet key "last_name" (LastName user) (redis w1))) w1 in
  redisAnswered (snd (cache.HSet key "username" (UserName user) (redis w2))) w2.

(** The byte [c] occurs in [s]. *)
Fixpoint occurs (c : ascii) (s : string) : bool :=
  match s with
  | EmptyString => false
  | String a r => Ascii.eqb a c || occurs c r
  end.

(** The scheme check of the broadcast flow. *)
Definition schemeOK (url : string) : Prop :=
  Strings.HasPrefix url "http://" = true \/ Strings.HasPrefix url "https://" = true.

(** A line that the broadcast flow accepts, in the words of the specification
    but for the separator: the line is blank, or it splits at its first [|]
    into a label and a URL that are not blank, the URL having one of the two
    schemes once its backticks are trimmed.  Further [|] belong to the URL. *)
Definition lineAccepted (raw : string) : Prop :=
  let line := Strings.TrimSpace raw in
  line = ""
  \/ exists label url : string,
       line = label +:+ String Strings.Pipe url
       /\ occurs Strings.Pipe label = false
       /\ Strings.TrimSpace label <> ""
       /\ Strings.TrimSpace url <> ""
       /\ schemeOK (Strings.Trim (Strings.TrimSpace url) Strings.Backtick).

(** The message that refuses a button specification. *)
Definition refusal (chatID : Z) (e : broadcast.ButtonLineError) : Chattable :=
  MessageConfig chatID (broadcast.lineErrorText e) ""
    (Some broadcast.getSkipButtonsKeyboard).

(** The two error texts of the broadcast flow about the line of index [k],
    whose number counted from 1 is written in decimal: the one that quotes
    the line, the one that quotes its URL. *)
Definition formatComplaint (k : nat) (line : string) : string :=
  "第 " +:+ Strconv.FormatInt (Z.of_nat k + 1) +:+ " 行格式错误：" +:+ line +:+ nl
  +:+ "正确格式为：按钮文字 | 链接" +:+ nl
  +:+ "例如：关注频道 | https://t.me/channel".
Definition schemeComplaint (k : nat) (url : string) : string :=
  "第 " +:+ Strconv.FormatInt (Z.of_nat k + 1) +:+ " 行 URL 无效：" +:+ url +:+ nl
  +:+ "请使用 http:// 或 https:// 开头的链接".

(** [text] is the error about the offending line [raw] of index [k].  A line
    that is not blank and does not split at its first [|] into a label and a
    URL that are not blank is quoted trimmed; a line that does, and whose URL
    has neither scheme once its backticks are trimmed, has that URL quoted. *)
Inductive complaint (k : nat) (raw : string) : string -> Prop :=
| malformed :
    Strings.TrimSpace raw <> "" ->
    (forall label url : string,
       Strings.TrimSpace raw = label +:+ String Strings.Pipe url ->
       occurs Strings.Pipe label = false ->
       Strings.TrimSpace label = "" \/ Strings.TrimSpace url = "") ->
    complaint k raw (formatComplaint k (Strings.TrimSpace raw))
| badScheme (label url : string) :
    Strings.TrimSpace raw = label +:+ String Strings.Pipe url ->
    occurs Strings.Pipe label = false ->
    Strings.TrimSpace label <> "" ->
    Strings.TrimSpace url <> "" ->
    ~ schemeOK (Strings.Trim (Strings.TrimSpace url) Strings.Backtick) ->
    complaint k raw
      (schemeComplaint k (Strings.Trim (Strings.TrimSpace url) Strings.Backtick)).

(** The report of [/stats]: the three counts in decimal, one per line. *)
Definition statsReport (total active blocked : Z) : string :=
  "用户统计：" +:+ nl
  +:+ "- 总用户数: " +:+ Strconv.FormatInt total +:+ nl
  +:+ "- 活跃用户数: " +:+ Strconv.FormatInt active +:+ nl
  +:+ "- 拉黑用户数: " +:+ Strconv.FormatInt blocked.

(** One line of a button specification as [ParseButtons] reads it: a line
    whose trimmed text holds a [|] gives the button of the trimmed label
    before the first [|] and of the trimmed URL after it, backticks stripped;
    any other line gives none. *)
Definition lineButton (raw : string) : option InlineKeyboardButton :=
  match Strings.Cut (Strings.TrimSpace raw) Strings.Pipe with
  | Some (label, url) =>
      Some (ButtonURL (Strings.TrimSpace label)
              (Strings.Trim (Strings.TrimSpace url) Strings.Backtick))
  | None => None
  end.

(** Two per row, row-major, in order; a last row of one when the number is
    odd. *)
Fixpoint pairUp {A : Type} (l : list A) : list (list A) :=
  match l with
  | a :: b :: rest => [a; b] :: pairUp rest
  | [a] => [[a]]
  | [] => []
  end.

(** The string starts with a rune that trimming removes. *)
Definition startsWithRune (p1 : ascii -> bool) (p2 : ascii -> ascii -> bool)
    (p3 : ascii -> ascii -> ascii -> bool) (s : string) : bool :=
  match s with
  | String a r =>
      p1 a
      || match r with
         | String b r' =>
             p2 a b || match r' with String c _ => p3 a b c | EmptyString => false end
         | EmptyString => false
         end
  | EmptyString => false
  end.

(** Follows the specification's words (section 8, round trip); the source
    has no serializer.  One [label | url] line per button, in row-major
    order, the lines joined by line feeds. *)
Definition buttonLine (b : InlineKeyboardButton) : string :=
  match b with
  | ButtonURL text url => text +:+ " | " +:+ url
  | ButtonData text _ => text
  end.

Definition serialize (rows : InlineKeyboardMarkup) : string :=
  Strings.Join (map buttonLine (concat rows)) nl.

(** Labels and URLs that survive a line: not empty, without surrounding
    white space, on one line; a label holds no [|], a URL has no backtick at
    either end. *)
Definition validLabel (label : string) : Prop :=
  label <> "" /\ Strings.TrimSpace label = label
  /\ occurs Strings.Pipe label = false /\ occurs Strings.LF label = false.

Definition validURL (url : string) : Prop :=
  url <> "" /\ Strings.TrimSpace url = url
  /\ Strings.Trim url Strings.Backtick = url /\ occurs Strings.LF url = false.

Definition validButton (b : InlineKeyboardButton) : Prop :=
  match b with
  | ButtonURL label url => validLabel label /\ validURL url
  | ButtonData _ _ => False
  end.

(** The URL of the button has no white space at either end. *)
Definition urlTrimmed (b : InlineKeyboardButton) : Prop :=
  match b with
  | ButtonURL _ url => Strings.TrimSpace url = url
  | ButtonData _ _ => True
  end.

(** The number of pages of a list of [n] entries, as the source computes it;
    [pageCount_ceiling] below shows it to be the ceiling of [n / 10]. *)
Definition pageCount (n : Z) : Z :=
  Z.quot (n + main.UsersPerPage - 1) main.UsersPerPage.

(** The page shown for a requested page: the page itself within
    [1, total], page 1 otherwise. *)
Definition shownPage (page total : Z) : Z :=
  if (1 <=? page) && (page <=? total) then page else 1.

(** The entries [(p - 1) * 10 + 1] to [min (p * 10) len] of the list. *)
Definition pageEntries (ids : list string) (p : Z) : list string :=
  take 10 (drop (Z.to_nat ((p - 1) * 10)) ids).

(** The numbered line of one entry, and the lines of consecutive entries. *)
Definition entryLine (number : Z) (name id : string) : string :=
  Strconv.FormatInt number +:+ ". " +:+ name +:+ " - ID: " +:+ id +:+ nl.

Fixpoint entryLines (number : Z) (named : list (string * string)) : string :=
  match named with
  | [] => ""
  | (name, id) :: rest => entryLine number name id +:+ entryLines (number + 1) rest
  end.

(** The keyboard row that unblocks one entry. *)
Definition unblockRow (labelled : string * string) : list InlineKeyboardButton :=
  [ButtonData (fst labelled) ("unblock_" +:+ snd labelled)].

Definition previousButton (p : Z) : InlineKeyboardButton :=
  ButtonData "上一页" ("page_prev_" +:+ Strconv.FormatInt (p - 1)).
Definition nextButton (p : Z) : InlineKeyboardButton :=
  ButtonData "下一页" ("page_next_" +:+ Strconv.FormatInt (p + 1)).

(** The navigation row of page [p] of [total]: a previous button exactly
    when [p > 1], a next button exactly when [p < total], no row when there
    is neither. *)
Definition navigation (p total : Z) : list (list InlineKeyboardButton) :=
  match p >? 1, p <? total with
  | true, true => [[previousButton p; nextButton p]]
  | true, false => [[previousButton p]]
  | false, true => [[nextButton p]]
  | false, false => []
  end.

(** Twenty-five blocked identifiers, 1001 to 1025. *)
Definition blocked25 : gset string :=
  list_to_set (map (fun n => Strconv.FormatInt (1000 + Z.of_nat n)) (seq 1 25)).

(** Unfolds the operations of the monad in the goal. *)
Ltac msimpl :=
  unfold mbind, mret, M_bind, M_ret, world, gets, modify, deref, panic,
    Send, Request, logEvent, go; simpl.

(** Unfolds every operation of the monad, leaving the calls to the store
    and the handlers in place for rewriting. *)
Ltac mrun :=
  unfold world, logEvent, go, Request;
  unfold deref, gets, modify, panic, Send;
  unfold mbind, M_bind, mret, M_ret; cbv beta iota.

(** ** Notions for the store, the flows and the dispatcher *)

(** The range of the 64-bit integers of Go. *)
Definition int64 (i : Z) : Prop := - 2 ^ 63 <= i < 2 ^ 63.

(** Every byte of the string satisfies [P]. *)
Fixpoint allBytes (P : ascii -> bool) (s : string) : bool :=
  match s with
  | EmptyString => true
  | String c r => P c && allBytes P r
  end.

(** A decimal digit. *)
Definition isDigit (c : ascii) : bool := bool_decide (is_Some (Strconv.digit c)).

(** The values the code ever writes into [adminStates]. *)
Definition knownState (s : Z) : Prop :=
  s = main.StateNone
  \/ s = broadcast.StateBroadcastAwaitText
  \/ s = broadcast.StateBroadcastAwaitMedia
  \/ s = broadcast.StateBroadcastAwaitButtons
  \/ s = welcome.StateAwaitingWelcomeMessage
  \/ s = welcome.StateAwaitingWelcomeButtons.

(** A draft whose media, if any, is a photo or a video. *)
Definition mediaOK (d : Draft.Message) : Prop :=
  Draft.MediaID d = "" \/ Draft.Type' d = "photo" \/ Draft.Type' d = "video".

(** The store answers every call. *)
Definition storeAnswers (w : World) : Prop := forall n : nat, redisFail w n = None.

(** The value the store holds at a configuration key, empty when absent. *)
Definition configValue (key : string) (w : World) : string :=
  default "" (rstrings (redis w) !! key).

(** The three fields [StoreUserInfo] writes, in the order of the source. *)
Definition userFields (user : User) : list (string * string) :=
  [("first_name", FirstName user); ("last_name", LastName user);
   ("username", UserName user)].

(** The store once the fields were written to the hash [key], in order. *)
Definition writeFields (key : string) (fields : list (string * string))
    (r : Redis) : Redis :=
  fold_left (fun r fv => snd (cache.HSet key (fst fv) (snd fv) r)) fields r.

(** The greeting the bot sends when no welcome text is stored. *)
Definition builtInGreeting : string :=
  "👋 欢迎光临，我是私信小助手。直接在这里发消息，技术会回复。".

(** The text of the greeting in the world [w]: the stored welcome text when
    the store answers the read and the text is not empty, the built-in
    greeting otherwise. *)
Definition greetingText (w : World) : string :=
  if bool_decide (redisFail w (redisCalls w) = None
                  /\ configValue welcome.ConfigWelcomeMessage w <> "")
  then configValue welcome.ConfigWelcomeMessage w
  else builtInGreeting.

(** Its keyboard: the rows parsed from the stored buttons when the store
    answers the second read and there is a row, none otherwise. *)
Definition greetingMarkup (w : World) : option InlineKeyboardMarkup :=
  if bool_decide (redisFail w (S (redisCalls w)) = None)
  then
    let keyboard := welcome.ParseButtons (configValue welcome.ConfigWelcomeButtons w) in
    if nonEmpty keyboard then Some keyboard else None
  else None.

(** The greeting as it is sent to a chat. *)
Definition greeting (chatID : Z) (w : World) : Chattable :=
  MessageConfig chatID (greetingText w) "" (greetingMarkup w).

(** The notice sent when the store refuses to save the input of the state. *)
Definition saveFailureNotice (state : Z) (e : string) : string :=
  if state =? welcome.StateAwaitingWelcomeMessage
  then "保存欢迎语失败: " +:+ e
  else "保存按钮失败: " +:+ e.

(** The media a message carries for the broadcast flow: its largest photo,
    or else its video. *)
Definition mediaOf (msg : Message) : option (string * string) :=
  match last (Photo msg), Video msg with
  | Some fileID, _ => Some (fileID, "photo")
  | None, Some fileID => Some (fileID, "video")
  | None, None => None
  end.

(** The builder menu shown for a draft. *)
Definition builderMenu (chatID : Z) (d : Draft.Message) : Chattable :=
  MessageConfig chatID (broadcast.builderMenuText d) ModeMarkdown
    (Some (broadcast.getBroadcastBuilderKeyboard d)).

(** The request that removes the previous menu of the chat, if one is
    recorded. *)
Definition menuCleanup (chatID : Z) (w : World) : list Chattable :=
  let old := default 0 (BroadcastPromptMessageIDs w !! chatID) in
  if old =? 0 then [] else [NewDeleteMessage chatID old].

(** The answer of the builder to an input that holds no text. *)
Definition textRefusal (chatID : Z) : Chattable :=
  MessageConfig chatID "请输入有效的文本内容，或点击下方按钮取消。" ""
    (Some [[ButtonData "❌ 取消广播" "bbuild_cancel"]]).

(** The answer of the builder to an input that holds no photo and no video. *)
Definition mediaRefusal (chatID : Z) : Chattable :=
  MessageConfig chatID "❌ 无效输入。请发送图片或视频，或点击下方按钮跳过。" ""
    (Some [[ButtonData "⏭️ 跳过媒体" "bbuild_skip_media"]]).

(** The prompt that follows an accepted text. *)
Definition mediaPrompt (chatID : Z) : Chattable :=
  MessageConfig chatID
    "文本已设置！请发送一张图片或一个视频作为广播的媒体内容，或点击下方按钮跳过："
    "" (Some broadcast.getSkipMediaKeyboard).

(** The prompt that follows an accepted photo or video. *)
Definition buttonsPrompt (chatID : Z) : Chattable :=
  MessageConfig chatID ("媒体已设置！" +:+ broadcast.buttonsPromptTail)
    ModeMarkdown (Some broadcast.getSkipButtonsKeyboard).

(** A draft that [sendComplexMessage] can send: it has a text or a medium,
    and the medium, if any, is a photo or a video. *)
Definition sendable (d : Draft.Message) : Prop :=
  mediaOK d /\ (Draft.Text d <> "" \/ Draft.MediaID d <> "").

(** The message that carries a sendable draft to a chat. *)
Definition complexMessage (chatID : Z) (d : Draft.Message) : Chattable :=
  let text := "📢 " +:+ Draft.Text d in
  let markup :=
    if nonEmpty (Draft.Buttons d) then Some (Draft.Buttons d) else None in
  if String.eqb (Draft.MediaID d) "" then MessageConfig chatID text "" markup
  else if String.eqb (Draft.Type' d) "photo"
       then PhotoConfig chatID (Draft.MediaID d) text "" markup
       else VideoConfig chatID (Draft.MediaID d) text "" markup.




(** The computation [c] runs to its end (it does not panic) from every
    state that is [Good], and the state it ends in is [Good] again. *)
Definition keeps (Good : World -> Prop) {A : Type} (c : M A) : Prop :=
  forall w : World,
    Good w -> exists (a : A) (w' : World), c w = Some (a, w') /\ Good w'.

(** An update the handlers can take apart: its message has a sender, whose
    identifier fits 64 bits; its callback query carries the message of the
    button. *)
Definition wellFormed (u : Update) : Prop :=
  match UpdateMessage u, UpdateCallbackQuery u with
  | Some msg, _ => exists from : User, From msg = Some from /\ int64 (ID from)
  | None, Some q => exists message : Message, QueryMessage q = Some message
  | None, None => True
  end.

(** Every state recorded for a chat is one the code knows. *)
Definition statesOK (w : World) : Prop :=
  forall (chat s : Z), adminStates w !! chat = Some s -> knownState s.

(** Every draft kept for a chat has media of a kind that can be sent. *)
Definition draftsOK (w : World) : Prop :=
  forall (chat : Z) (d : Draft.Message), Broadcasts w !! chat = Some d -> mediaOK d.

(** A member of a user set written as [FormatInt] writes a 64-bit number. *)
Definition canonical (member : string) : Prop :=
  exists id : Z, int64 id /\ member = Strconv.FormatInt id.

(** The two user sets of the store hold canonical members only. *)
Definition setsOK (r : Redis) : Prop :=
  forall member : string,
    member ∈ cache.members cache.UsersSetKey r
    \/ member ∈ cache.members cache.BlockedUsersSet r ->
    canonical member.

(** The invariant of the state. *)
Definition Inv (w : World) : Prop :=
  statesOK w /\ draftsOK w /\ setsOK (redis w).

(** A character that [escapeMarkdownV2] escapes. *)
Definition reserved (c : ascii) : bool :=
  existsb (Ascii.eqb c)
    ["_"; "*"; "["; "]"; "("; ")"; "~"; "`"; ">"; "#"; "+"; "-"; "="; "|";
     "{"; "}"; "."; "!"]%char.

(** Escaping in one pass: a backslash is put in front of every character of
    the set [escaped], the other characters are kept. *)
Fixpoint escapeEach (escaped : ascii -> bool) (s : string) : string :=
  match s with
  | EmptyString => EmptyString
  | String c r =>
      if escaped c then String "\" (String c (escapeEach escaped r))
      else String c (escapeEach escaped r)
  end.

(** The keyboard under a message forwarded to the admin chat: the link to
    the user and the button that blocks the user. *)
Definition forwardKeyboard (from : User) : InlineKeyboardMarkup :=
  [[ButtonURL "与用户对话" ("tg://user?id=" +:+ Strconv.FormatInt (ID from));
    ButtonData "拉黑用户" ("block_" +:+ Strconv.FormatInt (ID from))]].

(** The copy of a text message that goes to the admin chat. *)
Definition forwardedText (b : main.BotInstance) (from : User) (text : string) :
    Chattable :=
  MessageConfig (main.forwardToAdminID b)
    (("收到来自用户 [" +:+ escapeEach reserved (FirstName from) +:+ " \("
      +:+ Strconv.FormatInt (ID from) +:+ "\)](tg://user?id="
      +:+ Strconv.FormatInt (ID from) +:+ ") 的消息:")
     +:+ nl +:+ nl +:+ escapeEach reserved text)
    "MarkdownV2" (Some (forwardKeyboard from)).

(** What a user is told once the message went to the admin chat. *)
Definition receipt (chatID : Z) : Chattable :=
  NewMessage chatID "消息已收到，我们会尽快回复您。".

(** What a user is told when no admin chat is configured. *)
Definition apology (chatID : Z) : Chattable :=
  NewMessage chatID "抱歉，当前无法处理您的消息。请稍后再试或联系管理员。".

(** The byte that [findUserID] looks for. *)
Definition openParen : ascii := "("%char.

(** What the admin is told after a reply was handed to the Bot API. *)
Definition replyOutcome (b : main.BotInstance) (userID : Z) (answer : option Z) :
    Chattable :=
  NewMessage (main.forwardToAdminID b)
    match answer with
    | Some _ => "✅ 已回复给用户。"
    | None => "❌ 回复用户 " +:+ Strconv.FormatInt userID +:+ " 失败。"
    end.

(** What the administrator is told when the quoted message names no user. *)
Definition noUserNotice (b : main.BotInstance) : Chattable :=
  NewMessage (main.forwardToAdminID b) "❌ 回复失败，无法从此消息中解析到用户ID。".

(** A byte of a decimal rendering: a digit or the minus sign. *)
Definition isDecimal (c : ascii) : bool := isDigit c || Ascii.eqb c "-".

(** What [handleListBlocked] leaves alone: the store, the states, and what
    was sent before. *)
Definition listingFrame (r : Redis) (states : gmap Z Z) (before : list Chattable)
    (w : World) : Prop :=
  redis w = r /\ adminStates w = states /\ exists rest, sent w = before ++ rest.


(** The command menu registered for a chat. *)
Definition commandMenu (b : main.BotInstance) (chatID : Z) : Chattable :=
  SetMyCommandsConfig chatID
    (if main.isAdmin b chatID
     then [("start", "查看欢迎信息"); ("setwelcome", "设置欢迎语");
           ("setbuttons", "设置欢迎按钮"); ("broadcast", "创建广播");
           ("listblocked", "查看拉黑用户列表"); ("stats", "查看用户统计")]
     else [("start", "获取欢迎信息")]).

(** The keyboard has a button that carries the callback data [data]. *)
Definition offers (keyboard : InlineKeyboardMarkup) (data : string) : Prop :=
  exists text : string, In (ButtonData text data) (concat keyboard).

(** The line that precedes a preview. *)
Definition previewHeader (chatID : Z) : Chattable :=
  NewMessage chatID "--- 预览 ---".

(** A message of the administrator 7 written in the group chat -100. *)
Definition groupText (text : string) : Message :=
  {| MessageID := 1; From := Some (Sample.user 7); ChatID := -100; Text := text;
     Caption := ""; Photo := []; Video := None; Sticker := None;
     Document := None; ReplyToMessage := None; IsCommand := false;
     Command := "" |}.

(** A photo in two sizes sent by [id] in the private chat with the bot. *)
Definition photoFrom (id : Z) : Message :=
  {| MessageID := 2; From := Some (Sample.user id); ChatID := id; Text := "";
     Caption := ""; Photo := ["small"; "large"]; Video := None; Sticker := None;
     Document := None; ReplyToMessage := None; IsCommand := false;
     Command := "" |}.

(** The command [/start] sent by [id] in the private chat with the bot. *)
Definition startFrom (id : Z) : Message :=
  {| MessageID := 3; From := Some (Sample.user id); ChatID := id; Text := "/start";
     Caption := ""; Photo := []; Video := None; Sticker := None;
     Document := None; ReplyToMessage := None; IsCommand := true;
     Command := "start" |}.

(** The administrator 7 answers, with [text], the forwarded message
    [quoted]. *)
Definition replyTo (quoted text : string) : Message :=
  {| MessageID := 4; From := Some (Sample.user 7); ChatID := 7; Text := text;
     Caption := ""; Photo := []; Video := None; Sticker := None;
     Document := None;
     ReplyToMessage := Some {| ReplyText := quoted; ReplyCaption := "" |};
     IsCommand := false; Command := "" |}.

(** A draft that holds a text only. *)
Definition textDraft (text : string) : Draft.Message :=
  {| Draft.Text := text; Draft.MediaID := ""; Draft.Type' := "";
     Draft.Buttons := [] |}.

(** An environment in which the start-up succeeds: a token, three entries
    in [ADMIN_IDS] of which the last is no number, the admin chat 7, and an
    empty store. *)
Definition sampleEnvironment : Environment :=
  {| Getenv := fun name =>
       if String.eqb name "TELEGRAM_BOT_TOKEN" then "token"
       else if String.eqb name "ADMIN_IDS" then "7, 8,x"
       else if String.eqb name "FORWARD_TO_ADMIN_ID" then "7"
       else "";
     NewBotAPI := fun _ => None;
     Ping := fun _ _ _ => None;
     store := {| rsets := ∅; rstrings := ∅; rhashes := ∅ |};
     storeFail := fun _ => None;
     apiAnswers := fun n => Some (100 + Z.of_nat n) |}.

(** * Properties *)

(** ** The cleared state and the stateful handlers (C1) *)

(** With the state of the sender present in the map and equal to 0, the
    welcome manager does not claim the message. *)
Lemma welcome_ignores_cleared (msg : Message) (from : User) (w : World) :
  From msg = Some from ->
  adminStates w !! ID from = Some 0 ->
  welcome.HandleAdminMessageInput msg w = Some (false, w).
Proof.
  intros Hfrom Hstate. unfold welcome.HandleAdminMessageInput. msimpl.
  rewrite Hfrom. simpl. rewrite Hstate. reflexivity.
Qed.

(** The broadcast manager claims it: its [switch] matches no case and the
    function ends in [return true]. *)
Lemma broadcast_claims_cleared (msg : Message) (w : World) :
  adminStates w !! ChatID msg = Some 0 ->
  broadcast.HandleMessageInput msg w = Some (true, w).
Proof.
  intros Hstate. unfold broadcast.HandleMessageInput. msimpl.
  rewrite Hstate. reflexivity.
Qed.

(** A chat that never had a state is claimed by neither handler. *)
Lemma broadcast_ignores_absent (msg : Message) (w : World) :
  adminStates w !! ChatID msg = None ->
  broadcast.HandleMessageInput msg w = Some (false, w).
Proof.
  intros Hstate. unfold broadcast.HandleMessageInput. msimpl.
  rewrite Hstate. reflexivity.
Qed.

Lemma dispatcher_on_cleared (msg : Message) (from : User) (w : World) :
  From msg = Some from ->
  ID from = ChatID msg ->
  adminStates w !! ChatID msg = Some 0 ->
  main.handleAdminStatefulMessage msg w
  = Some (tt, logged (LogHandledByBroadcast (ChatID msg)) w).
Proof.
  intros Hfrom Hid Hstate. unfold main.handleAdminStatefulMessage.
  unfold mbind at 1, M_bind at 1.
  rewrite (welcome_ignores_cleared msg from w Hfrom) by (rewrite Hid; exact Hstate).
  unfold mbind at 1, M_bind at 1.
  rewrite (broadcast_claims_cleared msg w Hstate). reflexivity.
Qed.

(** C1, at the chat 42 whose flow was cancelled (state written back as 0)
    and the admin message "hello": the welcome manager returns [false], the
    broadcast manager returns [true], and the dispatcher logs the message as
    handled by the broadcast manager instead of as unhandled. *)
Theorem C1_cleared_state_is_claimed_by_broadcast :
  let w := Sample.withState 42 main.StateNone Sample.idle in
  let msg := Sample.textFrom 42 "hello" in
  welcome.HandleAdminMessageInput msg w = Some (false, w)
  /\ broadcast.HandleMessageInput msg w = Some (true, w)
  /\ main.handleAdminStatefulMessage msg w
     = Some (tt, logged (LogHandledByBroadcast 42) w).
Proof.
  intros w msg.
  assert (Hstate : adminStates w !! ChatID msg = Some 0) by reflexivity.
  split; [| split].
  - apply (welcome_ignores_cleared msg (Sample.user 42)); [reflexivity | exact Hstate].
  - apply broadcast_claims_cleared. exact Hstate.
  - apply (dispatcher_on_cleared msg (Sample.user 42)); [reflexivity | reflexivity | exact Hstate].
Qed.

(** ** Drafts without content (C3) *)

Lemma preview_rejects_empty (chatID : Z) (w : World) :
  Draft.Text (broadcast.draftOf w chatID) = "" ->
  Draft.MediaID (broadcast.draftOf w chatID) = "" ->
  broadcast.sendBroadcastPreview chatID w
  = Some (tt, delivered (previewEmptyNotice chatID) w).
Proof.
  intros Htext Hmedia. unfold broadcast.sendBroadcastPreview. msimpl.
  rewrite Htext, Hmedia. reflexivity.
Qed.

Lemma execute_rejects_empty (chatID : Z) (w : World) :
  Draft.Text (broadcast.draftOf w chatID) = "" ->
  Draft.MediaID (broadcast.draftOf w chatID) = "" ->
  broadcast.executeBroadcast chatID w
  = Some (tt, delivered (sendEmptyNotice chatID) w).
Proof.
  intros Htext Hmedia. unfold broadcast.executeBroadcast. msimpl.
  rewrite Htext, Hmedia. reflexivity.
Qed.

(** C3: for a draft with empty text and empty media, [sendBroadcastPreview]
    and [executeBroadcast] each send the empty-content notice to the admin
    chat and nothing else: no goroutine is started, the set of known users
    is not even read, and no other request reaches the Bot API. *)
Theorem C3_empty_draft_is_rejected (chatID : Z) (w : World) :
  Draft.Text (broadcast.draftOf w chatID) = "" ->
  Draft.MediaID (broadcast.draftOf w chatID) = "" ->
  exists w1 w2 : World,
    broadcast.sendBroadcastPreview chatID w = Some (tt, w1)
    /\ broadcast.executeBroadcast chatID w = Some (tt, w2)
    /\ sent w1 = sent w ++ [previewEmptyNotice chatID]
    /\ sent w2 = sent w ++ [sendEmptyNotice chatID]
    /\ spawned w1 = spawned w /\ spawned w2 = spawned w
    /\ redisCalls w1 = redisCalls w /\ redisCalls w2 = redisCalls w.
Proof.
  intros Htext Hmedia.
  exists (delivered (previewEmptyNotice chatID) w),
    (delivered (sendEmptyNotice chatID) w).
  rewrite preview_rejects_empty, execute_rejects_empty by assumption.
  repeat split.
Qed.

Lemma C3_empty_draft_is_rejected_witness :
  exists w1 w2 : World,
    broadcast.sendBroadcastPreview 7 Sample.idle = Some (tt, w1)
    /\ broadcast.executeBroadcast 7 Sample.idle = Some (tt, w2)
    /\ sent w1 = sent Sample.idle ++ [previewEmptyNotice 7]
    /\ sent w2 = sent Sample.idle ++ [sendEmptyNotice 7]
    /\ spawned w1 = spawned Sample.idle /\ spawned w2 = spawned Sample.idle
    /\ redisCalls w1 = redisCalls Sample.idle
    /\ redisCalls w2 = redisCalls Sample.idle.
Proof.
  apply (C3_empty_draft_is_rejected 7 Sample.idle); reflexivity.
Defined.

(** ** A Send that is refused (C4) *)

(** What the case [bbuild_send] of [HandleCallbackQuery] does when
    [executeBroadcast] refuses a draft without content: the notice is sent,
    and then the state is set to 0, the draft and the prompt handle are
    deleted, and the menu message is removed, as after a broadcast that was
    sent. *)
Lemma refused_send_tears_down (q : CallbackQuery) (message : Message) (w : World) :
  Data q = "bbuild_send" ->
  QueryMessage q = Some message ->
  Draft.Text (broadcast.draftOf w (ChatID message)) = "" ->
  Draft.MediaID (broadcast.draftOf w (ChatID message)) = "" ->
  broadcast.HandleCallbackQuery q w
  = Some (true,
          delivered (NewDeleteMessage (ChatID message) (MessageID message))
            (setPromptIDs (delete (ChatID message))
               (setBroadcasts (delete (ChatID message))
                  (setAdminStates <[ChatID message := 0]>
                     (delivered (sendEmptyNotice (ChatID message))
                        (delivered (NewCallback (QueryID q) "") w)))))).
Proof.
  intros Hdata Hmessage Htext Hmedia.
  unfold broadcast.HandleCallbackQuery. rewrite Hdata, Hmessage. msimpl.
  unfold broadcast.executeBroadcast. msimpl.
  change (broadcast.draftOf (delivered (NewCallback (QueryID q) "") w) (ChatID message))
    with (broadcast.draftOf w (ChatID message)).
  rewrite Htext, Hmedia. reflexivity.
Qed.

(** C4, at the chat 7 in the state [StateBroadcastAwaitButtons] whose draft
    holds one button and neither text nor media, and a press on Send: the
    empty-content notice is sent, and yet the state tag becomes 0 and the
    draft is deleted; the failing operation does not leave them as they
    were. *)
Theorem C4_refused_send_changes_state_and_draft :
  let d := {| Draft.Text := ""; Draft.MediaID := ""; Draft.Type' := "";
              Draft.Buttons := [[ButtonURL "Join" "https://x.test"]] |} in
  let w := Sample.withDraft 7 d
             (Sample.withState 7 broadcast.StateBroadcastAwaitButtons Sample.idle) in
  exists w' : World,
    broadcast.HandleCallbackQuery (Sample.press 7 "bbuild_send") w = Some (true, w')
    /\ sent w' = [NewCallback "q" ""; sendEmptyNotice 7; NewDeleteMessage 7 1]
    /\ adminStates w !! 7 = Some 12 /\ adminStates w' !! 7 = Some 0
    /\ Broadcasts w !! 7 = Some d /\ Broadcasts w' !! 7 = None.
Proof.
  intros d w. eexists. split.
  - apply (refused_send_tears_down _ (Sample.textFrom 7 "")); reflexivity.
  - repeat split; reflexivity.
Qed.

(** ** The statistics (C10) *)

Lemma command_answers {A : Type} (op : Redis -> A * Redis) (w : World) :
  redisFail w (redisCalls w) = None ->
  cache.command op w
  = Some (inl (fst (op (redis w))), redisAnswered (snd (op (redis w))) w).
Proof.
  intros Hok. unfold cache.command. rewrite Hok. destruct (op (redis w)). reflexivity.
Qed.

Lemma command_fails {A : Type} (op : Redis -> A * Redis) (w : World) (e : string) :
  redisFail w (redisCalls w) = Some e ->
  cache.command op w = Some (inr e, redisAnswered (redis w) w).
Proof. intros Hfail. unfold cache.command. rewrite Hfail. reflexivity. Qed.

(** A blocked identifier outside the known users makes the difference of
    the sizes fall short of the size of the difference. *)
Lemma size_difference_short (known blocked : gset string) (id : string) :
  id ∈ blocked -> id ∉ known ->
  Z.of_nat (size known) - Z.of_nat (size blocked)
  < Z.of_nat (size (known ∖ blocked)).
Proof.
  intros Hin Hout.
  assert (Hlt : (size (known ∩ blocked) < size blocked)%nat).
  { apply subset_size. split.
    - apply intersection_subseteq_r.
    - intros Hsub. apply Hout. apply (Hsub id) in Hin.
      apply elem_of_intersection in Hin. tauto. }
  assert (Hle : (size (known ∩ blocked) <= size known)%nat).
  { apply subseteq_size. apply intersection_subseteq_l. }
  rewrite size_difference_alt. lia.
Qed.

(** C10, as amended: in every state whose store answers the two reads of
    [handleUserStats], [/stats] sends one report that shows, in decimal, the
    size of the known-user set, then as active count that size minus the
    size of the blocked set, then the size of the blocked set.  Whenever some
    blocked identifier is not a known user the active count shown is less
    than the number of known users that are not blocked, and whenever the
    blocked set is the larger one it is negative. *)
Theorem C10_stats_subtracts_set_sizes (chatID : Z) (w : World) :
  redisFail w (redisCalls w) = None ->
  redisFail w (S (redisCalls w)) = None ->
  let total := Z.of_nat (size (knownUsers w)) in
  let blocked := Z.of_nat (size (blockedUsers w)) in
  exists w' : World,
    main.handleUserStats chatID w = Some (tt, w')
    /\ sent w' = sent w ++ [MessageConfig chatID
                              (statsReport total (total - blocked) blocked)
                              "" None]
    /\ ((exists id, id ∈ blockedUsers w /\ id ∉ knownUsers w) ->
        total - blocked < Z.of_nat (size (knownUsers w ∖ blockedUsers w)))
    /\ (total < blocked -> total - blocked < 0).
Proof.
  intros Hfirst Hsecond total blocked.
  unfold main.handleUserStats, cache.GetAllUserIDs, cache.GetBlockedUserIDs.
  msimpl. rewrite command_answers by exact Hfirst. simpl.
  rewrite command_answers by exact Hsecond. simpl.
  eexists. split; [reflexivity |]. split; [reflexivity |]. split.
  - intros (id & Hin & Hout). apply (size_difference_short _ _ id Hin Hout).
  - lia.
Qed.

Lemma C10_stats_subtracts_set_sizes_witness :
  let w := Sample.withSets ∅ {["5"]} Sample.idle in
  (exists id, id ∈ blockedUsers w /\ id ∉ knownUsers w)
  /\ exists w' : World,
       main.handleUserStats 7 w = Some (tt, w')
       /\ sent w' = [MessageConfig 7
                       ("用户统计：" +:+ nl +:+ "- 总用户数: 0" +:+ nl
                        +:+ "- 活跃用户数: -1" +:+ nl +:+ "- 拉黑用户数: 1")
                       "" None].
Proof.
  intros w. split.
  - exists "5". split.
    + apply (bool_decide_unpack _). vm_compute. exact I.
    + apply (proj1 (bool_decide_eq_false _)). vm_compute. reflexivity.
  - destruct (C10_stats_subtracts_set_sizes 7 w eq_refl eq_refl)
      as (w' & Hrun & Hsent & _).
    exists w'. split; [exact Hrun | exact Hsent].
Defined.

(** C10 as stated fails in a state whose store does not answer the read of
    the blocked set: the source goes on with an empty list.  With the known
    users 1 and the blocked users 2, the one known user is not blocked and
    the report shows the active count 1 and the blocked count 0: the active
    count is not less than the size of the difference of the sets. *)
Lemma C10_counterexample_blocked_read_fails :
  let w := failingAt 2 "i/o timeout" (Sample.withSets {["1"]} {["2"]} Sample.idle) in
  (exists id, id ∈ blockedUsers w /\ id ∉ knownUsers w)
  /\ Z.of_nat (size (knownUsers w ∖ blockedUsers w)) = 1
  /\ exists w' : World,
       main.handleUserStats 7 w = Some (tt, w')
       /\ sent w' = [MessageConfig 7
                       ("用户统计：" +:+ nl +:+ "- 总用户数: 1" +:+ nl
                        +:+ "- 活跃用户数: 1" +:+ nl +:+ "- 拉黑用户数: 0")
                       "" None].
Proof.
  intros w. split; [| split].
  - exists "2". split.
    + apply (bool_decide_unpack _). vm_compute. exact I.
    + apply (proj1 (bool_decide_eq_false _)). vm_compute. reflexivity.
  - vm_compute. reflexivity.
  - eexists. split; [vm_compute; reflexivity |]. reflexivity.
Qed.

(** ** Blocked senders (C5) *)

Lemma StoreUserInfo_answers (user : User) (w : World) :
  (forall n, redisFail w n = None) ->
  cache.StoreUserInfo (Some user) w = Some (None, storedUserInfo user w).
Proof.
  intros Hok. unfold cache.StoreUserInfo. mrun.
  rewrite command_answers by apply Hok. cbv beta iota.
  rewrite command_answers by apply Hok. cbv beta iota.
  rewrite command_answers by apply Hok. reflexivity.
Qed.

Lemma IsUserBlocked_answers (userID : Z) (w : World) :
  redisFail w (redisCalls w) = None ->
  cache.IsUserBlocked userID w
  = Some ((bool_decide (Strconv.FormatInt userID ∈ blockedUsers w), None),
          redisAnswered (redis w) w).
Proof.
  intros Hok. unfold cache.IsUserBlocked. mrun.
  rewrite command_answers by exact Hok. reflexivity.
Qed.

(** C5, as amended: a sender who is in the blocked set and is not an
    administrator, while the store answers: the update sends the fixed
    blocked notice to the chat of the message and nothing else (nothing goes
    to the admin chat), and the set of known users is left as it was. *)
Theorem C5_blocked_user_gets_only_the_notice
    (b : main.BotInstance) (msg : Message) (from : User) (w : World) :
  From msg = Some from ->
  main.isAdmin b (ID from) = false ->
  Strconv.FormatInt (ID from) ∈ blockedUsers w ->
  (forall n, redisFail w n = None) ->
  exists w' : World,
    main.handleUpdate b (messageUpdate msg) w = Some (tt, w')
    /\ sent w' = sent w ++ [blockedNotice (ChatID msg)]
    /\ knownUsers w' = knownUsers w
    /\ blockedUsers w' = blockedUsers w.
Proof.
  intros Hfrom Hadmin Hblocked Hok.
  unfold main.handleUpdate, messageUpdate. cbn [UpdateMessage].
  unfold main.handleMessage, main.handleUserMessage. rewrite Hfrom. mrun.
  rewrite (StoreUserInfo_answers from w Hok). cbv beta iota.
  rewrite IsUserBlocked_answers by apply Hok. cbv beta iota.
  change (blockedUsers (storedUserInfo from w)) with (blockedUsers w).
  rewrite (bool_decide_eq_true_2 _ Hblocked). cbn [negb]. cbv beta iota.
  rewrite Hadmin. cbv beta iota.
  rewrite IsUserBlocked_answers by apply Hok. cbv beta iota.
  change (blockedUsers (redisAnswered (redis (storedUserInfo from w))
                          (storedUserInfo from w)))
    with (blockedUsers w).
  rewrite (bool_decide_eq_true_2 _ Hblocked). cbv beta iota.
  eexists. split; [reflexivity |]. repeat split.
Qed.

Lemma C5_blocked_user_gets_only_the_notice_witness :
  let w := Sample.withSets {["5"]} {["5"]} Sample.idle in
  let msg := Sample.textFrom 5 "hi" in
  main.isAdmin Sample.bot 5 = false
  /\ Strconv.FormatInt 5 ∈ blockedUsers w
  /\ exists w' : World,
       main.handleUpdate Sample.bot (messageUpdate msg) w = Some (tt, w')
       /\ sent w' = [blockedNotice 5]
       /\ knownUsers w' = knownUsers w.
Proof.
  intros w msg.
  assert (Hblocked : Strconv.FormatInt 5 ∈ blockedUsers w).
  { apply (bool_decide_unpack _). vm_compute. exact I. }
  split; [reflexivity |]. split; [exact Hblocked |].
  destruct (C5_blocked_user_gets_only_the_notice Sample.bot msg (Sample.user 5) w
              eq_refl eq_refl Hblocked (fun _ => eq_refl))
    as (w' & Hrun & Hsent & Hknown & _).
  exists w'. split; [exact Hrun |]. split; [exact Hsent | exact Hknown].
Defined.

(** C5 as stated fails for a sender who is an administrator: the dispatcher
    tests the role first and the admin path never consults the blocked set.
    The administrator 7, though in the blocked set, gets no blocked notice;
    the plain message goes to the stateful handlers and ends as unhandled. *)
Lemma C5_counterexample_blocked_admin :
  let w := Sample.withSets {["7"]} {["7"]} Sample.idle in
  let msg := Sample.textFrom 7 "hello" in
  Strconv.FormatInt 7 ∈ blockedUsers w
  /\ exists w' : World,
       main.handleUpdate Sample.bot (messageUpdate msg) w = Some (tt, w')
       /\ sent w' = []
       /\ logs w' = [LogUnhandledAdminMessage 7 "hello"].
Proof.
  intros w msg. split.
  - apply (bool_decide_unpack _). vm_compute. exact I.
  - eexists. split; [vm_compute; reflexivity |]. split; reflexivity.
Qed.

(** ** Button lines in the broadcast flow (C2, C7) *)

Section CutFacts.
Variable sep : ascii.

Lemma Cut_Some (s a b : string) :
  Strings.Cut s sep = Some (a, b) -> s = a +:+ String sep b /\ occurs sep a = false.
Proof.
  revert a. induction s as [| c r IH]; intros a Hcut; simpl in Hcut; [discriminate |].
  destruct (Ascii.eqb c sep) eqn:Hc.
  - apply Ascii.eqb_eq in Hc. subst c. inversion Hcut; subst. split; reflexivity.
  - destruct (Strings.Cut r sep) as [[a' b'] |] eqn:Hr; [| discriminate].
    inversion Hcut; subst. destruct (IH a' eq_refl) as [-> Hocc].
    split; [reflexivity |]. simpl. rewrite Hc. exact Hocc.
Qed.

Lemma Cut_app (a b : string) :
  occurs sep a = false -> Strings.Cut (a +:+ String sep b) sep = Some (a, b).
Proof.
  induction a as [| c r IH]; simpl; intros Hocc.
  - rewrite Ascii.eqb_refl. reflexivity.
  - apply orb_false_iff in Hocc as [Hc Hr]. rewrite Hc, (IH Hr). reflexivity.
Qed.

Lemma Cut_None (s : string) :
  Strings.Cut s sep = None <-> occurs sep s = false.
Proof.
  induction s as [| c r IH]; simpl; [tauto |].
  destruct (Ascii.eqb c sep); simpl.
  - split; discriminate.
  - destruct (Strings.Cut r sep) as [[a b] |].
    + split; [discriminate |]. intros H. apply IH in H. discriminate.
    + rewrite <- IH. tauto.
Qed.
End CutFacts.

Lemma checkLine_accepts (i : nat) (raw : string) :
  broadcast.checkLine i raw = None <-> lineAccepted raw.
Proof.
  unfold broadcast.checkLine, lineAccepted, Strings.SplitN2, schemeOK. cbv zeta.
  destruct (String.eqb_spec (Strings.TrimSpace raw) "") as [Hblank | Hline].
  { tauto. }
  destruct (Strings.Cut (Strings.TrimSpace raw) Strings.Pipe) as [[part0 part1] |] eqn:Hcut.
  - apply Cut_Some in Hcut as Hparts. destruct Hparts as [Hjoin Hocc].
    destruct (String.eqb_spec (Strings.TrimSpace part0) "") as [H0 | H0]; simpl.
    { split; [discriminate |]. intros [Hblank | (label & url & Hjoin' & Hocc' & Hl & _)]; [tauto |].
      rewrite Hjoin', (Cut_app _ _ _ Hocc') in Hcut. inversion Hcut; subst. tauto. }
    destruct (String.eqb_spec (Strings.TrimSpace part1) "") as [H1 | H1]; simpl.
    { split; [discriminate |]. intros [Hblank | (label & url & Hjoin' & Hocc' & _ & Hu & _)]; [tauto |].
      rewrite Hjoin', (Cut_app _ _ _ Hocc') in Hcut. inversion Hcut; subst. tauto. }
    destruct (Strings.HasPrefix _ "http://") eqn:Hhttp; simpl.
    { split; [| reflexivity]. intros _. right. exists part0, part1. tauto. }
    destruct (Strings.HasPrefix _ "https://") eqn:Hhttps; simpl.
    { split; [| reflexivity]. intros _. right. exists part0, part1. tauto. }
    split; [discriminate |].
    intros [Hblank | (label & url & Hjoin' & Hocc' & _ & _ & Hs)]; [tauto |].
    rewrite Hjoin', (Cut_app _ _ _ Hocc') in Hcut. inversion Hcut; subst.
    destruct Hs as [Hs | Hs]; congruence.
  - split; [discriminate |].
    intros [Hblank | (label & url & Hjoin' & Hocc' & _)]; [tauto |].
    rewrite Hjoin', (Cut_app _ _ _ Hocc') in Hcut. discriminate.
Qed.

Lemma bad_scheme_not_accepted (raw label url : string) :
  Strings.TrimSpace raw = label +:+ String Strings.Pipe url ->
  occurs Strings.Pipe label = false ->
  ~ schemeOK (Strings.Trim (Strings.TrimSpace url) Strings.Backtick) ->
  ~ lineAccepted raw.
Proof.
  intros Hjoin Hocc Hscheme [Hblank | (label' & url' & Hjoin' & Hocc' & _ & _ & Hs)].
  - rewrite Hjoin in Hblank. destruct label; discriminate.
  - pose proof (Cut_app Strings.Pipe label url Hocc) as Hcut.
    rewrite <- Hjoin, Hjoin', (Cut_app Strings.Pipe label' url' Hocc') in Hcut.
    inversion Hcut; subst. exact (Hscheme Hs).
Qed.

Lemma checkLine_complains (k : nat) (raw : string) (e : broadcast.ButtonLineError) :
  broadcast.checkLine k raw = Some e -> complaint k raw (broadcast.lineErrorText e).
Proof.
  unfold broadcast.checkLine, Strings.SplitN2. cbv zeta.
  destruct (String.eqb_spec (Strings.TrimSpace raw) "") as [Hblank | Hline];
    [discriminate |].
  destruct (Strings.Cut (Strings.TrimSpace raw) Strings.Pipe) as [[part0 part1] |] eqn:Hcut.
  - apply Cut_Some in Hcut as Hparts. destruct Hparts as [Hjoin Hocc].
    destruct (String.eqb_spec (Strings.TrimSpace part0) "") as [H0 | H0]; simpl.
    { intros H. inversion H. apply malformed; [exact Hline |].
      intros label url Hjoin' Hocc'.
      rewrite Hjoin', (Cut_app _ _ _ Hocc') in Hcut. inversion Hcut; subst. tauto. }
    destruct (String.eqb_spec (Strings.TrimSpace part1) "") as [H1 | H1]; simpl.
    { intros H. inversion H. apply malformed; [exact Hline |].
      intros label url Hjoin' Hocc'.
      rewrite Hjoin', (Cut_app _ _ _ Hocc') in Hcut. inversion Hcut; subst. tauto. }
    destruct (Strings.HasPrefix _ "http://") eqn:Hhttp; simpl; [discriminate |].
    destruct (Strings.HasPrefix _ "https://") eqn:Hhttps; simpl; [discriminate |].
    intros H. inversion H. apply (badScheme k raw part0 part1); try assumption.
    intros [Hs | Hs]; congruence.
  - intros H. inversion H. apply malformed; [exact Hline |].
    intros label url Hjoin' Hocc'.
    rewrite Hjoin', (Cut_app _ _ _ Hocc') in Hcut. discriminate.
Qed.

(** The line a complaint is about is not an accepted one. *)
Lemma complaint_not_accepted (k : nat) (raw text : string) :
  complaint k raw text -> ~ lineAccepted raw.
Proof.
  intros [Hline Hnone | label url Hjoin Hocc _ _ Hscheme].
  - intros [Hblank | (label & url & Hjoin & Hocc & Hl & Hu & _)]; [tauto |].
    destruct (Hnone label url Hjoin Hocc); tauto.
  - exact (bad_scheme_not_accepted raw label url Hjoin Hocc Hscheme).
Qed.

(** A line has one complaint at most. *)
Lemma complaint_unique (k : nat) (raw text text' : string) :
  complaint k raw text -> complaint k raw text' -> text = text'.
Proof.
  intros [Hline Hnone | label url Hjoin Hocc Hl Hu Hscheme]
         [Hline' Hnone' | label' url' Hjoin' Hocc' Hl' Hu' Hscheme'].
  - reflexivity.
  - destruct (Hnone label' url' Hjoin' Hocc'); tauto.
  - destruct (Hnone' label url Hjoin Hocc); tauto.
  - pose proof (Cut_app Strings.Pipe label url Hocc) as Hcut.
    rewrite <- Hjoin, Hjoin', (Cut_app Strings.Pipe label' url' Hocc') in Hcut.
    inversion Hcut; subst. reflexivity.
Qed.

Lemma checkLines_accepts (i : nat) (lines : list string) :
  broadcast.checkLines i lines = None <-> Forall lineAccepted lines.
Proof.
  revert i. induction lines as [| line rest IH]; intros i; simpl.
  - split; [constructor | reflexivity].
  - destruct (broadcast.checkLine i line) as [e |] eqn:Hline.
    + split; [discriminate |]. intros Hall. inversion Hall as [| ? ? Hl _]; subst.
      apply (checkLine_accepts i) in Hl. congruence.
    + rewrite IH. apply checkLine_accepts in Hline. split.
      * intros Hall. constructor; assumption.
      * intros Hall. inversion Hall; assumption.
Qed.

Lemma checkLines_refuses (i : nat) (lines : list string) (e : broadcast.ButtonLineError) :
  broadcast.checkLines i lines = Some e ->
  exists (k : nat) (line : string),
    lines !! k = Some line
    /\ (forall j l, (j < k)%nat -> lines !! j = Some l -> lineAccepted l)
    /\ broadcast.checkLine (i + k) line = Some e.
Proof.
  revert i. induction lines as [| line rest IH]; intros i; simpl; [discriminate |].
  destruct (broadcast.checkLine i line) as [e' |] eqn:Hline.
  - intros H. inversion H; subst. exists 0%nat, line. split; [reflexivity |].
    split; [lia |]. rewrite Nat.add_0_r. exact Hline.
  - intros Hrest. destruct (IH _ Hrest) as (k & l & Hk & Hbefore & Hcheck).
    exists (S k), l. split; [exact Hk |]. split.
    + intros [| j] l' Hj Hl'; simpl in Hl'.
      * inversion Hl'; subst. apply (checkLine_accepts i). exact Hline.
      * apply (Hbefore j); [lia | exact Hl'].
    + rewrite Nat.add_succ_r. exact Hcheck.
Qed.

Lemma awaitButtons_refuses (msg : Message) (w : World) (e : broadcast.ButtonLineError) :
  adminStates w !! ChatID msg = Some broadcast.StateBroadcastAwaitButtons ->
  broadcast.checkLines 0 (Strings.Split (Text msg) Strings.LF) = Some e ->
  broadcast.HandleMessageInput msg w
  = Some (true, delivered (refusal (ChatID msg) e) w).
Proof.
  intros Hstate Hcheck. unfold broadcast.HandleMessageInput. mrun.
  rewrite Hstate. cbn [Z.eqb broadcast.StateBroadcastAwaitButtons broadcast.StateBroadcastAwaitText broadcast.StateBroadcastAwaitMedia Pos.eqb]. 
  rewrite Hcheck. reflexivity.
Qed.

Lemma sendBroadcastBuilderMenu_keeps (chatID : Z) (w : World) :
  exists w' : World,
    broadcast.sendBroadcastBuilderMenu chatID w = Some (tt, w')
    /\ adminStates w' = adminStates w /\ Broadcasts w' = Broadcasts w.
Proof.
  unfold broadcast.sendBroadcastBuilderMenu. mrun.
  destruct (negb (default 0 (BroadcastPromptMessageIDs w !! chatID) =? 0)); cbv beta iota.
  - destruct (apiResult _ _); eexists; (split; [reflexivity | split; reflexivity]).
  - destruct (apiResult _ _); eexists; (split; [reflexivity | split; reflexivity]).
Qed.

Lemma awaitButtons_accepts (msg : Message) (w : World) :
  adminStates w !! ChatID msg = Some broadcast.StateBroadcastAwaitButtons ->
  broadcast.checkLines 0 (Strings.Split (Text msg) Strings.LF) = None ->
  exists w' : World,
    broadcast.HandleMessageInput msg w = Some (true, w')
    /\ adminStates w' = <[ChatID msg := 0]> (adminStates w)
    /\ Broadcasts w'
       = <[ChatID msg := broadcast.withButtons (broadcast.draftOf w (ChatID msg))
                           (broadcast.ParseButtons (Text msg))]> (Broadcasts w).
Proof.
  intros Hstate Hcheck. unfold broadcast.HandleMessageInput.
  unfold world, gets. unfold mbind at 1, M_bind at 1. cbv beta iota.
  rewrite Hstate. cbn [Z.eqb broadcast.StateBroadcastAwaitButtons broadcast.StateBroadcastAwaitText broadcast.StateBroadcastAwaitMedia Pos.eqb].
  rewrite Hcheck. unfold modify, Request, Send.
  unfold mbind at 1 2 3, M_bind at 1 2 3. cbv beta iota.
  unfold mbind at 1, M_bind at 1.
  match goal with |- context [broadcast.sendBroadcastBuilderMenu ?c ?w0] =>
    destruct (sendBroadcastBuilderMenu_keeps c w0) as (w' & Hmenu & Hs & Hb) end.
  rewrite Hmenu. exists w'. split; [reflexivity |]. rewrite Hs, Hb. split; reflexivity.
Qed.

Lemma refused_input (lines : list string) :
  ~ Forall lineAccepted lines ->
  exists e, broadcast.checkLines 0 lines = Some e.
Proof.
  intros Hnot. destruct (broadcast.checkLines 0 lines) as [e |] eqn:Hcheck; [eauto |].
  apply checkLines_accepts in Hcheck. contradiction.
Qed.

(** C2: in the state [StateBroadcastAwaitButtons], a text with a non-blank
    line whose URL, once its backticks are trimmed, starts with neither
    [http://] nor [https://] is answered by one error message and nothing
    else changes: the state map and the drafts are as before.  The message is
    about the first line of the text that is not accepted: it gives the
    number of that line counted from 1 and quotes the trimmed line (when the
    line has not the form of a label and a URL) or its trimmed URL (when the
    scheme is wrong).  When every line before the one with the wrong scheme
    is accepted, that line is the one the message is about. *)
Theorem C2_bad_scheme_is_refused_in_place
    (msg : Message) (w : World) (raw label url : string) :
  adminStates w !! ChatID msg = Some broadcast.StateBroadcastAwaitButtons ->
  raw ∈ Strings.Split (Text msg) Strings.LF ->
  Strings.TrimSpace raw = label +:+ String Strings.Pipe url ->
  occurs Strings.Pipe label = false ->
  ~ schemeOK (Strings.Trim (Strings.TrimSpace url) Strings.Backtick) ->
  exists (k : nat) (line text : string) (w' : World),
    Strings.Split (Text msg) Strings.LF !! k = Some line
    /\ (forall j l, (j < k)%nat ->
          Strings.Split (Text msg) Strings.LF !! j = Some l -> lineAccepted l)
    /\ ~ lineAccepted line
    /\ complaint k line text
    /\ (forall j, Strings.Split (Text msg) Strings.LF !! j = Some raw ->
          (forall i l, (i < j)%nat ->
             Strings.Split (Text msg) Strings.LF !! i = Some l -> lineAccepted l) ->
          k = j /\ line = raw)
    /\ broadcast.HandleMessageInput msg w = Some (true, w')
    /\ sent w' = sent w ++ [MessageConfig (ChatID msg) text ""
                              (Some [[ButtonData "⏭️ 跳过按钮" "bbuild_skip_buttons"]])]
    /\ adminStates w' = adminStates w
    /\ Broadcasts w' = Broadcasts w.
Proof.
  intros Hstate Hline Hjoin Hocc Hscheme.
  pose proof (bad_scheme_not_accepted raw label url Hjoin Hocc Hscheme) as Hraw.
  destruct (refused_input (Strings.Split (Text msg) Strings.LF)) as [e Hcheck].
  { intros Hall. rewrite Forall_forall in Hall. exact (Hraw (Hall raw Hline)). }
  destruct (checkLines_refuses _ _ _ Hcheck) as (k & line & Hk & Hbefore & Hrefused).
  apply checkLine_complains in Hrefused.
  pose proof (complaint_not_accepted _ _ _ Hrefused) as Hnot.
  exists k, line, (broadcast.lineErrorText e),
    (delivered (refusal (ChatID msg) e) w).
  split; [exact Hk |]. split; [exact Hbefore |]. split; [exact Hnot |].
  split; [exact Hrefused |]. split.
  { intros j Hj Hfirst.
    assert (k = j) as <-.
    { destruct (Nat.lt_trichotomy k j) as [Hlt | [Heq | Hgt]]; [| exact Heq |].
      - destruct Hnot. exact (Hfirst k line Hlt Hk).
      - destruct Hraw. exact (Hbefore j raw Hgt Hj). }
    split; [reflexivity | congruence]. }
  split; [apply awaitButtons_refuses; assumption |]. repeat split.
Qed.

Lemma C2_bad_scheme_is_refused_in_place_witness :
  let w := Sample.withState 7 broadcast.StateBroadcastAwaitButtons Sample.idle in
  let msg := Sample.textFrom 7
               ("Join | https://x.test" +:+ nl +:+ "Shop | ftp://x.test") in
  ~ schemeOK (Strings.Trim (Strings.TrimSpace " ftp://x.test") Strings.Backtick)
  /\ exists w' : World,
       broadcast.HandleMessageInput msg w = Some (true, w')
       /\ sent w' = [MessageConfig 7
                       ("第 2 行 URL 无效：ftp://x.test" +:+ nl
                        +:+ "请使用 http:// 或 https:// 开头的链接")
                       "" (Some [[ButtonData "⏭️ 跳过按钮" "bbuild_skip_buttons"]])]
       /\ adminStates w' = adminStates w
       /\ Broadcasts w' = Broadcasts w.
Proof.
  intros w msg.
  assert (Hscheme : ~ schemeOK (Strings.Trim (Strings.TrimSpace " ftp://x.test")
                                  Strings.Backtick)).
  { intros [H | H]; vm_compute in H; discriminate. }
  split; [exact Hscheme |].
  destruct (C2_bad_scheme_is_refused_in_place msg w "Shop | ftp://x.test"
              "Shop " " ftp://x.test" eq_refl
              (list_elem_of_further _ _ _ (list_elem_of_here _ _))
              eq_refl eq_refl Hscheme)
    as (k & line & text & w' & Hk & _ & _ & Hc & Hfirst & Hrun & Hsent & Hstates & Hdrafts).
  destruct (Hfirst 1%nat eq_refl) as [-> ->].
  { intros [| i] l Hi Hl; [| lia]. inversion Hl; subst.
    apply (checkLine_accepts 0). reflexivity. }
  rewrite (complaint_unique _ _ _ _ Hc
             (badScheme 1 "Shop | ftp://x.test" "Shop " " ftp://x.test"
                eq_refl eq_refl ltac:(discriminate) ltac:(discriminate) Hscheme))
    in Hsent.
  exists w'. split; [exact Hrun |]. split; [exact Hsent |].
  split; assumption.
Defined.

(** C7, as amended: in the state [StateBroadcastAwaitButtons] an input is
    accepted exactly when every line is blank or splits at its first [|] into
    a non-blank label and a non-blank URL with one of the two schemes; what
    follows the first [|], further [|] included, is the URL.  An accepted
    input stores the parsed buttons and sets the state to 0; any other input
    is answered by an error and leaves the states and the drafts as they
    were. *)
Theorem C7_accepted_iff_every_line_is_valid (msg : Message) (w : World) :
  adminStates w !! ChatID msg = Some broadcast.StateBroadcastAwaitButtons ->
  (Forall lineAccepted (Strings.Split (Text msg) Strings.LF) ->
   exists w' : World,
     broadcast.HandleMessageInput msg w = Some (true, w')
     /\ adminStates w' = <[ChatID msg := 0]> (adminStates w)
     /\ Broadcasts w'
        = <[ChatID msg := broadcast.withButtons (broadcast.draftOf w (ChatID msg))
                            (broadcast.ParseButtons (Text msg))]> (Broadcasts w))
  /\ (~ Forall lineAccepted (Strings.Split (Text msg) Strings.LF) ->
      exists (e : broadcast.ButtonLineError) (w' : World),
        broadcast.HandleMessageInput msg w = Some (true, w')
        /\ sent w' = sent w ++ [refusal (ChatID msg) e]
        /\ adminStates w' = adminStates w
        /\ Broadcasts w' = Broadcasts w).
Proof.
  intros Hstate. split.
  - intros Hall. apply awaitButtons_accepts; [exact Hstate |].
    apply checkLines_accepts. exact Hall.
  - intros Hnot. destruct (refused_input _ Hnot) as [e Hcheck].
    exists e, (delivered (refusal (ChatID msg) e) w).
    split; [apply awaitButtons_refuses; assumption |]. repeat split.
Qed.

Lemma C7_accepted_iff_every_line_is_valid_witness :
  let w := Sample.withState 7 broadcast.StateBroadcastAwaitButtons Sample.idle in
  let msg := Sample.textFrom 7 "Join | https://x.test" in
  Forall lineAccepted (Strings.Split (Text msg) Strings.LF)
  /\ exists w' : World,
       broadcast.HandleMessageInput msg w = Some (true, w')
       /\ adminStates w' = <[7 := 0]> (adminStates w)
       /\ Broadcasts w'
          = <[7 := broadcast.withButtons (broadcast.draftOf w 7)
                     (broadcast.ParseButtons (Text msg))]> (Broadcasts w).
Proof.
  intros w msg.
  assert (Hall : Forall lineAccepted (Strings.Split (Text msg) Strings.LF)).
  { apply (checkLines_accepts 0). reflexivity. }
  split; [exact Hall |].
  exact (proj1 (C7_accepted_iff_every_line_is_valid msg w eq_refl) Hall).
Defined.

(** C7 as stated fails: the line [a | https://x.test|y] holds two [|] and is
    accepted; the button is stored with the URL [https://x.test|y] and the
    state goes to 0. *)
Lemma C7_counterexample_second_pipe_is_accepted :
  let w := Sample.withState 7 broadcast.StateBroadcastAwaitButtons Sample.idle in
  let msg := Sample.textFrom 7 "a | https://x.test|y" in
  exists w' : World,
    broadcast.HandleMessageInput msg w = Some (true, w')
    /\ adminStates w' !! 7 = Some 0
    /\ Draft.Buttons <$> Broadcasts w' !! 7
       = Some [[ButtonURL "a" "https://x.test|y"]].
Proof.
  intros w msg. eexists. split; [vm_compute; reflexivity |]. split; reflexivity.
Qed.

(** ** [ParseButtons] as a function of the lines *)

Lemma parseLine_lineButton (buttons : list InlineKeyboardButton) (raw : string) :
  Buttons.parseLine buttons raw = buttons ++ option_list (lineButton raw).
Proof.
  unfold Buttons.parseLine, lineButton, Strings.SplitN2. cbv zeta.
  destruct (String.eqb_spec (Strings.TrimSpace raw) "") as [-> | _].
  - simpl. rewrite app_nil_r. reflexivity.
  - destruct (Strings.Cut _ _) as [[label url] |]; simpl.
    + reflexivity.
    + rewrite app_nil_r. reflexivity.
Qed.

Lemma collect_lineButton (lines : list string) (buttons : list InlineKeyboardButton) :
  fold_left Buttons.parseLine lines buttons = buttons ++ omap lineButton lines.
Proof.
  revert buttons. induction lines as [| raw rest IH]; intros buttons; simpl.
  - rewrite app_nil_r. reflexivity.
  - rewrite IH, parseLine_lineButton, <- app_assoc. f_equal.
    destruct (lineButton raw); reflexivity.
Qed.

Lemma rowsLoop_done (fuel i : nat) (buttons : list InlineKeyboardButton)
    (rows : list (list InlineKeyboardButton)) :
  (length buttons <= i)%nat -> Buttons.rowsLoop fuel i buttons rows = rows.
Proof.
  intros Hi. destruct fuel; simpl; [reflexivity |].
  rewrite (lookup_ge_None_2 buttons i Hi). reflexivity.
Qed.

Lemma rowsLoop_pairUp (fuel : nat) :
  forall (done rest : list InlineKeyboardButton) (rows : list (list InlineKeyboardButton)),
    (length rest <= fuel)%nat ->
    Buttons.rowsLoop fuel (length done) (done ++ rest) rows = rows ++ pairUp rest.
Proof.
  induction fuel as [| fuel IH]; intros done rest rows Hfuel.
  - destruct rest; [| simpl in Hfuel; lia]. simpl. rewrite app_nil_r. reflexivity.
  - destruct rest as [| a [| b rest]].
    + rewrite app_nil_r, rowsLoop_done by lia. simpl. rewrite app_nil_r. reflexivity.
    + simpl. rewrite list_lookup_middle by reflexivity.
      rewrite lookup_ge_None_2 by (rewrite length_app; simpl; lia).
      rewrite rowsLoop_done by (rewrite length_app; simpl; lia). reflexivity.
    + simpl. rewrite list_lookup_middle by reflexivity.
      replace (done ++ a :: b :: rest) with ((done ++ [a]) ++ b :: rest)
        by (rewrite <- app_assoc; reflexivity).
      rewrite list_lookup_middle by (rewrite length_app; simpl; lia).
      replace ((done ++ [a]) ++ b :: rest) with ((done ++ [a; b]) ++ rest)
        by (rewrite <- !app_assoc; reflexivity).
      replace (length done + 2)%nat with (length (done ++ [a; b]))
        by (rewrite length_app; simpl; lia).
      rewrite IH by (simpl in Hfuel; lia).
      rewrite <- app_assoc. reflexivity.
Qed.

Lemma ParseButtons_pairUp (data : string) :
  Buttons.ParseButtons data
  = pairUp (omap lineButton (Strings.Split data Strings.LF)).
Proof.
  unfold Buttons.ParseButtons, NewInlineKeyboardMarkup. cbv zeta.
  rewrite collect_lineButton, app_nil_l.
  apply (rowsLoop_pairUp _ [] _ []). reflexivity.
Qed.

Lemma pairUp_concat {A : Type} (l : list A) : concat (pairUp l) = l.
Proof.
  assert (Hn : forall (n : nat) (l : list A),
             (length l <= n)%nat -> concat (pairUp l) = l).
  { intros n. induction n as [| n IH]; intros [| a [| b rest]] Hlen;
      try reflexivity; simpl in Hlen; try lia.
    simpl. rewrite IH by lia. reflexivity. }
  apply (Hn (length l)). reflexivity.
Qed.

Lemma pairUp_lookup {A : Type} (l : list A) (k : nat) (row : list A) :
  pairUp l !! k = Some row <->
  row = take 2 (drop (2 * k) l) /\ (2 * k < length l)%nat.
Proof.
  revert l. induction k as [| k IH]; intros l.
  - destruct l as [| a [| b rest]]; simpl.
    + split; [discriminate | lia].
    + split; [intros H; inversion H; split; [reflexivity | lia] | intros [-> _]; reflexivity].
    + split; [intros H; inversion H; split; [reflexivity | lia] | intros [-> _]; reflexivity].
  - destruct l as [| a [| b rest]].
    + simpl. split; [discriminate | lia].
    + simpl. split; [discriminate | lia].
    + change (pairUp (a :: b :: rest) !! S k) with (pairUp rest !! k).
      rewrite IH. replace (2 * S k)%nat with (S (S (2 * k))) by lia. simpl. 
      split; intros [H1 H2]; (split; [exact H1 | lia]).
Qed.

(** ** Strings: appending, reversing and trimming *)

Lemma append_cons (c : ascii) (a b : string) : String c a +:+ b = String c (a +:+ b).
Proof. reflexivity. Qed.

Lemma append_nil_l (b : string) : "" +:+ b = b.
Proof. reflexivity. Qed.

Lemma append_nil_r (s : string) : s +:+ "" = s.
Proof. induction s as [| c s IH]; [reflexivity |]. rewrite !append_cons, IH. reflexivity. Qed.

Lemma append_assoc (a b c : string) : (a +:+ b) +:+ c = a +:+ (b +:+ c).
Proof. induction a as [| x a IH]; [reflexivity |]. rewrite !append_cons, IH. reflexivity. Qed.

Lemma append_length (a b : string) :
  String.length (a +:+ b) = (String.length a + String.length b)%nat.
Proof. induction a as [| x a IH]; [reflexivity |]. rewrite append_cons. cbn [String.length]. rewrite IH. reflexivity. Qed.

Lemma length_zero (s : string) : String.length s = 0%nat -> s = "".
Proof. destruct s; [reflexivity | discriminate]. Qed.

Lemma rev_app_append (a b : string) : String.rev_app a b = String.rev a +:+ b.
Proof.
  unfold String.rev. revert b. induction a as [| x a IH]; intros b; [reflexivity |].
  cbn [String.rev_app]. rewrite (IH (String x b)), (IH (String x "")), append_assoc. reflexivity.
Qed.

Lemma rev_cons (c : ascii) (s : string) : String.rev (String c s) = String.rev s +:+ String c "".
Proof. unfold String.rev at 1. cbn [String.rev_app]. apply rev_app_append. Qed.

Lemma rev_append (a b : string) : String.rev (a +:+ b) = String.rev b +:+ String.rev a.
Proof.
  induction a as [| x a IH].
  - rewrite append_nil_l. change (String.rev "") with "". rewrite append_nil_r. reflexivity.
  - rewrite append_cons, !rev_cons, IH, append_assoc. reflexivity.
Qed.

Lemma rev_involutive (s : string) : String.rev (String.rev s) = s.
Proof.
  induction s as [| x s IH]; [reflexivity |].
  rewrite rev_cons, rev_append, IH. reflexivity.
Qed.

Lemma rev_length (s : string) : String.length (String.rev s) = String.length s.
Proof.
  induction s as [| x s IH]; [reflexivity |].
  rewrite rev_cons, append_length, IH. cbn [String.length]. lia.
Qed.

Section RunesFacts.
Variable p1 : ascii -> bool.
Variable p2 : ascii -> ascii -> bool.
Variable p3 : ascii -> ascii -> ascii -> bool.

Abbreviation trimL := (Strings.trimLeftRunes p1 p2 p3).
Abbreviation leads := (startsWithRune p1 p2 p3).

Lemma trimL_cons (a : ascii) (r : string) :
  trimL (String a r)
  = if p1 a then trimL r
    else match r with
         | EmptyString => String a r
         | String b r' =>
             if p2 a b then trimL r'
             else match r' with
                  | EmptyString => String a r
                  | String c r'' => if p3 a b c then trimL r'' else String a r
                  end
         end.
Proof. reflexivity. Qed.

(** What [trimL] does to a string that is not empty: a rune is removed and
    the rest trimmed, or nothing is removed. *)
Lemma trimL_cases (s : string) :
  (leads s = true /\ exists p t, s = p +:+ t /\ p <> "" /\ trimL s = trimL t)
  \/ (leads s = false /\ trimL s = s).
Proof.
  destruct s as [| a r]; [right; split; reflexivity |].
  rewrite trimL_cons. cbn [startsWithRune].
  destruct (p1 a).
  { left. split; [reflexivity |]. exists (String a ""), r. repeat split. discriminate. }
  destruct r as [| b r']; [right; split; reflexivity |].
  destruct (p2 a b).
  { left. split; [reflexivity |]. exists (String a (String b "")), r'. repeat split. discriminate. }
  destruct r' as [| c r'']; [right; split; reflexivity |].
  destruct (p3 a b c).
  { left. split; [reflexivity |].
    exists (String a (String b (String c ""))), r''. repeat split. discriminate. }
  right. split; reflexivity.
Qed.

Lemma trimL_suffix (s : string) : exists p, s = p +:+ trimL s.
Proof.
  assert (Hn : forall (n : nat) (s : string),
             (String.length s <= n)%nat -> exists p, s = p +:+ trimL s).
  { intros n. induction n as [| n IH]; intros t Hlen.
    - destruct t; [exists ""; reflexivity | simpl in Hlen; lia].
    - destruct (trimL_cases t) as [(_ & p & u & Ht & Hp & Htrim) | [_ Hfix]].
      + destruct (IH u) as [q Hq].
        { subst t. rewrite append_length in Hlen. destruct p; [congruence |].
          simpl in Hlen. lia. }
        exists (p +:+ q). rewrite Htrim, append_assoc, <- Hq. exact Ht.
      + exists "". rewrite Hfix. reflexivity. }
  apply (Hn (String.length s)). reflexivity.
Qed.

Lemma trimL_length (s : string) : (String.length (trimL s) <= String.length s)%nat.
Proof.
  destruct (trimL_suffix s) as [p Hp]. rewrite Hp at 2. rewrite append_length. lia.
Qed.

Lemma trimL_fixed (s : string) : trimL s = s <-> leads s = false.
Proof.
  destruct (trimL_cases s) as [(Hleads & p & u & Hs & Hp & Htrim) | [Hleads Hfix]].
  - split; [| congruence]. intros Hfix. exfalso.
    pose proof (trimL_length u) as Hlen. rewrite <- Htrim, Hfix, Hs, append_length in Hlen.
    destruct p; [congruence |]. simpl in Hlen. lia.
  - tauto.
Qed.

Lemma trimL_leads (s : string) : leads (trimL s) = false.
Proof.
  assert (Hn : forall (n : nat) (s : string),
             (String.length s <= n)%nat -> leads (trimL s) = false).
  { intros n. induction n as [| n IH]; intros t Hlen.
    - destruct t; [reflexivity | simpl in Hlen; lia].
    - destruct (trimL_cases t) as [(_ & p & u & Ht & Hp & Htrim) | [Hleads Hfix]].
      + rewrite Htrim. apply IH. subst t. rewrite append_length in Hlen.
        destruct p; [congruence |]. simpl in Hlen. lia.
      + rewrite Hfix. exact Hleads. }
  apply (Hn (String.length s)). reflexivity.
Qed.

Lemma trimL_idempotent (s : string) : trimL (trimL s) = trimL s.
Proof. apply trimL_fixed, trimL_leads. Qed.

Lemma leads_prefix (a b : string) : leads (a +:+ b) = false -> leads a = false.
Proof.
  destruct a as [| x [| y [| z t]]]; rewrite ?append_cons, ?append_nil_l;
    cbn [startsWithRune]; intros H.
  - reflexivity.
  - apply orb_false_iff in H as [-> _]. reflexivity.
  - apply orb_false_iff in H as [-> H]. destruct b.
    + exact H.
    + apply orb_false_iff in H as [-> _]. reflexivity.
  - exact H.
Qed.

(** The bytes of an encoding of two or three bytes are not ASCII. *)
Hypothesis high2 : forall a b, p2 a b = true ->
  (128 <= Strings.byte a)%N /\ (128 <= Strings.byte b)%N.
Hypothesis high3 : forall a b c, p3 a b c = true ->
  (128 <= Strings.byte a)%N /\ (128 <= Strings.byte b)%N /\ (128 <= Strings.byte c)%N.

Lemma leads_before_ascii (a t : string) (c : ascii) :
  leads a = false -> a <> "" -> (Strings.byte c < 128)%N ->
  leads (a +:+ String c t) = false.
Proof.
  intros Hleads Hne Hc.
  assert (H2c : forall x, p2 x c = false).
  { intros x. destruct (p2 x c) eqn:H; [| reflexivity]. apply high2 in H. lia. }
  assert (H3c : forall x y, p3 x c y = false).
  { intros x y. destruct (p3 x c y) eqn:H; [| reflexivity]. apply high3 in H. lia. }
  assert (H3c' : forall x y, p3 x y c = false).
  { intros x y. destruct (p3 x y c) eqn:H; [| reflexivity]. apply high3 in H. lia. }
  destruct a as [| x [| y [| z u]]]; rewrite ?append_cons, ?append_nil_l;
    cbn [startsWithRune] in *.
  - congruence.
  - apply orb_false_iff in Hleads as [-> _]. rewrite H2c. destruct t; [reflexivity |].
    rewrite H3c. reflexivity.
  - apply orb_false_iff in Hleads as [-> Hleads].
    apply orb_false_iff in Hleads as [-> _]. rewrite H3c'. reflexivity.
  - exact Hleads.
Qed.

End RunesFacts.

Lemma rev_empty (s : string) : String.rev s = "" -> s = "".
Proof.
  intros H. apply length_zero. rewrite <- rev_length, H. reflexivity.
Qed.

Section TrimFacts.
Variable p1 : ascii -> bool.
Variable p2 : ascii -> ascii -> bool.
Variable p3 : ascii -> ascii -> ascii -> bool.
Hypothesis high2 : forall a b, p2 a b = true ->
  (128 <= Strings.byte a)%N /\ (128 <= Strings.byte b)%N.
Hypothesis high3 : forall a b c, p3 a b c = true ->
  (128 <= Strings.byte a)%N /\ (128 <= Strings.byte b)%N /\ (128 <= Strings.byte c)%N.

Abbreviation q2 := (fun b a => p2 a b).
Abbreviation q3 := (fun c b a => p3 a b c).
Abbreviation trimLeft := (Strings.trimLeftRunes p1 p2 p3).
Abbreviation trimRight := (Strings.trimRightRunes p1 p2 p3).

Lemma flipped_high2 (a b : ascii) : q2 a b = true ->
  (128 <= Strings.byte a)%N /\ (128 <= Strings.byte b)%N.
Proof. intros H. apply high2 in H. tauto. Qed.

Lemma flipped_high3 (a b c : ascii) : q3 a b c = true ->
  (128 <= Strings.byte a)%N /\ (128 <= Strings.byte b)%N /\ (128 <= Strings.byte c)%N.
Proof. intros H. apply high3 in H. tauto. Qed.

Lemma trimRight_length (s : string) :
  (String.length (trimRight s) <= String.length s)%nat.
Proof.
  unfold Strings.trimRightRunes. rewrite rev_length, <- (rev_length s).
  apply trimL_length.
Qed.

Lemma trimRight_fixed (s : string) :
  trimRight s = s <-> startsWithRune p1 q2 q3 (String.rev s) = false.
Proof.
  unfold Strings.trimRightRunes. rewrite <- trimL_fixed. split; intros H.
  - rewrite <- H at 2. rewrite rev_involutive. reflexivity.
  - rewrite H. apply rev_involutive.
Qed.

Lemma trim_fixed (s : string) :
  trimRight (trimLeft s) = s <-> trimLeft s = s /\ trimRight s = s.
Proof.
  split.
  - intros H. assert (Hleft : trimLeft s = s).
    { destruct (trimL_suffix p1 p2 p3 s) as [p Hp].
      pose proof (trimRight_length (trimLeft s)) as Hlen. rewrite H in Hlen.
      rewrite Hp in Hlen at 1. rewrite append_length in Hlen.
      assert (p = "") as -> by (apply length_zero; lia).
      rewrite append_nil_l in Hp. congruence. }
    split; [exact Hleft |]. rewrite Hleft in H. exact H.
  - intros [Hleft Hright]. rewrite Hleft. exact Hright.
Qed.

Lemma trimLeft_before_ascii (a t : string) (c : ascii) :
  trimLeft a = a -> a <> "" -> (Strings.byte c < 128)%N ->
  trimLeft (a +:+ String c t) = a +:+ String c t.
Proof.
  intros Hfix Hne Hc. apply trimL_fixed. apply leads_before_ascii; try assumption.
  apply trimL_fixed. exact Hfix.
Qed.

Lemma trimRight_after_ascii (a t : string) (c : ascii) :
  trimRight a = a -> a <> "" -> (Strings.byte c < 128)%N ->
  trimRight (t +:+ String c a) = t +:+ String c a.
Proof.
  intros Hfix Hne Hc. apply trimRight_fixed.
  rewrite rev_append, rev_cons, append_assoc, append_cons, append_nil_l.
  apply leads_before_ascii.
  - exact flipped_high2.
  - exact flipped_high3.
  - apply trimRight_fixed. exact Hfix.
  - intros H. apply rev_empty in H. contradiction.
  - exact Hc.
Qed.

Lemma trimLeft_skip (c : ascii) (s : string) :
  p1 c = true -> trimLeft (String c s) = trimLeft s.
Proof. intros H. rewrite trimL_cons, H. reflexivity. Qed.

Lemma trimRight_skip (c : ascii) (s : string) :
  p1 c = true -> trimRight (s +:+ String c "") = trimRight s.
Proof.
  intros H. unfold Strings.trimRightRunes.
  rewrite rev_append. change (String.rev (String c "")) with (String c "").
  rewrite append_cons, append_nil_l, trimL_cons, H. reflexivity.
Qed.

End TrimFacts.

Lemma space_high2 (a b : ascii) : Strings.isSpace2 a b = true ->
  (128 <= Strings.byte a)%N /\ (128 <= Strings.byte b)%N.
Proof.
  unfold Strings.isSpace2. rewrite andb_true_iff, orb_true_iff, !N.eqb_eq. lia.
Qed.

Lemma space_high3 (a b c : ascii) : Strings.isSpace3 a b c = true ->
  (128 <= Strings.byte a)%N /\ (128 <= Strings.byte b)%N /\ (128 <= Strings.byte c)%N.
Proof.
  unfold Strings.isSpace3.
  rewrite !orb_true_iff, !andb_true_iff, !orb_true_iff, !andb_true_iff,
    !N.eqb_eq, !N.leb_le. lia.
Qed.

Lemma TrimSpace_fixed (s : string) :
  Strings.TrimSpace s = s <->
  Strings.TrimLeftSpace s = s /\ Strings.TrimRightSpace s = s.
Proof. apply trim_fixed. Qed.

(** A label followed by a space loses the space. *)
Lemma TrimSpace_label (label : string) :
  Strings.TrimSpace label = label -> label <> "" ->
  Strings.TrimSpace (label +:+ " ") = label.
Proof.
  intros Hfix Hne. apply TrimSpace_fixed in Hfix as [Hleft Hright].
  unfold Strings.TrimSpace, Strings.TrimLeftSpace, Strings.TrimRightSpace in *.
  rewrite (trimLeft_before_ascii _ _ _ space_high2 space_high3) by
    (try assumption; vm_compute; reflexivity).
  rewrite trimRight_skip by reflexivity. exact Hright.
Qed.

(** A URL after a space loses the space. *)
Lemma TrimSpace_url (url : string) :
  Strings.TrimSpace url = url -> Strings.TrimSpace (" " +:+ url) = url.
Proof.
  intros Hfix. unfold Strings.TrimSpace, Strings.TrimLeftSpace in *.
  change (" " +:+ url) with (String " "%char url).
  rewrite trimLeft_skip by reflexivity. exact Hfix.
Qed.

(** The serialized line of a label and a URL is trimmed. *)
Lemma TrimSpace_line (label url : string) :
  Strings.TrimSpace label = label -> label <> "" ->
  Strings.TrimSpace url = url -> url <> "" ->
  Strings.TrimSpace (label +:+ " | " +:+ url) = label +:+ " | " +:+ url.
Proof.
  intros Hlabel Hl Hurl Hu.
  apply TrimSpace_fixed in Hlabel as [Hleft _].
  apply TrimSpace_fixed in Hurl as [_ Hright].
  apply TrimSpace_fixed. split.
  - apply (trimLeft_before_ascii _ _ _ space_high2 space_high3);
      try assumption. vm_compute. reflexivity.
  - change (label +:+ " | " +:+ url) with (label +:+ String " "%char (String "|"%char (String " "%char url))).
    replace (label +:+ String " "%char (String "|"%char (String " "%char url)))
      with ((label +:+ " |") +:+ String " "%char url)
      by (rewrite append_assoc; reflexivity).
    apply (trimRight_after_ascii _ _ _ space_high2 space_high3);
      try assumption. vm_compute. reflexivity.
Qed.

(** ** Serializing buttons and parsing them again *)

Lemma occurs_append (c : ascii) (a b : string) :
  occurs c (a +:+ b) = occurs c a || occurs c b.
Proof.
  induction a as [| x a IH]; [reflexivity |].
  rewrite append_cons. cbn [occurs]. rewrite IH, orb_assoc. reflexivity.
Qed.

Lemma Split_without (s : string) (sep : ascii) :
  occurs sep s = false -> Strings.Split s sep = [s].
Proof.
  induction s as [| c s IH]; [reflexivity |]. cbn [occurs Strings.Split].
  intros H. apply orb_false_iff in H as [-> H]. rewrite (IH H). reflexivity.
Qed.

Lemma Split_append (s t : string) (sep : ascii) :
  occurs sep s = false ->
  Strings.Split (s +:+ String sep t) sep = s :: Strings.Split t sep.
Proof.
  induction s as [| c s IH]; intros H.
  - rewrite append_nil_l. cbn [Strings.Split]. rewrite Ascii.eqb_refl. reflexivity.
  - cbn [occurs] in H. apply orb_false_iff in H as [Hc H].
    rewrite append_cons. cbn [Strings.Split]. rewrite Hc, (IH H). reflexivity.
Qed.

Lemma Split_Join (lines : list string) :
  lines <> [] ->
  Forall (fun line => occurs Strings.LF line = false) lines ->
  Strings.Split (Strings.Join lines nl) Strings.LF = lines.
Proof.
  induction lines as [| line [| next rest] IH]; intros Hne Hall.
  - congruence.
  - inversion Hall; subst. apply Split_without. assumption.
  - inversion Hall as [| ? ? Hline Hrest]; subst.
    change (Strings.Join (line :: next :: rest) nl)
      with (line +:+ String Strings.LF (Strings.Join (next :: rest) nl)).
    rewrite Split_append by exact Hline. f_equal. apply IH; [discriminate | exact Hrest].
Qed.

Lemma lineButton_buttonLine (b : InlineKeyboardButton) :
  validButton b -> lineButton (buttonLine b) = Some b.
Proof.
  destruct b as [label url | text data]; [| contradiction].
  intros [(Hl & Hlabel & Hpipe & _) (Hu & Hurl & Hticks & _)].
  unfold lineButton, buttonLine. rewrite TrimSpace_line by assumption.
  replace (label +:+ " | " +:+ url)
    with ((label +:+ " ") +:+ String Strings.Pipe (" " +:+ url))
    by (rewrite append_assoc; reflexivity).
  rewrite Cut_app by (rewrite occurs_append, Hpipe; reflexivity).
  rewrite TrimSpace_label, TrimSpace_url, Hticks by assumption. reflexivity.
Qed.

Lemma buttonLine_one_line (b : InlineKeyboardButton) :
  validButton b -> occurs Strings.LF (buttonLine b) = false.
Proof.
  destruct b as [label url | text data]; [| contradiction].
  intros [(_ & _ & _ & Hlabel) (_ & _ & _ & Hurl)]. unfold buttonLine.
  rewrite !occurs_append, Hlabel, Hurl. reflexivity.
Qed.

Lemma lines_round_trip (buttons : list InlineKeyboardButton) :
  Forall validButton buttons ->
  omap lineButton (Strings.Split (Strings.Join (map buttonLine buttons) nl) Strings.LF)
  = buttons.
Proof.
  intros Hall. destruct buttons as [| b rest]; [reflexivity |].
  rewrite Split_Join.
  - induction Hall as [| b' rest' Hb _ IH]; [reflexivity |].
    cbn [map omap list_omap]. rewrite (lineButton_buttonLine b' Hb). f_equal. exact IH.
  - discriminate.
  - apply Forall_map. eapply Forall_impl; [exact Hall |]. apply buttonLine_one_line.
Qed.

Lemma round_trip (buttons : list InlineKeyboardButton) :
  Forall validButton buttons ->
  Buttons.ParseButtons (serialize (pairUp buttons)) = pairUp buttons.
Proof.
  intros Hall. rewrite ParseButtons_pairUp. unfold serialize.
  rewrite pairUp_concat, lines_round_trip by exact Hall. reflexivity.
Qed.

Section TrimMore.
Variable p1 : ascii -> bool.
Variable p2 : ascii -> ascii -> bool.
Variable p3 : ascii -> ascii -> ascii -> bool.

Abbreviation trimLeft' := (Strings.trimLeftRunes p1 p2 p3).
Abbreviation trimRight' := (Strings.trimRightRunes p1 p2 p3).

Lemma trimRight_prefix (s : string) : exists q, s = trimRight' s +:+ q.
Proof.
  unfold Strings.trimRightRunes.
  destruct (trimL_suffix p1 (fun b a => p2 a b) (fun c b a => p3 a b c) (String.rev s))
    as [p Hp].
  exists (String.rev p). rewrite <- rev_append, <- Hp. symmetry. apply rev_involutive.
Qed.

Lemma trimRight_idempotent (s : string) : trimRight' (trimRight' s) = trimRight' s.
Proof.
  unfold Strings.trimRightRunes. rewrite rev_involutive, trimL_idempotent. reflexivity.
Qed.

Lemma trim_idempotent (s : string) :
  trimRight' (trimLeft' (trimRight' (trimLeft' s))) = trimRight' (trimLeft' s).
Proof.
  assert (Hleft : trimLeft' (trimRight' (trimLeft' s)) = trimRight' (trimLeft' s)).
  { apply trimL_fixed. destruct (trimRight_prefix (trimLeft' s)) as [q Hq].
    apply (leads_prefix _ _ _ _ q). rewrite <- Hq. apply trimL_leads. }
  rewrite Hleft. apply trimRight_idempotent.
Qed.

Lemma trim_occurs (c : ascii) (s : string) :
  occurs c (trimRight' (trimLeft' s)) = true -> occurs c s = true.
Proof.
  intros H. destruct (trimL_suffix p1 p2 p3 s) as [p Hp].
  destruct (trimRight_prefix (trimLeft' s)) as [q Hq].
  rewrite Hp, Hq, !occurs_append, H. rewrite orb_true_r. reflexivity.
Qed.

End TrimMore.

Lemma trim_without (p1 : ascii -> bool) (p2 : ascii -> ascii -> bool)
    (p3 : ascii -> ascii -> ascii -> bool) (c : ascii) (s : string) :
  occurs c s = false ->
  occurs c (Strings.trimRightRunes p1 p2 p3 (Strings.trimLeftRunes p1 p2 p3 s)) = false.
Proof.
  intros H.
  destruct (occurs c (Strings.trimRightRunes p1 p2 p3 (Strings.trimLeftRunes p1 p2 p3 s)))
    eqn:Hocc; [| reflexivity].
  apply trim_occurs in Hocc. congruence.
Qed.

Lemma Split_pieces (s : string) (sep : ascii) :
  Forall (fun piece => occurs sep piece = false) (Strings.Split s sep).
Proof.
  induction s as [| c s IH]; cbn [Strings.Split].
  - constructor; [reflexivity | constructor].
  - destruct (Ascii.eqb c sep) eqn:Hc.
    + constructor; [reflexivity | exact IH].
    + destruct (Strings.Split s sep) as [| piece rest]; [constructor; [| constructor] |].
      * cbn [occurs]. rewrite Hc. reflexivity.
      * inversion IH; subst. constructor; [| assumption].
        cbn [occurs]. rewrite Hc. assumption.
Qed.

Lemma lineButton_valid (raw : string) :
  lineAccepted raw -> occurs Strings.LF raw = false ->
  match lineButton raw with
  | Some b => urlTrimmed b -> validButton b
  | None => True
  end.
Proof.
  intros [Hblank | (label & url & Hjoin & Hpipe & Hlabel & Hurl & Hscheme)] Hone.
  - unfold lineButton. rewrite Hblank. exact I.
  - unfold lineButton. rewrite Hjoin, Cut_app by exact Hpipe. cbn [urlTrimmed validButton].
    assert (Hline : occurs Strings.LF (label +:+ String Strings.Pipe url) = false).
    { rewrite <- Hjoin. apply trim_without. exact Hone. }
    rewrite occurs_append in Hline. apply orb_false_iff in Hline as [HlabelLF HurlLF].
    cbn [occurs] in HurlLF. apply orb_false_iff in HurlLF as [_ HurlLF].
    intros Htrimmed. split.
    + split; [exact Hlabel |]. split; [apply trim_idempotent |].
      split; apply trim_without; assumption.
    + split.
      { intros Hempty. rewrite Hempty in Hscheme. destruct Hscheme; discriminate. }
      split; [exact Htrimmed |]. split; [apply trim_idempotent |].
      apply trim_without, trim_without. exact HurlLF.
Qed.

Lemma parsed_buttons_valid (lines : list string) :
  Forall lineAccepted lines ->
  Forall (fun line => occurs Strings.LF line = false) lines ->
  Forall urlTrimmed (omap lineButton lines) ->
  Forall validButton (omap lineButton lines).
Proof.
  induction lines as [| raw rest IH]; intros Hacc Hone Htrim; [constructor |].
  inversion Hacc as [| ? ? Hraw Hrest]; subst.
  inversion Hone as [| ? ? Hraw1 Hrest1]; subst.
  pose proof (lineButton_valid raw Hraw Hraw1) as Hvalid.
  cbn [omap list_omap] in *. destruct (lineButton raw) as [b |].
  - inversion Htrim; subst. constructor; [auto | apply IH; assumption].
  - apply IH; assumption.
Qed.

Lemma lineButton_without_separator (raw : string) :
  occurs Strings.Pipe raw = false -> lineButton raw = None.
Proof.
  intros Hraw. unfold lineButton.
  assert (Hcut : Strings.Cut (Strings.TrimSpace raw) Strings.Pipe = None).
  { apply Cut_None. apply trim_without. exact Hraw. }
  rewrite Hcut. reflexivity.
Qed.

Lemma lineButton_at_first_separator (raw label url : string) :
  Strings.TrimSpace raw = label +:+ String Strings.Pipe url ->
  occurs Strings.Pipe label = false ->
  lineButton raw
  = Some (ButtonURL (Strings.TrimSpace label)
            (Strings.Trim (Strings.TrimSpace url) Strings.Backtick)).
Proof.
  intros Hjoin Hpipe. unfold lineButton. rewrite Hjoin, Cut_app by exact Hpipe.
  reflexivity.
Qed.

(** C6, as amended: [welcome.ParseButtons] yields one button for every line
    whose trimmed text holds a [|], split at the first one, also when the
    label or the URL left by the split is empty; it skips the lines without
    a [|] (the blank ones among them) and no others.  The buttons are packed
    two per row, row-major, in the order of the lines: row [k] holds the
    buttons [2k] and [2k + 1]. *)
Theorem C6_parse_skips_lines_without_separator (data : string) :
  let buttons := omap lineButton (Strings.Split data Strings.LF) in
  welcome.ParseButtons data = pairUp buttons
  /\ concat (welcome.ParseButtons data) = buttons
  /\ (forall (k : nat) (row : list InlineKeyboardButton),
        welcome.ParseButtons data !! k = Some row <->
        row = take 2 (drop (2 * k) buttons) /\ (2 * k < length buttons)%nat)
  /\ (forall raw : string, occurs Strings.Pipe raw = false -> lineButton raw = None)
  /\ (forall raw label url : string,
        Strings.TrimSpace raw = label +:+ String Strings.Pipe url ->
        occurs Strings.Pipe label = false ->
        lineButton raw
        = Some (ButtonURL (Strings.TrimSpace label)
                  (Strings.Trim (Strings.TrimSpace url) Strings.Backtick))).
Proof.
  intros buttons. unfold welcome.ParseButtons.
  rewrite ParseButtons_pairUp. fold buttons.
  split; [reflexivity |]. split; [apply pairUp_concat |].
  split; [intros k row; apply pairUp_lookup |].
  split; [exact lineButton_without_separator | exact lineButton_at_first_separator].
Qed.

Lemma C6_parse_skips_lines_without_separator_witness :
  let data := "A | https://a.test" +:+ nl +:+ "  no separator here " +:+ nl +:+ nl
              +:+ "B|`https://b.test`" +:+ nl +:+ "C | https://c.test" in
  welcome.ParseButtons data
  = [[ButtonURL "A" "https://a.test"; ButtonURL "B" "https://b.test"];
     [ButtonURL "C" "https://c.test"]]
  /\ lineButton "  no separator here " = None
  /\ lineButton "B|`https://b.test`" = Some (ButtonURL "B" "https://b.test").
Proof.
  intros data.
  destruct (C6_parse_skips_lines_without_separator data)
    as (Hrows & _ & _ & Hskip & Hsplit).
  split; [rewrite Hrows; vm_compute; reflexivity |]. split.
  - apply Hskip. reflexivity.
  - apply (Hsplit _ "B" "`https://b.test`"); reflexivity.
Defined.

(** C6 as stated fails: the line [| https://x.test] splits at its first [|]
    into an empty part and a URL, and [Shop |] into a label and an empty part;
    neither is skipped, each yields a button. *)
Lemma C6_counterexample_empty_label_yields_button :
  Strings.SplitN2 (Strings.TrimSpace "| https://x.test") Strings.Pipe
  = [""; " https://x.test"]
  /\ welcome.ParseButtons "| https://x.test" = [[ButtonURL "" "https://x.test"]]
  /\ welcome.ParseButtons "Shop |" = [[ButtonURL "Shop" ""]].
Proof. repeat split; reflexivity. Qed.

(** C9, as amended: for the rows parsed from a text that the button-line
    grammar accepts, if no URL of theirs carries white space at its ends,
    writing one [label | url] line per button and parsing the lines yields
    the same rows, with the parser of either package. *)
Theorem C9_round_trip_of_parsed_rows (data : string) :
  Forall lineAccepted (Strings.Split data Strings.LF) ->
  Forall urlTrimmed (concat (broadcast.ParseButtons data)) ->
  broadcast.ParseButtons (serialize (broadcast.ParseButtons data))
  = broadcast.ParseButtons data
  /\ welcome.ParseButtons (serialize (welcome.ParseButtons data))
     = welcome.ParseButtons data.
Proof.
  unfold broadcast.ParseButtons, welcome.ParseButtons.
  rewrite (ParseButtons_pairUp data), pairUp_concat. intros Haccepted Htrimmed.
  assert (Hvalid : Forall validButton (omap lineButton (Strings.Split data Strings.LF))).
  { apply parsed_buttons_valid; [exact Haccepted | apply Split_pieces | exact Htrimmed]. }
  split; apply round_trip; exact Hvalid.
Qed.

Lemma C9_round_trip_of_parsed_rows_witness :
  let data := "Join | https://x.test" +:+ nl +:+ "Shop | `https://s.test`" +:+ nl
              +:+ "News | http://n.test" in
  broadcast.ParseButtons data
  = [[ButtonURL "Join" "https://x.test"; ButtonURL "Shop" "https://s.test"];
     [ButtonURL "News" "http://n.test"]]
  /\ broadcast.ParseButtons (serialize (broadcast.ParseButtons data))
     = broadcast.ParseButtons data.
Proof.
  intros data. split; [reflexivity |].
  apply (C9_round_trip_of_parsed_rows data).
  - apply (checkLines_accepts 0). reflexivity.
  - repeat constructor.
Defined.

(** C9 as stated fails: the accepted line [a | `https://x.test `] yields a
    URL that ends in a space, kept because it stood inside the backticks;
    written out and parsed again, the space is trimmed. *)
Lemma C9_counterexample_space_inside_backticks :
  let data := "a | `https://x.test `" in
  Forall lineAccepted (Strings.Split data Strings.LF)
  /\ broadcast.ParseButtons data = [[ButtonURL "a" "https://x.test "]]
  /\ broadcast.ParseButtons (serialize (broadcast.ParseButtons data))
     = [[ButtonURL "a" "https://x.test"]]
  /\ broadcast.ParseButtons (serialize (broadcast.ParseButtons data))
     <> broadcast.ParseButtons data.
Proof.
  intros data. split; [apply (checkLines_accepts 0); reflexivity |].
  split; [reflexivity |]. split; [reflexivity |]. discriminate.
Qed.

(** ** The list of blocked users (C8) *)

Lemma GetUserInfo_runs (userID : Z) (w : World) :
  exists (info : string * string * string * error) (w' : World),
    cache.GetUserInfo userID w = Some (info, w') /\ sent w' = sent w.
Proof.
  unfold cache.GetUserInfo, cache.command. mrun.
  destruct (redisFail w (redisCalls w)); cbv beta iota zeta; cbn [cache.HMGet];
    eexists; eexists; (split; [reflexivity | reflexivity]).
Qed.

Lemma listEntries_runs (first : Z) (ids : list string) :
  forall (i : nat) (sb : string) (w : World),
  exists (names : list string) (w' : World),
    length names = length ids
    /\ main.listEntries first i ids sb w
       = Some (sb +:+ entryLines (first + Z.of_nat i + 1) (zip names ids), w')
    /\ sent w' = sent w.
Proof.
  induction ids as [| idStr rest IH]; intros i sb w.
  - exists [], w. split; [reflexivity |]. split; [| reflexivity].
    cbn [main.listEntries zip zip_with entryLines]. rewrite append_nil_r. reflexivity.
  - cbn [main.listEntries]. destruct (Strconv.ParseInt idStr) as [userID ok].
    destruct (GetUserInfo_runs userID w) as ([[[firstName lastName] username] err] & w1 & Hinfo & Hsent1).
    unfold mbind at 1, M_bind at 1. rewrite Hinfo. cbv beta iota.
    destruct (IH (S i)
                (sb +:+ Strconv.FormatInt (first + Z.of_nat i + 1) +:+ ". "
                 +:+ main.displayNameOf firstName lastName username idStr +:+ nl) w1)
      as (names & w' & Hlen & Hrun & Hsent).
    set (display := if negb (String.eqb username "") then "@" +:+ username else "").
    set (fullName := Strings.TrimSpace (firstName +:+ " " +:+ lastName)).
    set (name := let d := if negb (String.eqb fullName "")
                          then if negb (String.eqb display "")
                               then display +:+ " (" +:+ fullName +:+ ")" else fullName
                          else display in
                 if String.eqb d "" then "Unknown" else d).
    exists (name :: names), w'. split; [simpl; lia |]. split; [| congruence].
    rewrite Hrun. f_equal. f_equal.
    cbn [zip zip_with entryLines]. unfold entryLine, main.displayNameOf.
    fold display. fold fullName. cbv zeta. fold name.
    replace (first + Z.of_nat (S i) + 1) with (first + Z.of_nat i + 1 + 1) by lia.
    rewrite !append_assoc. reflexivity.
Qed.

Lemma unblockRows_runs (ids : list string) :
  forall (keyboard : list (list InlineKeyboardButton)) (w : World),
  exists (labels : list string) (w' : World),
    length labels = length ids
    /\ main.unblockRows ids keyboard w
       = Some (keyboard ++ map unblockRow (zip labels ids), w')
    /\ sent w' = sent w.
Proof.
  induction ids as [| idStr rest IH]; intros keyboard w.
  - exists [], w. split; [reflexivity |]. split; [| reflexivity].
    cbn [main.unblockRows zip zip_with map]. rewrite app_nil_r. reflexivity.
  - cbn [main.unblockRows]. destruct (Strconv.ParseInt idStr) as [userID ok].
    destruct (GetUserInfo_runs userID w)
      as ([[[firstName lastName] username] err] & w1 & Hinfo & Hsent1).
    unfold mbind at 1, M_bind at 1. rewrite Hinfo. cbv beta iota.
    destruct (IH (keyboard
                  ++ [NewInlineKeyboardRow
                        [NewInlineKeyboardButtonData
                           (main.unblockButtonText firstName lastName username idStr)
                           ("unblock_" +:+ idStr)]]) w1)
      as (labels & w' & Hlen & Hrun & Hsent).
    exists (main.unblockButtonText firstName lastName username idStr :: labels), w'.
    split; [simpl; lia |]. split; [| congruence].
    rewrite Hrun, <- app_assoc. reflexivity.
Qed.

Lemma pageCount_ceiling (n : Z) :
  0 <= n -> 10 * (pageCount n - 1) < n <= 10 * pageCount n.
Proof.
  intros Hn. unfold pageCount, main.UsersPerPage.
  pose proof (Z.quot_rem' (n + 10 - 1) 10) as Hqr.
  pose proof (Z.rem_bound_pos (n + 10 - 1) 10 ltac:(lia) ltac:(lia)) as Hr.
  lia.
Qed.

Lemma shownPage_range (page total : Z) :
  1 <= total -> 1 <= shownPage page total <= total.
Proof.
  intros Ht. unfold shownPage.
  destruct (1 <=? page) eqn:H1; destruct (page <=? total) eqn:H2; simpl; lia.
Qed.

Lemma clamp_shownPage (page total : Z) :
  (if (page <? 1) || (page >? total) then 1 else page) = shownPage page total.
Proof.
  unfold shownPage.
  destruct (page <? 1) eqn:H1; destruct (page >? total) eqn:H2;
    destruct (1 <=? page) eqn:H3; destruct (page <=? total) eqn:H4; simpl; lia.
Qed.

Lemma navigation_rows (p total : Z) (keyboard : list (list InlineKeyboardButton)) :
  1 <= p <= total ->
  (if total >? 1
   then if nonEmpty (main.paginationRow p total)
        then keyboard ++ [main.paginationRow p total] else keyboard
   else keyboard)
  = keyboard ++ navigation p total.
Proof.
  intros Hp. unfold main.paginationRow, navigation, previousButton, nextButton,
    NewInlineKeyboardButtonData.
  destruct (total >? 1) eqn:Ht; destruct (p >? 1) eqn:H1; destruct (p <? total) eqn:H2;
    simpl; rewrite ?app_nil_r; try reflexivity; lia.
Qed.

Lemma slice_page (ids : list string) (p : Z) :
  1 <= p <= pageCount (main.len ids) ->
  let start := (p - 1) * main.UsersPerPage in
  let stop := if start + main.UsersPerPage >? main.len ids
              then main.len ids else start + main.UsersPerPage in
  forall w : World,
    main.slice ids start stop w = Some (pageEntries ids p, w)
    /\ pageEntries ids p <> [].
Proof.
  intros Hp start stop w. unfold main.slice.
  pose proof (pageCount_ceiling (main.len ids) ltac:(unfold main.len; lia)) as Hceil.
  assert (Hstart : 0 <= start < main.len ids) by (unfold start, main.UsersPerPage; lia).
  assert (Hstop : start < stop <= main.len ids).
  { unfold stop. destruct (start + main.UsersPerPage >? main.len ids) eqn:H;
      unfold main.UsersPerPage in *; lia. }
  replace ((0 <=? start) && (start <=? stop) && (stop <=? main.len ids)) with true
    by (symmetry; rewrite !andb_true_iff, !Z.leb_le; lia).
  assert (Heq : take (Z.to_nat (stop - start)) (drop (Z.to_nat start) ids)
                = pageEntries ids p).
  { unfold pageEntries. fold start. unfold stop.
    destruct (start + main.UsersPerPage >? main.len ids) eqn:H.
    - rewrite !take_ge; [reflexivity | |];
        rewrite length_drop; unfold main.len, main.UsersPerPage in *; lia.
    - f_equal. unfold main.UsersPerPage. lia. }
  rewrite Heq. split; [reflexivity |].
  intros Hnil. apply (f_equal length) in Hnil. unfold pageEntries in Hnil.
  fold start in Hnil. rewrite length_take, length_drop in Hnil.
  unfold main.len in *. cbn [length] in Hnil. lia.
Qed.

Lemma GetBlockedUserIDs_answers (w : World) :
  redisFail w (redisCalls w) = None ->
  cache.GetBlockedUserIDs w
  = Some ((elements (blockedUsers w), None), redisAnswered (redis w) w).
Proof.
  intros Hok. unfold cache.GetBlockedUserIDs. mrun.
  rewrite command_answers by exact Hok. reflexivity.
Qed.

(** C8: when the store answers the read of the blocked set, the list shown
    for a requested page is page [p] of [total], where [total] is the ceiling
    of the number of entries over 10 and [p] is the requested page if it lies
    in [1, total] and 1 otherwise.  The text numbers the entries
    [(p - 1) * 10 + 1] to [min (p * 10) len] in their order, the keyboard has
    one unblock row for each of them in the same order, followed by the
    navigation row: a previous button exactly when [p > 1] and a next button
    exactly when [p < total].  An empty list is answered by the notice that
    nobody is blocked. *)
Theorem C8_blocked_list_pages (chatID page : Z) (w : World) :
  redisFail w (redisCalls w) = None ->
  let ids := elements (blockedUsers w) in
  let total := pageCount (main.len ids) in
  let p := shownPage page total in
  let entries := pageEntries ids p in
  exists w' : World,
    main.handleListBlocked chatID page w = Some (tt, w')
    /\ (ids = [] -> sent w' = sent w ++ [NewMessage chatID "当前没有拉黑的用户。"])
    /\ (ids <> [] ->
        10 * (total - 1) < main.len ids <= 10 * total
        /\ 1 <= p <= total
        /\ exists names labels : list string,
             length names = length entries /\ length labels = length entries
             /\ sent w' = sent w ++ [MessageConfig chatID
                  (main.listHeader p total
                   +:+ entryLines ((p - 1) * 10 + 1) (zip names entries))
                  "" (Some (map unblockRow (zip labels entries)
                            ++ navigation p total))]).
Proof.
  intros Hok. cbv zeta. unfold main.handleListBlocked.
  unfold mbind at 1, M_bind at 1. rewrite (GetBlockedUserIDs_answers w Hok).
  cbv beta iota. set (ids := elements (blockedUsers w)). clearbody ids.
  destruct (decide (ids = [])) as [-> | Hne].
  { cbn [main.len length Z.of_nat Z.eqb]. mrun.
    eexists. split; [reflexivity |]. split; [intros _; reflexivity | congruence]. }
  assert (Hlen : 0 < main.len ids).
  { destruct ids; [congruence |]. unfold main.len. simpl. lia. }
  replace (main.len ids =? 0) with false by (symmetry; apply Z.eqb_neq; lia).
  cbv zeta. fold (pageCount (main.len ids)).
  set (total := pageCount (main.len ids)).
  rewrite clamp_shownPage. set (p := shownPage page total).
  pose proof (pageCount_ceiling (main.len ids) ltac:(lia)) as Hceil. fold total in Hceil.
  assert (Hp : 1 <= p <= total) by (apply shownPage_range; lia).
  destruct (slice_page ids p Hp (redisAnswered (redis w) w)) as [Hslice Hsome].
  unfold mbind at 1, M_bind at 1. rewrite Hslice. cbv beta iota.
  set (entries := pageEntries ids p) in *.
  destruct (listEntries_runs ((p - 1) * main.UsersPerPage) entries 0
              (main.listHeader p total) (redisAnswered (redis w) w))
    as (names & w1 & Hnames & Hentries & Hsent1).
  unfold mbind at 1, M_bind at 1. rewrite Hentries. cbv beta iota.
  destruct (unblockRows_runs entries [] w1) as (labels & w2 & Hlabels & Hrows & Hsent2).
  unfold mbind at 1, M_bind at 1. rewrite Hrows. cbv beta iota.
  rewrite (navigation_rows p total _ Hp), app_nil_l.
  mrun. eexists. split; [reflexivity |]. split; [congruence |]. intros _.
  split; [exact Hceil |]. split; [exact Hp |].
  exists names, labels. split; [exact Hnames |]. split; [exact Hlabels |].
  cbn [sent delivered]. rewrite Hsent2, Hsent1. cbn [sent redisAnswered].
  f_equal. f_equal. f_equal.
  - f_equal. f_equal. unfold main.UsersPerPage. lia.
  - destruct entries as [| e es]; [congruence |].
    destruct labels; [discriminate |]. reflexivity.
Qed.

Lemma C8_blocked_list_pages_witness :
  let w := Sample.withSets ∅ blocked25 Sample.idle in
  let ids := elements (blockedUsers w) in
  let total := pageCount (main.len ids) in
  (main.len ids = 25 /\ total = 3)
  /\ (shownPage 0 total = 1 /\ shownPage 3 total = 3 /\ shownPage 4 total = 1)
  /\ (navigation 1 total = [[nextButton 1]]
      /\ navigation 3 total = [[previousButton 3]])
  /\ pageEntries ids 3 = drop 20 ids
  /\ exists w' : World,
       main.handleListBlocked 7 3 w = Some (tt, w')
       /\ (ids = [] -> sent w' = sent w ++ [NewMessage 7 "当前没有拉黑的用户。"])
       /\ (ids <> [] ->
           10 * (total - 1) < main.len ids <= 10 * total
           /\ 1 <= shownPage 3 total <= total
           /\ exists names labels : list string,
                length names = length (pageEntries ids (shownPage 3 total))
                /\ length labels = length (pageEntries ids (shownPage 3 total))
                /\ sent w' = sent w ++ [MessageConfig 7
                     (main.listHeader (shownPage 3 total) total
                      +:+ entryLines ((shownPage 3 total - 1) * 10 + 1)
                            (zip names (pageEntries ids (shownPage 3 total))))
                     "" (Some (map unblockRow
                                 (zip labels (pageEntries ids (shownPage 3 total)))
                               ++ navigation (shownPage 3 total) total))]).
Proof.
  intros w ids total.
  split; [split; vm_compute; reflexivity |].
  split; [repeat split; vm_compute; reflexivity |].
  split; [split; vm_compute; reflexivity |].
  split; [vm_compute; reflexivity |].
  exact (C8_blocked_list_pages 7 3 w eq_refl).
Defined.

(** * Further properties of the code *)

(** ** Decimal renderings and what [ParseInt] reads back *)

Lemma digits_uint_acc (d : Decimal.uint) (p : positive) :
  Strconv.digits (N.pos p) (NilEmpty.string_of_uint d)
  = Some (N.pos (Pos.of_uint_acc d p)).
Proof.
  revert p. induction d; intros p; cbn [NilEmpty.string_of_uint Pos.of_uint_acc];
    [reflexivity | ..];
    (cbn [Strconv.digits]; 
     match goal with |- context [Strconv.digit ?c] =>
       change (Strconv.digit c) with (Some (N_of_ascii c - 48)%N) end;
     cbv beta iota;
     match goal with |- Strconv.digits ?n _ = Some (N.pos (Pos.of_uint_acc _ ?q)) =>
       replace n with (N.pos q) by (vm_compute N_of_ascii; lia) end;
     apply IHd).
Qed.

Lemma digits_uint (d : Decimal.uint) :
  Strconv.digits 0 (NilEmpty.string_of_uint d) = Some (Pos.of_uint d).
Proof.
  induction d; cbn [NilEmpty.string_of_uint Pos.of_uint];
    [reflexivity | exact IHd | ..];
    (cbn [Strconv.digits]; 
     match goal with |- context [Strconv.digit ?c] =>
       change (Strconv.digit c) with (Some (N_of_ascii c - 48)%N) end;
     cbv beta iota;
     match goal with |- Strconv.digits ?n _ = Some (N.pos (Pos.of_uint_acc _ ?q)) =>
       change n with (N.pos q) end;
     apply digits_uint_acc).
Qed.

Lemma allBytes_uint (d : Decimal.uint) :
  allBytes isDigit (NilEmpty.string_of_uint d) = true.
Proof. induction d; cbn [NilEmpty.string_of_uint allBytes]; [reflexivity | ..]; exact IHd. Qed.

(** The decimal rendering of a positive number: digits, not empty, with the
    number as value. *)
Lemma FormatInt_pos (p : positive) :
  exists (c : ascii) (r : string),
    Strconv.FormatInt (Z.pos p) = String c r
    /\ allBytes isDigit (String c r) = true
    /\ Strconv.digits 0 (String c r) = Some (N.pos p).
Proof.
  unfold Strconv.FormatInt. cbn [Z.to_int NilZero.string_of_int].
  pose proof (Unsigned.to_uint_nonnil p) as Hnil.
  pose proof (Unsigned.of_to p) as Hof.
  pose proof (digits_uint (Pos.to_uint p)) as Hd.
  pose proof (allBytes_uint (Pos.to_uint p)) as Ha.
  rewrite Hof in Hd.
  destruct (Pos.to_uint p) eqn:E; [congruence | ..];
    cbn [NilZero.string_of_uint NilEmpty.string_of_uint] in *;
    eexists _, _; (split; [reflexivity |]); split; assumption.
Qed.

Lemma FormatInt_neg (p : positive) :
  Strconv.FormatInt (Z.neg p) = String "-" (Strconv.FormatInt (Z.pos p)).
Proof. reflexivity. Qed.

Lemma digit_not_sign (c : ascii) :
  isDigit c = true -> Ascii.eqb c "+" = false /\ Ascii.eqb c "-" = false.
Proof.
  unfold isDigit, Strconv.digit. intros H. apply bool_decide_eq_true in H.
  destruct ((48 <=? N_of_ascii c)%N && (N_of_ascii c <=? 57)%N) eqn:E.
  2: { destruct H as [x H]. discriminate. }
  apply andb_true_iff in E as [E1 E2]. apply N.leb_le in E1, E2.
  split; apply Ascii.eqb_neq; intros ->; vm_compute in E1, E2; 
    try (apply E1; reflexivity); try (apply E2; reflexivity); try discriminate.
Qed.

Lemma ParseInt_FormatInt (i : Z) :
  int64 i -> Strconv.ParseInt (Strconv.FormatInt i) = (i, true).
Proof.
  unfold int64. intros Hi. destruct i as [| p | p].
  - reflexivity.
  - destruct (FormatInt_pos p) as (c & r & -> & Ha & Hd).
    cbn [allBytes] in Ha. apply andb_true_iff in Ha as [Hc _].
    apply digit_not_sign in Hc as [Hplus Hminus].
    unfold Strconv.ParseInt. rewrite Hplus, Hminus. cbn [orb]. rewrite Hd.
    cbn [negb andb].
    destruct (2 ^ 63 <=? Z.of_N (N.pos p)) eqn:E; [apply Z.leb_le in E; simpl in E; lia |].
    reflexivity.
  - rewrite FormatInt_neg. destruct (FormatInt_pos p) as (c & r & -> & Ha & Hd).
    unfold Strconv.ParseInt. 
    change (Ascii.eqb "-" "-") with true. change (Ascii.eqb "-" "+") with false. 
    cbn [orb]. rewrite Hd. cbn [negb andb].
    destruct (2 ^ 63 <? Z.of_N (N.pos p)) eqn:E; [apply Z.ltb_lt in E; simpl in E; lia |].
    reflexivity.
Qed.

Lemma FormatInt_inj (a b : Z) : Strconv.FormatInt a = Strconv.FormatInt b -> a = b.
Proof.
  unfold Strconv.FormatInt. intros H.
  assert (Hn : forall z, NilZero.int_of_string (NilZero.string_of_int (Z.to_int z))
                         = Some (Z.to_int z)).
  { intros z. apply NilZero.isi; destruct z; cbn [Z.to_int]; try discriminate;
      intros E; injection E as E; exact (Unsigned.to_uint_nonnil _ E). }
  apply (f_equal NilZero.int_of_string) in H. rewrite !Hn in H.
  injection H as H. apply DecimalZ.to_int_inj. exact H.
Qed.

Lemma int64_small (i : Z) : -1000 <= i <= 1000 -> int64 i.
Proof. unfold int64. intros H. split; [| apply Z.le_lt_trans with 1000; [lia | reflexivity]].
  apply Z.le_trans with (-1000); [discriminate | lia]. Qed.

(** ** The store: blocking, user records and configuration values *)

Lemma storeAnswers_redisAnswered (r : Redis) (w : World) :
  storeAnswers w -> storeAnswers (redisAnswered r w).
Proof. intros H n. apply H. Qed.

Lemma members_SAdd (key key' member : string) (r : Redis) :
  cache.members key' (snd (cache.SAdd key member r))
  = if decide (key' = key) then {[member]} ∪ cache.members key r
    else cache.members key' r.
Proof.
  unfold cache.members, cache.SAdd. cbn [snd rsets].
  destruct (decide (key' = key)) as [-> | Hne].
  - rewrite lookup_insert_eq. reflexivity.
  - rewrite lookup_insert_ne by congruence. reflexivity.
Qed.

Lemma members_SRem (key key' member : string) (r : Redis) :
  cache.members key' (snd (cache.SRem key member r))
  = if decide (key' = key) then cache.members key r ∖ {[member]}
    else cache.members key' r.
Proof.
  unfold cache.members, cache.SRem. cbn [snd rsets].
  destruct (decide (key' = key)) as [-> | Hne].
  - rewrite lookup_insert_eq. reflexivity.
  - rewrite lookup_insert_ne by congruence. reflexivity.
Qed.

(** X1: while the store answers, [AddBlockedUser id] succeeds and
    [IsUserBlocked other] then answers true exactly when [other] is [id] or
    was blocked before; [RemoveBlockedUser id] succeeds and [IsUserBlocked
    other] then answers true exactly when [other] is not [id] and was blocked
    before. Neither changes the set of known users. *)
Theorem blocking_round_trip (id other : Z) (w : World) :
  storeAnswers w ->
  exists w1 w2 w3 w4 : World,
    cache.AddBlockedUser id w = Some (None, w1)
    /\ cache.IsUserBlocked other w1
       = Some ((bool_decide (other = id \/ Strconv.FormatInt other ∈ blockedUsers w),
                None), w2)
    /\ cache.RemoveBlockedUser id w = Some (None, w3)
    /\ cache.IsUserBlocked other w3
       = Some ((bool_decide (other <> id /\ Strconv.FormatInt other ∈ blockedUsers w),
                None), w4)
    /\ knownUsers w1 = knownUsers w /\ knownUsers w3 = knownUsers w.
Proof.
  intros Hok.
  set (m := Strconv.FormatInt id).
  exists (redisAnswered (snd (cache.SAdd cache.BlockedUsersSet m (redis w))) w).
  eexists.
  exists (redisAnswered (snd (cache.SRem cache.BlockedUsersSet m (redis w))) w).
  eexists.
  split; [| split; [| split; [| split; [| split]]]].
  - unfold cache.AddBlockedUser. mrun. rewrite command_answers by apply Hok. reflexivity.
  - rewrite IsUserBlocked_answers by apply Hok. f_equal. f_equal. f_equal.
    unfold blockedUsers. cbn [redis redisAnswered]. rewrite members_SAdd.
    rewrite decide_True by reflexivity.
    apply bool_decide_ext. rewrite elem_of_union, elem_of_singleton. unfold m.
    split; (intros [H | H]; [left | right; exact H]).
    + apply FormatInt_inj. exact H.
    + rewrite H. reflexivity.
  - unfold cache.RemoveBlockedUser. mrun. rewrite command_answers by apply Hok. reflexivity.
  - rewrite IsUserBlocked_answers by apply Hok. f_equal. f_equal. f_equal.
    unfold blockedUsers. cbn [redis redisAnswered]. rewrite members_SRem.
    rewrite decide_True by reflexivity.
    apply bool_decide_ext. rewrite elem_of_difference, elem_of_singleton. unfold m.
    split; intros [H1 H2].
    + split; [| exact H1]. intros ->. apply H2. reflexivity.
    + split; [exact H2 |]. intros H. apply H1. apply FormatInt_inj. exact H.
  - unfold knownUsers. cbn [redis redisAnswered]. rewrite members_SAdd.
    rewrite decide_False by discriminate. reflexivity.
  - unfold knownUsers. cbn [redis redisAnswered]. rewrite members_SRem.
    rewrite decide_False by discriminate. reflexivity.
Qed.

Lemma blocking_round_trip_witness :
  storeAnswers Sample.idle
  /\ exists w1 w2 : World,
       cache.AddBlockedUser 5 Sample.idle = Some (None, w1)
       /\ cache.IsUserBlocked 5 w1 = Some ((true, None), w2).
Proof.
  assert (Hok : storeAnswers Sample.idle) by (intros n; reflexivity).
  split; [exact Hok |].
  destruct (blocking_round_trip 5 5 Sample.idle Hok)
    as (w1 & w2 & _ & _ & Hadd & Hcheck & _).
  exists w1, w2. split; [exact Hadd |].
  rewrite Hcheck, bool_decide_eq_true_2 by (left; reflexivity). reflexivity.
Defined.

Lemma userKey_inj (a b : Z) : cache.userKey a = cache.userKey b -> a = b.
Proof.
  unfold cache.userKey. intros H. apply FormatInt_inj.
  change ("user:" +:+ Strconv.FormatInt a) with
    (String "u" (String "s" (String "e" (String "r" (String ":" (Strconv.FormatInt a)))))) in H.
  change ("user:" +:+ Strconv.FormatInt b) with
    (String "u" (String "s" (String "e" (String "r" (String ":" (Strconv.FormatInt b)))))) in H.
  congruence.
Qed.

Lemma GetUserInfo_answers (userID : Z) (w : World) :
  redisFail w (redisCalls w) = None ->
  cache.GetUserInfo userID w
  = Some ((default "" (default ∅ (rhashes (redis w) !! cache.userKey userID) !! "first_name"),
           default "" (default ∅ (rhashes (redis w) !! cache.userKey userID) !! "last_name"),
           default "" (default ∅ (rhashes (redis w) !! cache.userKey userID) !! "username"),
           None), redisAnswered (redis w) w).
Proof.
  intros Hok. unfold cache.GetUserInfo. mrun.
  rewrite command_answers by exact Hok. cbv beta iota. cbn [cache.HMGet fst snd map].
  reflexivity.
Qed.

(** X2: while the store answers, [StoreUserInfo] of a user succeeds and
    [GetUserInfo] of the user's identifier then returns the first name, the
    last name and the user name that were stored, without an error; the
    record of any other identifier reads as before, and the sets of known and
    of blocked users are unchanged. *)
Theorem user_info_round_trip (user : User) (other : Z) (w : World) :
  storeAnswers w ->
  exists w1 : World,
    cache.StoreUserInfo (Some user) w = Some (None, w1)
    /\ fst <$> cache.GetUserInfo (ID user) w1
       = Some (FirstName user, LastName user, UserName user, None)
    /\ (other <> ID user ->
        fst <$> cache.GetUserInfo other w1 = fst <$> cache.GetUserInfo other w)
    /\ knownUsers w1 = knownUsers w /\ blockedUsers w1 = blockedUsers w.
Proof.
  intros Hok. exists (storedUserInfo user w).
  split; [apply StoreUserInfo_answers; exact Hok |].
  split; [| split; [| split; reflexivity]].
  - rewrite GetUserInfo_answers by apply Hok. cbn [fmap option_fmap option_map fst].
    unfold storedUserInfo, cache.HSet. cbn [redis redisAnswered snd rhashes].
    rewrite !lookup_insert_eq. cbn [from_option]. unfold id.
    repeat (rewrite lookup_insert_eq || rewrite lookup_insert_ne by discriminate).
    reflexivity.
  - intros Hne. rewrite !GetUserInfo_answers by apply Hok.
    cbn [fmap option_fmap option_map fst].
    unfold storedUserInfo, cache.HSet. cbn [redis redisAnswered snd rhashes].
    assert (Hkey : cache.userKey (ID user) <> cache.userKey other).
    { intros H. apply Hne. symmetry. apply userKey_inj. exact H. }
    rewrite !(lookup_insert_ne _ _ _ _ Hkey). reflexivity.
Qed.

Lemma user_info_round_trip_witness :
  storeAnswers Sample.idle
  /\ exists w1 : World,
       cache.StoreUserInfo (Some (Sample.user 5)) Sample.idle = Some (None, w1)
       /\ fst <$> cache.GetUserInfo 5 w1 = Some ("Ann", "", "", None).
Proof.
  assert (Hok : storeAnswers Sample.idle) by (intros n; reflexivity).
  split; [exact Hok |].
  destruct (user_info_round_trip (Sample.user 5) 6 Sample.idle Hok)
    as (w1 & Hstore & Hget & _).
  exists w1. split; [exact Hstore | exact Hget].
Defined.

(** X3: [StoreUserInfo] writes the fields first_name, last_name and username
    in this order and stops at the first write the store refuses: when the
    write of index [k] (below 3) is the first to fail, with the error [e],
    the function returns [e], the fields before it and no other have been
    written, [k + 1] calls were made to the store, and nothing is sent. *)
Theorem StoreUserInfo_stops_at_first_failure (user : User) (k : nat) (e : string)
    (w : World) :
  (k < 3)%nat ->
  (forall j : nat, (j < k)%nat -> redisFail w (redisCalls w + j) = None) ->
  redisFail w (redisCalls w + k) = Some e ->
  exists w' : World,
    cache.StoreUserInfo (Some user) w = Some (Some e, w')
    /\ redis w'
       = writeFields (cache.userKey (ID user)) (take k (userFields user)) (redis w)
    /\ redisCalls w' = (redisCalls w + k + 1)%nat
    /\ sent w' = sent w.
Proof.
  intros Hk Hbefore Hfail. unfold cache.StoreUserInfo. mrun.
  destruct k as [| [| [| k]]]; [| | | lia].
  - rewrite Nat.add_0_r in Hfail.
    rewrite (command_fails _ _ e) by exact Hfail. cbv beta iota.
    eexists. split; [reflexivity |]. cbn [redis redisCalls redisAnswered sent].
    repeat split. lia.
  - rewrite command_answers by (rewrite <- (Nat.add_0_r (redisCalls w)); apply Hbefore; lia).
    cbv beta iota.
    rewrite (command_fails _ _ e)
      by (cbn [redisCalls redisAnswered redisFail]; rewrite <- Hfail; f_equal; lia).
    cbv beta iota.
    eexists. split; [reflexivity |]. cbn [redis redisCalls redisAnswered sent].
    repeat split. lia.
  - rewrite command_answers by (rewrite <- (Nat.add_0_r (redisCalls w)); apply Hbefore; lia).
    cbv beta iota.
    rewrite command_answers
      by (cbn [redisCalls redisAnswered redisFail];
          rewrite <- (Hbefore 1%nat ltac:(lia)); f_equal; lia).
    cbv beta iota.
    rewrite (command_fails _ _ e)
      by (cbn [redisCalls redisAnswered redisFail]; rewrite <- Hfail; f_equal; lia).
    cbv beta iota.
    eexists. split; [reflexivity |]. cbn [redis redisCalls redisAnswered sent].
    repeat split. lia.
Qed.

Lemma StoreUserInfo_stops_at_first_failure_witness :
  let w := failingAt 1 "down" Sample.idle in
  redisFail w 0 = None /\ redisFail w 1 = Some "down"
  /\ exists w' : World,
       cache.StoreUserInfo (Some (Sample.user 5)) w = Some (Some "down", w')
       /\ redisCalls w' = 2%nat.
Proof.
  intros w. split; [reflexivity |]. split; [reflexivity |].
  destruct (StoreUserInfo_stops_at_first_failure (Sample.user 5) 1 "down" w
              ltac:(lia) ltac:(intros [| j] Hj; [reflexivity | lia]) eq_refl)
    as (w' & Hrun & _ & Hcalls & _).
  exists w'. split; [exact Hrun | exact Hcalls].
Defined.

Lemma GetConfigValue_answers (key : string) (w : World) :
  redisFail w (redisCalls w) = None ->
  cache.GetConfigValue key w
  = Some ((configValue key w, None), redisAnswered (redis w) w).
Proof.
  intros Hok. unfold cache.GetConfigValue. mrun.
  rewrite command_answers by exact Hok. cbv beta iota. cbn [cache.Get fst snd].
  unfold configValue. destruct (rstrings (redis w) !! key); reflexivity.
Qed.

Lemma GetConfigValue_fails (key e : string) (w : World) :
  redisFail w (redisCalls w) = Some e ->
  cache.GetConfigValue key w = Some (("", Some e), redisAnswered (redis w) w).
Proof.
  intros Hfail. unfold cache.GetConfigValue. mrun.
  rewrite (command_fails _ _ e) by exact Hfail. reflexivity.
Qed.

Lemma SetConfigValue_answers (key value : string) (w : World) :
  redisFail w (redisCalls w) = None ->
  cache.SetConfigValue key value w
  = Some (None, redisAnswered (snd (cache.Set' key value (redis w))) w).
Proof.
  intros Hok. unfold cache.SetConfigValue. mrun.
  rewrite command_answers by exact Hok. reflexivity.
Qed.

Lemma configValue_Set (key value other : string) (w : World) :
  configValue other (redisAnswered (snd (cache.Set' key value (redis w))) w)
  = if decide (other = key) then value else configValue other w.
Proof.
  unfold configValue, cache.Set'. cbn [redis redisAnswered snd rstrings].
  destruct (decide (other = key)) as [-> | Hne].
  - rewrite lookup_insert_eq. reflexivity.
  - rewrite lookup_insert_ne by congruence. reflexivity.
Qed.

(** X4: while the store answers, [SetConfigValue key value] succeeds and
    [GetConfigValue key] then returns [value]; any other key reads as before;
    and a key the store does not hold reads as the empty string without an
    error. *)
Theorem config_round_trip (key value other : string) (w : World) :
  storeAnswers w ->
  exists w1 : World,
    cache.SetConfigValue key value w = Some (None, w1)
    /\ fst <$> cache.GetConfigValue key w1 = Some (value, None)
    /\ (other <> key ->
        fst <$> cache.GetConfigValue other w1 = fst <$> cache.GetConfigValue other w)
    /\ (rstrings (redis w) !! other = None ->
        fst <$> cache.GetConfigValue other w = Some ("", None)).
Proof.
  intros Hok. eexists. split; [apply SetConfigValue_answers; apply Hok |].
  split; [| split].
  - rewrite GetConfigValue_answers by apply Hok. cbn [fmap option_fmap option_map fst].
    rewrite configValue_Set, decide_True by reflexivity. reflexivity.
  - intros Hne. rewrite !GetConfigValue_answers by apply Hok.
    cbn [fmap option_fmap option_map fst].
    rewrite configValue_Set, decide_False by exact Hne. reflexivity.
  - intros Habsent. rewrite GetConfigValue_answers by apply Hok.
    cbn [fmap option_fmap option_map fst]. unfold configValue. rewrite Habsent.
    reflexivity.
Qed.

Lemma config_round_trip_witness :
  storeAnswers Sample.idle
  /\ exists w1 : World,
       cache.SetConfigValue "config:welcome_message" "hello" Sample.idle
       = Some (None, w1)
       /\ fst <$> cache.GetConfigValue "config:welcome_message" w1
          = Some ("hello", None)
       /\ fst <$> cache.GetConfigValue "config:welcome_buttons" Sample.idle
          = Some ("", None).
Proof.
  assert (Hok : storeAnswers Sample.idle) by (intros n; reflexivity).
  split; [exact Hok |].
  destruct (config_round_trip "config:welcome_message" "hello"
              "config:welcome_buttons" Sample.idle Hok)
    as (w1 & Hset & Hget & _ & Habsent).
  exists w1. split; [exact Hset |]. split; [exact Hget |].
  apply Habsent. reflexivity.
Defined.

(** ** The welcome flow *)

Lemma eqb_empty (s : string) : String.eqb s "" = bool_decide (s = "").
Proof. destruct s; reflexivity. Qed.

Lemma HandleStartCommand_runs (chatID : Z) (w : World) :
  welcome.HandleStartCommand chatID w
  = Some (tt, delivered (greeting chatID w)
                (redisAnswered (redis w) (redisAnswered (redis w) w))).
Proof.
  unfold welcome.HandleStartCommand, greeting, greetingText, greetingMarkup.
  change welcome.defaultWelcome with builtInGreeting.
  unfold mbind at 1, M_bind at 1.
  destruct (redisFail w (redisCalls w)) as [e1 |] eqn:H1.
  - rewrite (GetConfigValue_fails _ e1) by exact H1. cbv beta iota.
    unfold mbind at 1, M_bind at 1.
    rewrite (bool_decide_eq_true_2 (Some e1 <> None)) by discriminate.
    rewrite (bool_decide_eq_false_2 (Some e1 = None /\ _)) by (intros [H _]; discriminate).
    cbn [orb].
    destruct (redisFail w (S (redisCalls w))) as [e2 |] eqn:H2.
    + rewrite (GetConfigValue_fails _ e2) by exact H2. cbv beta iota. mrun.
      rewrite (bool_decide_eq_false_2 (Some e2 = None)) by discriminate.
      reflexivity.
    + rewrite GetConfigValue_answers by exact H2. cbv beta iota. mrun.
      rewrite (bool_decide_eq_true_2 (None = None)) by reflexivity.
      cbn [andb]. rewrite eqb_empty.
      change (configValue welcome.ConfigWelcomeButtons (redisAnswered (redis w) w))
        with (configValue welcome.ConfigWelcomeButtons w).
      destruct (bool_decide_reflect (configValue welcome.ConfigWelcomeButtons w = "")) as [E | E].
      * rewrite E. reflexivity.
      * reflexivity.
  - rewrite GetConfigValue_answers by exact H1. cbv beta iota.
    unfold mbind at 1, M_bind at 1.
    rewrite (bool_decide_eq_false_2 (None <> None)) by (intros H; apply H; reflexivity).
    cbn [orb]. rewrite eqb_empty.
    assert (Htext : (if bool_decide (configValue welcome.ConfigWelcomeMessage w = "")
                     then builtInGreeting
                     else configValue welcome.ConfigWelcomeMessage w)
                    = (if bool_decide (None = None (A:=string)
                                       /\ configValue welcome.ConfigWelcomeMessage w <> "")
                       then configValue welcome.ConfigWelcomeMessage w
                       else builtInGreeting)).
    { destruct (bool_decide_reflect (configValue welcome.ConfigWelcomeMessage w = "")) as [E | E].
      - rewrite bool_decide_eq_false_2 by (intros [_ H]; contradiction). reflexivity.
      - rewrite bool_decide_eq_true_2 by (split; [reflexivity | exact E]). reflexivity. }
    rewrite Htext. clear Htext.
    destruct (redisFail w (S (redisCalls w))) as [e2 |] eqn:H2.
    + rewrite (GetConfigValue_fails _ e2) by exact H2. cbv beta iota. mrun.
      rewrite (bool_decide_eq_false_2 (Some e2 = None)) by discriminate.
      reflexivity.
    + rewrite GetConfigValue_answers by exact H2. cbv beta iota. mrun.
      rewrite (bool_decide_eq_true_2 (None = None)) by reflexivity.
      cbn [andb]. rewrite eqb_empty.
      change (configValue welcome.ConfigWelcomeButtons (redisAnswered (redis w) w))
        with (configValue welcome.ConfigWelcomeButtons w).
      destruct (bool_decide_reflect (configValue welcome.ConfigWelcomeButtons w = "")) as [E | E].
      * rewrite E. reflexivity.
      * reflexivity.
Qed.

Lemma greetingText_nonempty (w : World) : greetingText w <> "".
Proof.
  unfold greetingText. destruct (bool_decide_reflect
    (redisFail w (redisCalls w) = None
     /\ configValue welcome.ConfigWelcomeMessage w <> "")) as [[_ H] | _].
  - exact H.
  - discriminate.
Qed.

(** X5: [HandleStartCommand] never panics and always sends exactly one
    message to the chat, whatever the store answers. Its text is never empty:
    it is the stored welcome text when the store answers the first read with
    a text that is not empty, and the built-in greeting otherwise. Its
    keyboard is never an empty one: it is the keyboard parsed from the stored
    buttons when the store answers the second read and the parse gives a row,
    and none otherwise. Two calls are made to the store; the store and the
    admin states are unchanged. *)
Theorem greeting_is_always_sent (chatID : Z) (w : World) :
  exists (text : string) (markup : option InlineKeyboardMarkup) (w' : World),
    welcome.HandleStartCommand chatID w = Some (tt, w')
    /\ sent w' = sent w ++ [MessageConfig chatID text "" markup]
    /\ text <> "" /\ markup <> Some []
    /\ (redisFail w (redisCalls w) <> None
        \/ configValue welcome.ConfigWelcomeMessage w = "" ->
        text = builtInGreeting)
    /\ (redisFail w (redisCalls w) = None ->
        configValue welcome.ConfigWelcomeMessage w <> "" ->
        text = configValue welcome.ConfigWelcomeMessage w)
    /\ (redisFail w (S (redisCalls w)) <> None -> markup = None)
    /\ (redisFail w (S (redisCalls w)) = None ->
        let keyboard :=
          welcome.ParseButtons (configValue welcome.ConfigWelcomeButtons w) in
        markup = if nonEmpty keyboard then Some keyboard else None)
    /\ adminStates w' = adminStates w /\ redis w' = redis w
    /\ redisCalls w' = (redisCalls w + 2)%nat.
Proof.
  exists (greetingText w), (greetingMarkup w). eexists.
  split; [apply HandleStartCommand_runs |].
  split; [reflexivity |]. split; [apply greetingText_nonempty |].
  split; [| split; [| split; [| split; [| split; [| split]]]]].
  - unfold greetingMarkup. destruct (bool_decide _); [| discriminate].
    cbv zeta. destruct (welcome.ParseButtons _); cbn [nonEmpty]; discriminate.
  - intros H. unfold greetingText. rewrite bool_decide_eq_false_2; [reflexivity |].
    intros [H1 H2]. destruct H as [H | H]; contradiction.
  - intros H1 H2. unfold greetingText. rewrite bool_decide_eq_true_2; [reflexivity |].
    split; assumption.
  - intros H. unfold greetingMarkup. rewrite bool_decide_eq_false_2 by exact H. reflexivity.
  - intros H. unfold greetingMarkup. rewrite bool_decide_eq_true_2 by exact H. reflexivity.
  - reflexivity.
  - split; [reflexivity |]. cbn [redisCalls delivered redisAnswered]. lia.
Qed.

(** What the greeting reads is not changed by what the handlers send, nor by
    a change of the admin states. *)
Lemma greetingText_Set_message (value : string) (w : World) :
  redisFail w (S (redisCalls w)) = None ->
  greetingText (redisAnswered
                  (snd (cache.Set' welcome.ConfigWelcomeMessage value (redis w))) w)
  = if String.eqb value "" then builtInGreeting else value.
Proof.
  intros Hok. unfold greetingText.
  rewrite configValue_Set, decide_True by reflexivity.
  cbn [redisFail redisCalls redisAnswered]. rewrite eqb_empty.
  destruct (bool_decide_reflect (value = "")) as [E | E].
  - rewrite bool_decide_eq_false_2 by (intros [_ H]; contradiction). reflexivity.
  - rewrite bool_decide_eq_true_2 by (split; assumption). reflexivity.
Qed.

(** X6: in the state [StateAwaitingWelcomeMessage] of the sender, while the
    store answers, the text of the message is saved as the welcome text, the
    state of the chat is set to 0, and a confirmation followed by the
    greeting is sent; from the state reached, [HandleStartCommand] sends that
    same greeting to any chat: the saved text, or the built-in greeting when
    the saved text is empty. *)
Theorem welcome_text_is_saved_and_shown (msg : Message) (from : User) (w : World) :
  From msg = Some from ->
  adminStates w !! ID from = Some welcome.StateAwaitingWelcomeMessage ->
  storeAnswers w ->
  let shown := if String.eqb (Text msg) "" then builtInGreeting else Text msg in
  exists (markup : option InlineKeyboardMarkup) (w' : World),
    welcome.HandleAdminMessageInput msg w = Some (true, w')
    /\ configValue welcome.ConfigWelcomeMessage w' = Text msg
    /\ adminStates w' = <[ChatID msg := 0]> (adminStates w)
    /\ sent w' = sent w ++ [NewMessage (ChatID msg) "✅ 欢迎语已更新。";
                            MessageConfig (ChatID msg) shown "" markup]
    /\ forall chatID : Z,
         exists w'' : World,
           welcome.HandleStartCommand chatID w' = Some (tt, w'')
           /\ sent w'' = sent w' ++ [MessageConfig chatID shown "" markup].
Proof.
  intros Hfrom Hstate Hok shown.
  unfold welcome.HandleAdminMessageInput. mrun. rewrite Hfrom. cbv beta iota.
  rewrite Hstate. cbv beta iota.
  change (welcome.StateAwaitingWelcomeMessage =? welcome.StateAwaitingWelcomeMessage)
    with true. cbv beta iota.
  unfold welcome.handleWelcomeMessageInput. mrun.
  rewrite SetConfigValue_answers by apply Hok. cbv beta iota.
  rewrite HandleStartCommand_runs.
  eexists. eexists. split; [reflexivity |].
  split; [| split; [| split]].
  - unfold configValue.
    cbn [redis delivered redisAnswered setAdminStates cache.Set' snd rstrings].
    rewrite lookup_insert_eq. reflexivity.
  - reflexivity.
  - cbn [sent delivered redisAnswered setAdminStates]. rewrite <- app_assoc.
    cbn [app]. f_equal. f_equal. f_equal. unfold greeting. f_equal.
    apply (greetingText_Set_message (Text msg) w). apply Hok.
  - intros chatID. rewrite HandleStartCommand_runs. eexists. split; [reflexivity |].
    cbn [sent delivered redisAnswered setAdminStates]. f_equal. f_equal.
    unfold greeting. f_equal.
    + unfold greetingText. cbn [redisFail redisCalls redis delivered redisAnswered setAdminStates].
      rewrite !(Hok _). 
      change (configValue welcome.ConfigWelcomeMessage _) with
        (configValue welcome.ConfigWelcomeMessage
           (redisAnswered (snd (cache.Set' welcome.ConfigWelcomeMessage (Text msg) (redis w))) w)).
      rewrite configValue_Set, decide_True by reflexivity. unfold shown.
      rewrite eqb_empty.
      destruct (bool_decide_reflect (Text msg = "")) as [E | E].
      * rewrite bool_decide_eq_false_2 by (intros [_ H]; contradiction). reflexivity.
      * rewrite bool_decide_eq_true_2 by (split; [reflexivity | assumption]). reflexivity.
    + unfold greetingMarkup.
      cbn [redisFail redisCalls redis delivered redisAnswered setAdminStates].
      rewrite !(Hok _). reflexivity.
Qed.

Lemma welcome_text_is_saved_and_shown_witness :
  let w := Sample.withState 7 welcome.StateAwaitingWelcomeMessage Sample.idle in
  exists (markup : option InlineKeyboardMarkup) (w' : World),
    welcome.HandleAdminMessageInput (Sample.textFrom 7 "Hi there") w = Some (true, w')
    /\ configValue welcome.ConfigWelcomeMessage w' = "Hi there"
    /\ sent w' = [NewMessage 7 "✅ 欢迎语已更新。"; MessageConfig 7 "Hi there" "" markup].
Proof.
  intros w.
  destruct (welcome_text_is_saved_and_shown (Sample.textFrom 7 "Hi there")
              (Sample.user 7) w eq_refl eq_refl (fun _ => eq_refl))
    as (markup & w' & Hrun & Hsaved & _ & Hsent & _).
  exists markup, w'. split; [exact Hrun |]. split; [exact Hsaved | exact Hsent].
Defined.

(** X7: in the state [StateAwaitingWelcomeButtons] of the sender, while the
    store answers, the text of the message is saved as it stands, whatever
    its lines are (the welcome flow validates nothing), the state of the chat
    is set to 0, and a confirmation followed by the greeting is sent, with
    the keyboard parsed from that text, or with none when the parse gives no
    row. *)
Theorem welcome_buttons_are_saved_unchecked (msg : Message) (from : User) (w : World) :
  From msg = Some from ->
  adminStates w !! ID from = Some welcome.StateAwaitingWelcomeButtons ->
  storeAnswers w ->
  let keyboard := welcome.ParseButtons (Text msg) in
  let markup := if nonEmpty keyboard then Some keyboard else None in
  exists (text : string) (w' : World),
    welcome.HandleAdminMessageInput msg w = Some (true, w')
    /\ configValue welcome.ConfigWelcomeButtons w' = Text msg
    /\ adminStates w' = <[ChatID msg := 0]> (adminStates w)
    /\ sent w' = sent w ++ [NewMessage (ChatID msg) "✅ 欢迎按钮已更新。";
                            MessageConfig (ChatID msg) text "" markup].
Proof.
  intros Hfrom Hstate Hok keyboard markup.
  unfold welcome.HandleAdminMessageInput. mrun. rewrite Hfrom. cbv beta iota.
  rewrite Hstate. cbv beta iota.
  change (welcome.StateAwaitingWelcomeButtons =? welcome.StateAwaitingWelcomeMessage)
    with false.
  change (welcome.StateAwaitingWelcomeButtons =? welcome.StateAwaitingWelcomeButtons)
    with true. cbv beta iota.
  unfold welcome.handleWelcomeButtonsInput. mrun.
  rewrite SetConfigValue_answers by apply Hok. cbv beta iota.
  rewrite HandleStartCommand_runs.
  eexists. eexists. split; [reflexivity |].
  split; [| split].
  - unfold configValue.
    cbn [redis delivered redisAnswered setAdminStates cache.Set' snd rstrings].
    rewrite lookup_insert_eq. reflexivity.
  - reflexivity.
  - cbn [sent delivered redisAnswered setAdminStates]. rewrite <- app_assoc.
    cbn [app]. f_equal. f_equal. f_equal. unfold greeting. f_equal.
    unfold greetingMarkup.
    cbn [redisFail redisCalls redis delivered redisAnswered setAdminStates].
    rewrite !(Hok _). rewrite bool_decide_eq_true_2 by reflexivity.
    unfold configValue.
    cbn [redis delivered redisAnswered setAdminStates cache.Set' snd rstrings].
    rewrite lookup_insert_eq. reflexivity.
Qed.

Lemma welcome_buttons_are_saved_unchecked_witness :
  let w := Sample.withState 7 welcome.StateAwaitingWelcomeButtons Sample.idle in
  exists (text : string) (w' : World),
    welcome.HandleAdminMessageInput (Sample.textFrom 7 "no separator here") w
    = Some (true, w')
    /\ configValue welcome.ConfigWelcomeButtons w' = "no separator here"
    /\ sent w' = [NewMessage 7 "✅ 欢迎按钮已更新。"; MessageConfig 7 text "" None].
Proof.
  intros w.
  destruct (welcome_buttons_are_saved_unchecked (Sample.textFrom 7 "no separator here")
              (Sample.user 7) w eq_refl eq_refl (fun _ => eq_refl))
    as (text & w' & Hrun & Hsaved & _ & Hsent).
  exists text, w'. split; [exact Hrun |]. split; [exact Hsaved | exact Hsent].
Defined.

(** X8: when the store refuses to save the input of one of the two welcome
    states, the handler still claims the message, sends one notice that
    quotes the error, and leaves the admin states and the store as they were:
    the state is not cleared, so the next message is taken as input again. *)
Theorem welcome_input_survives_store_failure (msg : Message) (from : User)
    (state : Z) (e : string) (w : World) :
  From msg = Some from ->
  adminStates w !! ID from = Some state ->
  state = welcome.StateAwaitingWelcomeMessage
  \/ state = welcome.StateAwaitingWelcomeButtons ->
  redisFail w (redisCalls w) = Some e ->
  exists w' : World,
    welcome.HandleAdminMessageInput msg w = Some (true, w')
    /\ sent w' = sent w ++ [NewMessage (ChatID msg) (saveFailureNotice state e)]
    /\ adminStates w' = adminStates w
    /\ redis w' = redis w.
Proof.
  intros Hfrom Hstate Hwhich Hfail.
  unfold welcome.HandleAdminMessageInput. mrun. rewrite Hfrom. cbv beta iota.
  rewrite Hstate. cbv beta iota.
  destruct Hwhich as [-> | ->].
  - change (welcome.StateAwaitingWelcomeMessage =? welcome.StateAwaitingWelcomeMessage)
      with true. cbv beta iota.
    unfold welcome.handleWelcomeMessageInput, cache.SetConfigValue. mrun.
    rewrite (command_fails _ _ e) by exact Hfail. cbv beta iota.
    eexists. split; [reflexivity |]. repeat split.
  - change (welcome.StateAwaitingWelcomeButtons =? welcome.StateAwaitingWelcomeMessage)
      with false.
    change (welcome.StateAwaitingWelcomeButtons =? welcome.StateAwaitingWelcomeButtons)
      with true. cbv beta iota.
    unfold welcome.handleWelcomeButtonsInput, cache.SetConfigValue. mrun.
    rewrite (command_fails _ _ e) by exact Hfail. cbv beta iota.
    eexists. split; [reflexivity |]. repeat split.
Qed.

Lemma welcome_input_survives_store_failure_witness :
  let w := failingAt 0 "down"
             (Sample.withState 7 welcome.StateAwaitingWelcomeButtons Sample.idle) in
  exists w' : World,
    welcome.HandleAdminMessageInput (Sample.textFrom 7 "a | https://x.test") w
    = Some (true, w')
    /\ sent w' = [NewMessage 7 "保存按钮失败: down"]
    /\ adminStates w' !! 7 = Some welcome.StateAwaitingWelcomeButtons.
Proof.
  intros w.
  destruct (welcome_input_survives_store_failure
              (Sample.textFrom 7 "a | https://x.test") (Sample.user 7)
              welcome.StateAwaitingWelcomeButtons "down" w eq_refl eq_refl
              (or_intror eq_refl) eq_refl)
    as (w' & Hrun & Hsent & Hstates & _).
  exists w'. split; [exact Hrun |]. split; [exact Hsent |].
  rewrite Hstates. reflexivity.
Defined.

(** ** The broadcast builder *)

Lemma sendBroadcastBuilderMenu_runs (chatID : Z) (w : World) :
  exists w' : World,
    broadcast.sendBroadcastBuilderMenu chatID w = Some (tt, w')
    /\ sent w' = sent w ++ menuCleanup chatID w
                 ++ [builderMenu chatID (broadcast.draftOf w chatID)]
    /\ BroadcastPromptMessageIDs w'
       = match apiResult w (length (sent w ++ menuCleanup chatID w)) with
         | Some messageID => <[chatID := messageID]> (BroadcastPromptMessageIDs w)
         | None => BroadcastPromptMessageIDs w
         end
    /\ adminStates w' = adminStates w /\ Broadcasts w' = Broadcasts w
    /\ redis w' = redis w.
Proof.
  unfold broadcast.sendBroadcastBuilderMenu, menuCleanup, builderMenu. mrun.
  destruct (default 0 (BroadcastPromptMessageIDs w !! chatID) =? 0) eqn:Hold;
    cbn [negb]; cbv beta iota.
  - rewrite app_nil_r.
    destruct (apiResult w (length (sent w))); eexists; (split; [reflexivity |]);
      cbn [sent delivered setPromptIDs]; repeat split.
  - cbn [sent delivered apiResult].
    destruct (apiResult w (length (sent w ++ _))); eexists; (split; [reflexivity |]);
      cbn [sent delivered setPromptIDs]; rewrite <- ?app_assoc; repeat split.
Qed.

(** X9: [sendBroadcastBuilderMenu] never panics. It first asks for the
    deletion of the menu message recorded for the chat, if one is recorded
    (an identifier other than 0), then sends the menu of the current draft;
    it records the identifier of the message sent as the new menu when the
    Bot API answers, and keeps the old record when it does not. States,
    drafts and store are unchanged. *)
Theorem builder_menu_replaces_its_prompt (chatID : Z) (w : World) :
  exists w' : World,
    broadcast.sendBroadcastBuilderMenu chatID w = Some (tt, w')
    /\ sent w' = sent w ++ menuCleanup chatID w
                 ++ [builderMenu chatID (broadcast.draftOf w chatID)]
    /\ BroadcastPromptMessageIDs w'
       = match apiResult w (length (sent w ++ menuCleanup chatID w)) with
         | Some messageID => <[chatID := messageID]> (BroadcastPromptMessageIDs w)
         | None => BroadcastPromptMessageIDs w
         end
    /\ adminStates w' = adminStates w /\ Broadcasts w' = Broadcasts w
    /\ redis w' = redis w.
Proof. exact (sendBroadcastBuilderMenu_runs chatID w). Qed.

Lemma states_eqb :
  (broadcast.StateBroadcastAwaitText =? broadcast.StateBroadcastAwaitText) = true
  /\ (broadcast.StateBroadcastAwaitMedia =? broadcast.StateBroadcastAwaitText) = false
  /\ (broadcast.StateBroadcastAwaitMedia =? broadcast.StateBroadcastAwaitMedia) = true
  /\ (broadcast.StateBroadcastAwaitButtons =? broadcast.StateBroadcastAwaitText) = false
  /\ (broadcast.StateBroadcastAwaitButtons =? broadcast.StateBroadcastAwaitMedia) = false
  /\ (broadcast.StateBroadcastAwaitButtons =? broadcast.StateBroadcastAwaitButtons) = true.
Proof. repeat split. Qed.

Lemma awaitText_accepts (msg : Message) (w : World) :
  adminStates w !! ChatID msg = Some broadcast.StateBroadcastAwaitText ->
  Text msg <> "" ->
  broadcast.HandleMessageInput msg w
  = Some (true,
          delivered (mediaPrompt (ChatID msg))
            (delivered (NewDeleteMessage (ChatID msg) (MessageID msg))
               (setAdminStates <[ChatID msg := broadcast.StateBroadcastAwaitMedia]>
                  (setBroadcasts
                     <[ChatID msg := broadcast.withText
                                       (broadcast.draftOf w (ChatID msg)) (Text msg)]>
                     w)))).
Proof.
  intros Hstate Htext. unfold broadcast.HandleMessageInput. mrun.
  rewrite Hstate. cbv beta iota.
  change (broadcast.StateBroadcastAwaitText =? broadcast.StateBroadcastAwaitText) with true.
  cbv beta iota. rewrite eqb_empty, bool_decide_eq_false_2 by exact Htext.
  reflexivity.
Qed.

Lemma awaitText_refuses (msg : Message) (w : World) :
  adminStates w !! ChatID msg = Some broadcast.StateBroadcastAwaitText ->
  Text msg = "" ->
  broadcast.HandleMessageInput msg w
  = Some (true, delivered (textRefusal (ChatID msg)) w).
Proof.
  intros Hstate Htext. unfold broadcast.HandleMessageInput. mrun.
  rewrite Hstate. cbv beta iota.
  change (broadcast.StateBroadcastAwaitText =? broadcast.StateBroadcastAwaitText) with true.
  cbv beta iota. rewrite Htext. reflexivity.
Qed.

Lemma awaitMedia_accepts (msg : Message) (fileID kind : string) (w : World) :
  adminStates w !! ChatID msg = Some broadcast.StateBroadcastAwaitMedia ->
  mediaOf msg = Some (fileID, kind) ->
  broadcast.HandleMessageInput msg w
  = Some (true,
          delivered (buttonsPrompt (ChatID msg))
            (delivered (NewDeleteMessage (ChatID msg) (MessageID msg))
               (setAdminStates <[ChatID msg := broadcast.StateBroadcastAwaitButtons]>
                  (setBroadcasts
                     <[ChatID msg := broadcast.withMedia
                                       (broadcast.draftOf w (ChatID msg)) fileID kind]>
                     w)))).
Proof.
  intros Hstate Hmedia. unfold broadcast.HandleMessageInput. mrun.
  rewrite Hstate. cbv beta iota.
  change (broadcast.StateBroadcastAwaitMedia =? broadcast.StateBroadcastAwaitText) with false.
  change (broadcast.StateBroadcastAwaitMedia =? broadcast.StateBroadcastAwaitMedia) with true.
  cbv beta iota. unfold mediaOf in Hmedia.
  destruct (last (Photo msg)) as [photo |]; [| destruct (Video msg) as [video |]];
    inversion Hmedia; subst; reflexivity.
Qed.

Lemma awaitMedia_refuses (msg : Message) (w : World) :
  adminStates w !! ChatID msg = Some broadcast.StateBroadcastAwaitMedia ->
  mediaOf msg = None ->
  broadcast.HandleMessageInput msg w
  = Some (true, delivered (mediaRefusal (ChatID msg)) w).
Proof.
  intros Hstate Hmedia. unfold broadcast.HandleMessageInput. mrun.
  rewrite Hstate. cbv beta iota.
  change (broadcast.StateBroadcastAwaitMedia =? broadcast.StateBroadcastAwaitText) with false.
  change (broadcast.StateBroadcastAwaitMedia =? broadcast.StateBroadcastAwaitMedia) with true.
  cbv beta iota. unfold mediaOf in Hmedia.
  destruct (last (Photo msg)) as [photo |]; [| destruct (Video msg) as [video |]];
    inversion Hmedia; subst; reflexivity.
Qed.

Lemma awaitButtons_menu (msg : Message) (w : World) :
  adminStates w !! ChatID msg = Some broadcast.StateBroadcastAwaitButtons ->
  broadcast.checkLines 0 (Strings.Split (Text msg) Strings.LF) = None ->
  let d := broadcast.withButtons (broadcast.draftOf w (ChatID msg))
             (broadcast.ParseButtons (Text msg)) in
  exists w' : World,
    broadcast.HandleMessageInput msg w = Some (true, w')
    /\ adminStates w' = <[ChatID msg := 0]> (adminStates w)
    /\ Broadcasts w' = <[ChatID msg := d]> (Broadcasts w)
    /\ sent w' = sent w ++ [NewDeleteMessage (ChatID msg) (MessageID msg)]
                 ++ menuCleanup (ChatID msg) w ++ [builderMenu (ChatID msg) d]
    /\ redis w' = redis w.
Proof.
  intros Hstate Hcheck d. unfold broadcast.HandleMessageInput.
  unfold world, gets. unfold mbind at 1, M_bind at 1. cbv beta iota.
  rewrite Hstate. cbv beta iota.
  change (broadcast.StateBroadcastAwaitButtons =? broadcast.StateBroadcastAwaitText) with false.
  change (broadcast.StateBroadcastAwaitButtons =? broadcast.StateBroadcastAwaitMedia) with false.
  change (broadcast.StateBroadcastAwaitButtons =? broadcast.StateBroadcastAwaitButtons) with true.
  cbv beta iota.
  rewrite Hcheck. unfold modify, Request, Send.
  unfold mbind at 1 2 3, M_bind at 1 2 3. cbv beta iota.
  unfold mbind at 1, M_bind at 1.
  match goal with |- context [broadcast.sendBroadcastBuilderMenu ?c ?w0] =>
    destruct (sendBroadcastBuilderMenu_runs c w0) as (w' & Hmenu & Hsent & _ & Hs & Hb & Hr) end.
  rewrite Hmenu. exists w'. split; [reflexivity |]. rewrite Hs, Hb, Hsent, Hr.
  split; [reflexivity |]. split; [reflexivity |]. split; [| reflexivity].
  cbn [sent delivered setAdminStates setBroadcasts]. rewrite <- !app_assoc.
  f_equal. f_equal. f_equal. f_equal. unfold broadcast.draftOf.
  cbn [Broadcasts delivered setAdminStates setBroadcasts].
  rewrite lookup_insert_eq. reflexivity.
Qed.

(** X10: starting the builder in a chat and then sending there a text that is
    not empty, a message with a photo or a video, and a button specification
    all of whose lines are accepted, ends with the draft made of that text,
    of the file and kind of that media, and of the buttons parsed from the
    specification. The state of the chat is then 0, the last message sent is
    the builder menu of that draft, and the store is untouched. *)
Theorem builder_flow_builds_the_draft (text media buttons : Message)
    (fileID kind : string) (w : World) :
  let chat := ChatID text in
  ChatID media = chat -> ChatID buttons = chat ->
  Text text <> "" ->
  mediaOf media = Some (fileID, kind) ->
  Forall lineAccepted (Strings.Split (Text buttons) Strings.LF) ->
  let d := {| Draft.Text := Text text; Draft.MediaID := fileID;
              Draft.Type' := kind;
              Draft.Buttons := broadcast.ParseButtons (Text buttons) |} in
  exists w' : World,
    (_ ← broadcast.StartBroadcastBuilder chat;
     _ ← broadcast.HandleMessageInput text;
     _ ← broadcast.HandleMessageInput media;
     broadcast.HandleMessageInput buttons) w = Some (true, w')
    /\ Broadcasts w' = <[chat := d]> (Broadcasts w)
    /\ adminStates w' = <[chat := 0]> (adminStates w)
    /\ last (sent w') = Some (builderMenu chat d)
    /\ redis w' = redis w.
Proof.
  intros chat Hmedia Hbuttons Htext Hfile Hlines d.
  apply checkLines_accepts with (i := 0%nat) in Hlines.
  unfold broadcast.StartBroadcastBuilder. mrun.
  set (w1 := delivered _ (setAdminStates _ (setBroadcasts _ w))).
  assert (H1 : adminStates w1 !! ChatID text = Some broadcast.StateBroadcastAwaitText).
  { unfold w1. cbn [adminStates delivered setAdminStates setBroadcasts].
    apply lookup_insert_eq. }
  rewrite (awaitText_accepts text w1 H1 Htext). cbv beta iota.
  set (w2 := delivered _ (delivered _ (setAdminStates _ (setBroadcasts _ w1)))).
  assert (H2 : adminStates w2 !! ChatID media = Some broadcast.StateBroadcastAwaitMedia).
  { unfold w2. cbn [adminStates delivered setAdminStates setBroadcasts].
    rewrite Hmedia. apply lookup_insert_eq. }
  rewrite (awaitMedia_accepts media fileID kind w2 H2 Hfile). cbv beta iota.
  set (w3 := delivered _ (delivered _ (setAdminStates _ (setBroadcasts _ w2)))).
  assert (H3 : adminStates w3 !! ChatID buttons = Some broadcast.StateBroadcastAwaitButtons).
  { unfold w3. cbn [adminStates delivered setAdminStates setBroadcasts].
    rewrite Hbuttons, Hmedia. apply lookup_insert_eq. }
  destruct (awaitButtons_menu buttons w3 H3 Hlines)
    as (w' & Hrun & Hstates & Hdrafts & Hsent & Hredis).
  rewrite Hrun. exists w'. split; [reflexivity |].
  assert (Hd1 : broadcast.draftOf w1 chat = Draft.zero).
  { unfold broadcast.draftOf, w1. cbn [Broadcasts delivered setAdminStates setBroadcasts].
    rewrite lookup_insert_eq. reflexivity. }
  assert (Hd2 : broadcast.draftOf w2 chat = broadcast.withText Draft.zero (Text text)).
  { unfold broadcast.draftOf at 1. unfold w2.
    cbn [Broadcasts delivered setAdminStates setBroadcasts].
    fold chat. rewrite lookup_insert_eq, Hd1. reflexivity. }
  assert (Hd3 : broadcast.draftOf w3 chat
                = broadcast.withMedia (broadcast.withText Draft.zero (Text text))
                    fileID kind).
  { unfold broadcast.draftOf at 1. unfold w3.
    cbn [Broadcasts delivered setAdminStates setBroadcasts].
    rewrite Hmedia. rewrite lookup_insert_eq, Hd2. reflexivity. }
  rewrite Hbuttons, Hd3 in Hdrafts, Hsent. rewrite Hbuttons in Hstates.
  change (broadcast.withButtons _ _) with d in Hdrafts, Hsent.
  split; [| split; [| split]].
  - rewrite Hdrafts. unfold w3, w2, w1.
    cbn [Broadcasts delivered setAdminStates setBroadcasts].
    rewrite Hmedia. fold chat. rewrite !insert_insert_eq. reflexivity.
  - rewrite Hstates. unfold w3, w2, w1.
    cbn [adminStates delivered setAdminStates setBroadcasts].
    rewrite Hmedia. fold chat. rewrite !insert_insert_eq. reflexivity.
  - rewrite Hsent. rewrite !app_assoc. apply last_snoc.
  - rewrite Hredis. reflexivity.
Qed.

Lemma builder_flow_builds_the_draft_witness :
  exists w' : World,
    (_ ← broadcast.StartBroadcastBuilder 7;
     _ ← broadcast.HandleMessageInput (Sample.textFrom 7 "Sale");
     _ ← broadcast.HandleMessageInput (photoFrom 7);
     broadcast.HandleMessageInput (Sample.textFrom 7 "Shop | https://x.test"))
      Sample.idle = Some (true, w')
    /\ Broadcasts w' !! 7
       = Some {| Draft.Text := "Sale"; Draft.MediaID := "large";
                 Draft.Type' := "photo";
                 Draft.Buttons := [[ButtonURL "Shop" "https://x.test"]] |}
    /\ adminStates w' !! 7 = Some 0.
Proof.
  destruct (builder_flow_builds_the_draft (Sample.textFrom 7 "Sale") (photoFrom 7)
              (Sample.textFrom 7 "Shop | https://x.test") "large" "photo" Sample.idle
              eq_refl eq_refl ltac:(discriminate) eq_refl
              (proj1 (checkLines_accepts 0
                        (Strings.Split "Shop | https://x.test" Strings.LF)) eq_refl))
    as (w' & Hrun & Hdrafts & Hstates & _).
  exists w'. split; [exact Hrun |]. split.
  - rewrite Hdrafts. apply lookup_insert_eq.
  - rewrite Hstates. apply lookup_insert_eq.
Defined.

(** X11: an empty text in the state [StateBroadcastAwaitText], and a message
    with neither photo nor video in the state [StateBroadcastAwaitMedia], are
    answered by one refusal, with the cancel button for the first and the
    skip button for the second; the states, the drafts and the store are as
    before. *)
Theorem invalid_builder_input_is_refused_in_place (msg : Message) (w : World) :
  let chat := ChatID msg in
  (adminStates w !! chat = Some broadcast.StateBroadcastAwaitText /\ Text msg = "")
  \/ (adminStates w !! chat = Some broadcast.StateBroadcastAwaitMedia
      /\ mediaOf msg = None) ->
  exists w' : World,
    broadcast.HandleMessageInput msg w = Some (true, w')
    /\ sent w' = sent w ++ [if decide (adminStates w !! chat
                                       = Some broadcast.StateBroadcastAwaitText)
                            then textRefusal chat else mediaRefusal chat]
    /\ adminStates w' = adminStates w /\ Broadcasts w' = Broadcasts w
    /\ redis w' = redis w.
Proof.
  intros chat [[Hstate Htext] | [Hstate Hmedia]].
  - rewrite (awaitText_refuses msg w Hstate Htext). eexists. split; [reflexivity |].
    rewrite decide_True by exact Hstate. repeat split.
  - rewrite (awaitMedia_refuses msg w Hstate Hmedia). eexists. split; [reflexivity |].
    rewrite decide_False by (rewrite Hstate; discriminate). repeat split.
Qed.

Lemma invalid_builder_input_is_refused_in_place_witness :
  let w := Sample.withState 7 broadcast.StateBroadcastAwaitText Sample.idle in
  exists w' : World,
    broadcast.HandleMessageInput (photoFrom 7) w = Some (true, w')
    /\ sent w' = [textRefusal 7] /\ adminStates w' = adminStates w.
Proof.
  intros w.
  destruct (invalid_builder_input_is_refused_in_place (photoFrom 7) w
              (or_introl (conj eq_refl eq_refl)))
    as (w' & Hrun & Hsent & Hstates & _).
  exists w'. split; [exact Hrun |]. split; [exact Hsent | exact Hstates].
Defined.

(** ** The fan-out of a broadcast *)

Lemma sendComplexMessage_sendable (chatID : Z) (d : Draft.Message) (w : World) :
  sendable d ->
  broadcast.sendComplexMessage chatID d w
  = Some (bool_decide (is_Some (apiResult w (length (sent w)))),
          delivered (complexMessage chatID d) w).
Proof.
  unfold sendable, mediaOK, broadcast.sendComplexMessage, complexMessage.
  intros [Hkind Hcontent].
  destruct (decide (Draft.MediaID d = "")) as [Hmedia | Hmedia].
  - rewrite Hmedia. cbn [String.eqb negb].
    destruct Hcontent as [Htext | H]; [| rewrite Hmedia in H; contradiction].
    rewrite eqb_empty, bool_decide_eq_false_2 by exact Htext. reflexivity.
  - rewrite eqb_empty, bool_decide_eq_false_2 by exact Hmedia. cbn [negb].
    destruct Hkind as [H | [-> | ->]]; [contradiction | reflexivity | reflexivity].
Qed.




Lemma GetAllUserIDs_answers (key : string) (w : World) :
  redisFail w (redisCalls w) = None ->
  cache.GetAllUserIDs key w
  = Some ((elements (cache.members key (redis w)), None), redisAnswered (redis w) w).
Proof.
  intros Hok. unfold cache.GetAllUserIDs. mrun.
  rewrite command_answers by exact Hok. reflexivity.
Qed.

Lemma GetAllUserIDs_fails (key e : string) (w : World) :
  redisFail w (redisCalls w) = Some e ->
  cache.GetAllUserIDs key w = Some (([], Some e), redisAnswered (redis w) w).
Proof.
  intros Hfail. unfold cache.GetAllUserIDs. mrun.
  rewrite (command_fails _ _ e) by exact Hfail. reflexivity.
Qed.

Lemma nonempty_draft (d : Draft.Message) :
  Draft.Text d <> "" \/ Draft.MediaID d <> "" ->
  String.eqb (Draft.Text d) "" && String.eqb (Draft.MediaID d) "" = false.
Proof.
  rewrite !eqb_empty. intros [H | H].
  - rewrite (bool_decide_eq_false_2 _ H). reflexivity.
  - rewrite (bool_decide_eq_false_2 _ H). apply andb_false_r.
Qed.

(** X13: the Send button for a draft with a text or a medium. When the store
    answers the read of the known users, exactly one fan-out is started, with
    that snapshot and that draft, and only the acknowledgement of the query
    and the deletion of the menu message are requested; when the read fails,
    no fan-out is started and the administrator is told so. In both cases the
    state of the chat becomes 0 and its draft and its menu record are
    deleted. *)
Theorem confirmed_send_starts_one_fan_out (q : CallbackQuery) (message : Message)
    (w : World) :
  Data q = "bbuild_send" -> QueryMessage q = Some message ->
  let chat := ChatID message in
  let d := broadcast.draftOf w chat in
  Draft.Text d <> "" \/ Draft.MediaID d <> "" ->
  exists w' : World,
    broadcast.HandleCallbackQuery q w = Some (true, w')
    /\ (redisFail w (redisCalls w) = None ->
        spawned w' = spawned w ++ [{| fanChat := chat;
                                      fanUsers := elements (knownUsers w);
                                      fanBroadcast := d |}]
        /\ sent w' = sent w ++ [NewCallback (QueryID q) "";
                                NewDeleteMessage chat (MessageID message)])
    /\ (redisFail w (redisCalls w) <> None ->
        spawned w' = spawned w
        /\ sent w' = sent w ++ [NewCallback (QueryID q) "";
                                NewMessage chat "广播失败：无法获取用户列表。";
                                NewDeleteMessage chat (MessageID message)])
    /\ adminStates w' = <[chat := 0]> (adminStates w)
    /\ Broadcasts w' = delete chat (Broadcasts w)
    /\ BroadcastPromptMessageIDs w' = delete chat (BroadcastPromptMessageIDs w).
Proof.
  intros Hdata Hmessage chat d Hd.
  unfold broadcast.HandleCallbackQuery. rewrite Hdata, Hmessage. msimpl.
  unfold broadcast.executeBroadcast. msimpl. fold chat.
  change (broadcast.draftOf (delivered (NewCallback (QueryID q) "") w) chat) with d.
  rewrite (nonempty_draft d Hd).
  destruct (redisFail w (redisCalls w)) as [e |] eqn:Hfail.
  - rewrite (GetAllUserIDs_fails _ e) by exact Hfail. cbv beta iota.
    eexists. split; [reflexivity |].
    cbn [spawned sent adminStates Broadcasts BroadcastPromptMessageIDs delivered
         setPromptIDs setBroadcasts setAdminStates redisAnswered].
    split; [discriminate |]. split; [| repeat split].
    intros _. rewrite <- !app_assoc. split; reflexivity.
  - rewrite GetAllUserIDs_answers by exact Hfail. cbv beta iota.
    eexists. split; [reflexivity |].
    cbn [spawned sent adminStates Broadcasts BroadcastPromptMessageIDs delivered
         setPromptIDs setBroadcasts setAdminStates redisAnswered started].
    split; [| split; [| repeat split]].
    + intros _. rewrite <- !app_assoc. split; reflexivity.
    + intros H. contradiction.
Qed.

Lemma confirmed_send_starts_one_fan_out_witness :
  let w := Sample.withDraft 7 (textDraft "Sale") Sample.idle in
  exists w' : World,
    broadcast.HandleCallbackQuery (Sample.press 7 "bbuild_send") w = Some (true, w')
    /\ spawned w' = [{| fanChat := 7; fanUsers := elements (knownUsers w);
                        fanBroadcast := textDraft "Sale" |}]
    /\ Broadcasts w' !! 7 = None.
Proof.
  intros w.
  assert (Hd : Draft.Text (broadcast.draftOf w 7) <> ""
               \/ Draft.MediaID (broadcast.draftOf w 7) <> "").
  { left. discriminate. }
  destruct (confirmed_send_starts_one_fan_out (Sample.press 7 "bbuild_send")
              (Sample.textFrom 7 "") w eq_refl eq_refl Hd)
    as (w' & Hrun & Hok & _ & _ & Hdrafts & _).
  exists w'. split; [exact Hrun |]. split.
  - exact (proj1 (Hok eq_refl)).
  - rewrite Hdrafts. apply lookup_delete_eq.
Defined.

(** ** What every handler keeps *)

Lemma ParseInt_int64 (s : string) : int64 (fst (Strconv.ParseInt s)).
Proof.
  unfold int64, Strconv.ParseInt. destruct s as [| c r]; [cbn; lia |].
  destruct (if Ascii.eqb c "+" || Ascii.eqb c "-" then r else String c r);
    [cbn; lia |].
  destruct (Strconv.digits 0 _) as [un |]; [| cbn; lia].
  destruct (negb (Ascii.eqb c "-") && (2 ^ 63 <=? Z.of_N un)) eqn:H1; [cbn; lia |].
  destruct (Ascii.eqb c "-" && (2 ^ 63 <? Z.of_N un)) eqn:H2; [cbn; lia |].
  cbn [fst]. destruct (Ascii.eqb c "-"); cbn [negb andb] in *.
  - apply Z.ltb_ge in H2. lia.
  - apply Z.leb_gt in H1. lia.
Qed.

Section Keeps.
Variable Good : World -> Prop.

Lemma keeps_ret {A : Type} (a : A) : keeps Good (mret a).
Proof. intros w Hw. exists a, w. split; [reflexivity | exact Hw]. Qed.

Lemma keeps_bind {A B : Type} (c : M A) (k : A -> M B) :
  keeps Good c -> (forall a, keeps Good (k a)) -> keeps Good (c ≫= k).
Proof.
  intros Hc Hk w Hw. destruct (Hc w Hw) as (a & w1 & Hrun & Hw1).
  destruct (Hk a w1 Hw1) as (b & w2 & Hrun2 & Hw2).
  exists b, w2. split; [| exact Hw2].
  unfold mbind, M_bind. rewrite Hrun. exact Hrun2.
Qed.

Lemma keeps_world {B : Type} (k : World -> M B) :
  (forall w0, Good w0 -> keeps Good (k w0)) -> keeps Good (world ≫= k).
Proof. intros Hk w Hw. exact (Hk w Hw w Hw). Qed.

Lemma keeps_gets {A B : Type} (f : World -> A) (k : A -> M B) :
  (forall a, keeps Good (k a)) -> keeps Good (gets f ≫= k).
Proof. intros Hk w Hw. exact (Hk (f w) w Hw). Qed.

Lemma keeps_deref {A : Type} (a : A) : keeps Good (deref (Some a)).
Proof. apply keeps_ret. Qed.

Lemma keeps_deref_bind {A B : Type} (a : A) (k : A -> M B) :
  keeps Good (k a) -> keeps Good (deref (Some a) ≫= k).
Proof. intros Hk w Hw. exact (Hk w Hw). Qed.

Hypothesis Good_delivered : forall c w, Good w -> Good (delivered c w).
Hypothesis Good_read : forall w, Good w -> Good (redisAnswered (redis w) w).

Lemma keeps_Send (c : Chattable) : keeps Good (Send c).
Proof. intros w Hw. eexists _, _. split; [reflexivity |]. apply Good_delivered, Hw. Qed.

Lemma keeps_Request (c : Chattable) : keeps Good (Request c).
Proof. apply keeps_Send. Qed.

(** A command that leaves the store as it is. *)
Lemma keeps_query {A : Type} (op : Redis -> A * Redis) :
  (forall r, snd (op r) = r) -> keeps Good (cache.command op).
Proof.
  intros Hop w Hw. unfold cache.command.
  destruct (redisFail w (redisCalls w)) as [e |].
  - eexists _, _. split; [reflexivity |]. apply Good_read, Hw.
  - specialize (Hop (redis w)). destruct (op (redis w)) as [a r]. cbn [snd] in Hop.
    subst r. eexists _, _. split; [reflexivity |]. apply Good_read, Hw.
Qed.

Ltac keep_step :=
  lazymatch goal with
  | |- keeps _ (mret _) => apply keeps_ret
  | |- keeps _ (mbind _ world) => apply keeps_world; intros ? ?
  | |- keeps _ (mbind _ (gets _)) => apply keeps_gets; intros ?
  | |- keeps _ (mbind _ _) => apply keeps_bind; [| intros ?]
  | |- keeps _ (Send _) => apply keeps_Send
  | |- keeps _ (Request _) => apply keeps_Request
  | |- keeps _ (deref (Some _)) => apply keeps_deref
  | |- keeps _ (cache.command _) => apply keeps_query; reflexivity
  | |- keeps _ (match ?x with _ => _ end) => destruct x eqn:?
  | |- keeps _ (if ?b then _ else _) => destruct b eqn:?
  end.

Ltac keep := cbv zeta; repeat (keep_step; cbv zeta).

Lemma keeps_GetUserInfo (userID : Z) : keeps Good (cache.GetUserInfo userID).
Proof. unfold cache.GetUserInfo. keep. Qed.

Lemma keeps_GetConfigValue (key : string) : keeps Good (cache.GetConfigValue key).
Proof. unfold cache.GetConfigValue. keep. Qed.

Lemma keeps_GetAllUserIDs (key : string) : keeps Good (cache.GetAllUserIDs key).
Proof. unfold cache.GetAllUserIDs. keep. Qed.

Lemma keeps_GetBlockedUserIDs : keeps Good cache.GetBlockedUserIDs.
Proof. unfold cache.GetBlockedUserIDs. keep. Qed.

Lemma keeps_IsUserBlocked (userID : Z) : keeps Good (cache.IsUserBlocked userID).
Proof. unfold cache.IsUserBlocked. keep. Qed.

Lemma keeps_listEntries (start : Z) (ids : list string) :
  forall (i : nat) (sb : string), keeps Good (main.listEntries start i ids sb).
Proof.
  induction ids as [| idStr rest IH]; intros i sb; cbn [main.listEntries].
  - apply keeps_ret.
  - destruct (Strconv.ParseInt idStr) as [userID ok].
    apply keeps_bind; [apply keeps_GetUserInfo |].
    intros [[[firstName lastName] username] err]. apply IH.
Qed.

Lemma keeps_unblockRows (ids : list string) :
  forall keyboard, keeps Good (main.unblockRows ids keyboard).
Proof.
  induction ids as [| idStr rest IH]; intros keyboard; cbn [main.unblockRows].
  - apply keeps_ret.
  - destruct (Strconv.ParseInt idStr) as [userID ok].
    apply keeps_bind; [apply keeps_GetUserInfo |].
    intros [[[firstName lastName] username] err]. apply IH.
Qed.

Lemma keeps_slice_page (ids : list string) (page : Z) :
  ids <> [] ->
  let totalPages := Z.quot (main.len ids + main.UsersPerPage - 1) main.UsersPerPage in
  let page := if (page <? 1) || (page >? totalPages) then 1 else page in
  let start := (page - 1) * main.UsersPerPage in
  let end' := start + main.UsersPerPage in
  let end' := if end' >? main.len ids then main.len ids else end' in
  keeps Good (main.slice ids start end').
Proof.
  intros Hne. cbv zeta. fold (pageCount (main.len ids)). rewrite clamp_shownPage.
  assert (Hlen : 0 < main.len ids).
  { destruct ids; [congruence |]. unfold main.len. cbn [length]. lia. }
  pose proof (pageCount_ceiling (main.len ids) ltac:(lia)) as Hceil.
  assert (Hp : 1 <= shownPage page (pageCount (main.len ids))
               <= pageCount (main.len ids)) by (apply shownPage_range; lia).
  intros w Hw. destruct (slice_page ids _ Hp w) as [Hslice _].
  eexists _, _. split; [exact Hslice | exact Hw].
Qed.

Lemma keeps_handleListBlocked (chatID page : Z) :
  keeps Good (main.handleListBlocked chatID page).
Proof.
  unfold main.handleListBlocked.
  apply keeps_bind; [apply keeps_GetBlockedUserIDs |].
  intros [blockedIDs [e |]]; [keep |].
  destruct (main.len blockedIDs =? 0) eqn:Hlen; [keep |].
  assert (Hne : blockedIDs <> []).
  { intros ->. discriminate. }
  apply keeps_bind; [apply (keeps_slice_page blockedIDs page Hne) |].
  intros currentIDs. apply keeps_bind; [apply keeps_listEntries |].
  intros sb. apply keeps_bind; [apply keeps_unblockRows |].
  intros keyboard. keep.
Qed.

Lemma keeps_handleUserStats (chatID : Z) : keeps Good (main.handleUserStats chatID).
Proof.
  unfold main.handleUserStats.
  apply keeps_bind; [apply keeps_GetAllUserIDs |].
  intros [userIDs [e |]]; [keep |].
  apply keeps_bind; [apply keeps_GetBlockedUserIDs |].
  intros [blockedUsers err]. keep.
Qed.

Lemma keeps_setCommandsForUser (b : main.BotInstance) (chatID : Z) :
  keeps Good (main.setCommandsForUser b chatID).
Proof. unfold main.setCommandsForUser. keep. Qed.

Lemma keeps_HandleStartCommand (chatID : Z) :
  keeps Good (welcome.HandleStartCommand chatID).
Proof.
  unfold welcome.HandleStartCommand.
  apply keeps_bind; [apply keeps_GetConfigValue |].
  intros [welcomeMsgText err].
  apply keeps_bind; [apply keeps_GetConfigValue |].
  intros [buttonsStr err']. keep.
Qed.

(** *** The handlers that write *)

Hypothesis Good_logged : forall e w, Good w -> Good (logged e w).
Hypothesis Good_started : forall t w, Good w -> Good (started t w).
Hypothesis Good_prompts : forall f w, Good w -> Good (setPromptIDs f w).
Hypothesis Good_HSet : forall key field value w,
  Good w -> Good (redisAnswered (snd (cache.HSet key field value (redis w))) w).
Hypothesis Good_Set : forall key value w,
  Good w -> Good (redisAnswered (snd (cache.Set' key value (redis w))) w).
Hypothesis Good_SAdd : forall key id w,
  int64 id -> Good w ->
  Good (redisAnswered (snd (cache.SAdd key (Strconv.FormatInt id) (redis w))) w).
Hypothesis Good_SRem : forall key member w,
  Good w -> Good (redisAnswered (snd (cache.SRem key member (redis w))) w).
Hypothesis Good_state : forall chat s w,
  knownState s -> Good w -> Good (setAdminStates <[chat := s]> w).
Hypothesis Good_draft : forall w0 chat d w,
  Good w0 -> Good w -> (mediaOK (broadcast.draftOf w0 chat) -> mediaOK d) ->
  Good (setBroadcasts <[chat := d]> w).
Hypothesis Good_forget : forall chat w, Good w -> Good (setBroadcasts (delete chat) w).

Lemma keeps_update {A : Type} (op : Redis -> A * Redis) :
  (forall w, Good w -> Good (redisAnswered (snd (op (redis w))) w)) ->
  keeps Good (cache.command op).
Proof.
  intros Hop w Hw. unfold cache.command.
  destruct (redisFail w (redisCalls w)) as [e |].
  - eexists _, _. split; [reflexivity |]. apply Good_read, Hw.
  - specialize (Hop w Hw). destruct (op (redis w)) as [a r]. cbn [snd] in Hop.
    eexists _, _. split; [reflexivity | exact Hop].
Qed.

Lemma keeps_modify (f : World -> World) :
  (forall w, Good w -> Good (f w)) -> keeps Good (modify f).
Proof. intros Hf w Hw. eexists _, _. split; [reflexivity |]. apply Hf, Hw. Qed.

Lemma keeps_setState (chat s : Z) :
  knownState s -> keeps Good (modify (setAdminStates <[chat := s]>)).
Proof. intros Hs. apply keeps_modify. intros w. apply Good_state, Hs. Qed.

Lemma keeps_setDraft (w0 : World) (chat : Z) (d : Draft.Message) :
  Good w0 -> (mediaOK (broadcast.draftOf w0 chat) -> mediaOK d) ->
  keeps Good (modify (setBroadcasts <[chat := d]>)).
Proof. intros H0 Hd. apply keeps_modify. intros w Hw. exact (Good_draft w0 chat d w H0 Hw Hd). Qed.

Lemma keeps_newDraft (chat : Z) (d : Draft.Message) :
  mediaOK d -> keeps Good (modify (setBroadcasts <[chat := d]>)).
Proof. intros Hd. apply keeps_modify. intros w Hw. exact (Good_draft w chat d w Hw Hw (fun _ => Hd)). Qed.

Lemma keeps_logEvent (e : LogEvent) : keeps Good (logEvent e).
Proof. apply keeps_modify. intros w. apply Good_logged. Qed.

Lemma keeps_go (t : FanOut) : keeps Good (go t).
Proof. apply keeps_modify. intros w. apply Good_started. Qed.

Ltac known_state := unfold knownState; repeat (first [left; reflexivity | right]); reflexivity.

Ltac media_ok :=
  let H := fresh in
  intros H; unfold mediaOK in *;
  cbn [broadcast.withText broadcast.withMedia broadcast.withButtons
       Draft.MediaID Draft.Type' Draft.Text Draft.Buttons] in *;
  first [exact H | left; reflexivity | right; left; reflexivity
        | right; right; reflexivity].

Ltac write_step :=
  lazymatch goal with
  | |- keeps _ (modify (setAdminStates <[_ := _]>)) => apply keeps_setState; known_state
  | |- keeps _ (modify (setBroadcasts (delete _))) =>
      apply keeps_modify; intros ?; apply Good_forget
  | |- keeps _ (modify (setPromptIDs _)) =>
      apply keeps_modify; intros ?; apply Good_prompts
  | |- keeps _ (modify (setBroadcasts <[_ := _]>)) =>
      eapply keeps_setDraft; [eassumption | media_ok]
  | |- keeps _ (logEvent _) => apply keeps_logEvent
  | |- keeps _ (go _) => apply keeps_go
  | |- _ => keep_step
  end.

Ltac keep' := cbv zeta; repeat (write_step; cbv zeta).

Lemma keeps_CheckAndAddUser (key : string) (userID : Z) :
  int64 userID -> keeps Good (cache.CheckAndAddUser key userID).
Proof.
  intros Hid. unfold cache.CheckAndAddUser.
  apply keeps_bind; [| intros ?; apply keeps_ret].
  apply keeps_update. intros w. apply Good_SAdd, Hid.
Qed.

Lemma keeps_SetConfigValue (key value : string) :
  keeps Good (cache.SetConfigValue key value).
Proof.
  unfold cache.SetConfigValue.
  apply keeps_bind; [| intros ?; apply keeps_ret].
  apply keeps_update. intros w. apply Good_Set.
Qed.

Lemma keeps_AddBlockedUser (userID : Z) :
  int64 userID -> keeps Good (cache.AddBlockedUser userID).
Proof.
  intros Hid. unfold cache.AddBlockedUser.
  apply keeps_bind; [| intros ?; apply keeps_ret].
  apply keeps_update. intros w. apply Good_SAdd, Hid.
Qed.

Lemma keeps_RemoveBlockedUser (userID : Z) :
  keeps Good (cache.RemoveBlockedUser userID).
Proof.
  unfold cache.RemoveBlockedUser.
  apply keeps_bind; [| intros ?; apply keeps_ret].
  apply keeps_update. intros w. apply Good_SRem.
Qed.

Lemma keeps_StoreUserInfo (user : option User) : keeps Good (cache.StoreUserInfo user).
Proof.
  unfold cache.StoreUserInfo. destruct user as [user |]; [| apply keeps_ret].
  cbv zeta.
  apply keeps_bind; [apply keeps_update; intros w; apply Good_HSet |].
  intros [? | ?]; [| apply keeps_ret].
  apply keeps_bind; [apply keeps_update; intros w; apply Good_HSet |].
  intros [? | ?]; [| apply keeps_ret].
  apply keeps_bind; [apply keeps_update; intros w; apply Good_HSet |].
  intros [? | ?]; apply keeps_ret.
Qed.

(** Package [welcome]. *)

Lemma keeps_StartSetWelcomeProcess (chatID : Z) :
  keeps Good (welcome.StartSetWelcomeProcess chatID).
Proof.
  unfold welcome.StartSetWelcomeProcess.
  apply keeps_bind; [apply keeps_GetConfigValue |]. intros [currentMsg err]. keep'.
Qed.

Lemma keeps_StartSetButtonsProcess (chatID : Z) :
  keeps Good (welcome.StartSetButtonsProcess chatID).
Proof.
  unfold welcome.StartSetButtonsProcess.
  apply keeps_bind; [apply keeps_GetConfigValue |]. intros [currentButtons err]. keep'.
Qed.

Lemma keeps_handleWelcomeMessageInput (msg : Message) :
  keeps Good (welcome.handleWelcomeMessageInput msg).
Proof.
  unfold welcome.handleWelcomeMessageInput. cbv zeta.
  apply keeps_bind; [apply keeps_SetConfigValue |]. intros [e |]; [keep' |].
  apply keeps_bind; [keep' |]. intros ?.
  apply keeps_bind; [keep' |]. intros ?. apply keeps_HandleStartCommand.
Qed.

Lemma keeps_handleWelcomeButtonsInput (msg : Message) :
  keeps Good (welcome.handleWelcomeButtonsInput msg).
Proof.
  unfold welcome.handleWelcomeButtonsInput. cbv zeta.
  apply keeps_bind; [apply keeps_SetConfigValue |]. intros [e |]; [keep' |].
  apply keeps_bind; [keep' |]. intros ?.
  apply keeps_bind; [keep' |]. intros ?. apply keeps_HandleStartCommand.
Qed.

Lemma keeps_HandleAdminMessageInput (msg : Message) (from : User) :
  From msg = Some from -> keeps Good (welcome.HandleAdminMessageInput msg).
Proof.
  intros Hfrom. unfold welcome.HandleAdminMessageInput. rewrite Hfrom.
  apply keeps_bind; [apply keeps_deref |]. intros ?.
  apply keeps_gets. intros states.
  destruct (states !! ID a) as [state |]; [| apply keeps_ret].
  destruct (state =? welcome.StateAwaitingWelcomeMessage).
  { apply keeps_bind; [apply keeps_handleWelcomeMessageInput | intros ?; apply keeps_ret]. }
  destruct (state =? welcome.StateAwaitingWelcomeButtons).
  { apply keeps_bind; [apply keeps_handleWelcomeButtonsInput | intros ?; apply keeps_ret]. }
  apply keeps_ret.
Qed.

(** Package [broadcast]. *)

Lemma keeps_StartBroadcastBuilder (chatID : Z) :
  keeps Good (broadcast.StartBroadcastBuilder chatID).
Proof.
  unfold broadcast.StartBroadcastBuilder.
  apply keeps_bind; [apply keeps_newDraft; left; reflexivity |]. intros ?. keep'.
Qed.

Lemma keeps_sendBroadcastBuilderMenu (chatID : Z) :
  keeps Good (broadcast.sendBroadcastBuilderMenu chatID).
Proof. unfold broadcast.sendBroadcastBuilderMenu. keep'. Qed.

Lemma keeps_sendComplexMessage (chatID : Z) (d : Draft.Message) :
  keeps Good (broadcast.sendComplexMessage chatID d).
Proof. unfold broadcast.sendComplexMessage. keep'. Qed.

Lemma keeps_sendBroadcastPreview (chatID : Z) :
  keeps Good (broadcast.sendBroadcastPreview chatID).
Proof.
  unfold broadcast.sendBroadcastPreview. apply keeps_world. intros w0 H0. cbv zeta.
  destruct (_ && _); [keep' |].
  apply keeps_bind; [keep' |]. intros ?.
  apply keeps_bind; [apply keeps_sendComplexMessage |]. intros ?. apply keeps_ret.
Qed.

Lemma keeps_executeBroadcast (chatID : Z) :
  keeps Good (broadcast.executeBroadcast chatID).
Proof.
  unfold broadcast.executeBroadcast. apply keeps_world. intros w0 H0. cbv zeta.
  destruct (_ && _); [keep' |].
  apply keeps_bind; [apply keeps_GetAllUserIDs |]. intros [allUserIDsStr [e |]]; keep'.
Qed.

Lemma keeps_HandleMessageInput (msg : Message) :
  keeps Good (broadcast.HandleMessageInput msg).
Proof.
  unfold broadcast.HandleMessageInput. cbv zeta. apply keeps_world. intros w0 H0.
  destruct (adminStates w0 !! ChatID msg) as [state |]; [| apply keeps_ret].
  destruct (state =? broadcast.StateBroadcastAwaitText).
  { keep'. }
  destruct (state =? broadcast.StateBroadcastAwaitMedia).
  { destruct (last (Photo msg)) as [photo |]; [| destruct (Video msg) as [video |]];
      keep'. }
  destruct (state =? broadcast.StateBroadcastAwaitButtons); [| apply keeps_ret].
  destruct (broadcast.checkLines 0 _) as [e |]; [keep' |].
  apply keeps_bind; [keep' |]. intros ?.
  apply keeps_bind; [keep' |]. intros ?.
  apply keeps_bind; [keep' |]. intros ?.
  apply keeps_bind; [apply keeps_sendBroadcastBuilderMenu |]. intros ?. apply keeps_ret.
Qed.

Lemma keeps_HandleCallbackQuery (q : CallbackQuery) (message : Message) :
  QueryMessage q = Some message -> keeps Good (broadcast.HandleCallbackQuery q).
Proof.
  intros Hmessage. unfold broadcast.HandleCallbackQuery. rewrite Hmessage.
  destruct (negb _); [apply keeps_ret |].
  apply keeps_bind; [apply keeps_deref |]. intros message'.
  apply keeps_bind; [apply keeps_Request |]. intros ?. cbv zeta.
  apply keeps_bind; [| intros ?; apply keeps_ret].
  destruct (String.eqb _ "bbuild_set_text"); [keep' |].
  destruct (String.eqb _ "bbuild_set_media"); [keep' |].
  destruct (String.eqb _ "bbuild_skip_media"); [keep' |].
  destruct (String.eqb _ "bbuild_set_buttons"); [keep' |].
  destruct (String.eqb _ "bbuild_skip_buttons").
  { apply keeps_world. intros w0 H0. cbv zeta.
    apply keeps_bind; [keep' |]. intros ?.
    apply keeps_bind; [keep' |]. intros ?.
    apply keeps_bind; [keep' |]. intros ?. apply keeps_sendBroadcastBuilderMenu. }
  destruct (String.eqb _ "bbuild_preview"); [apply keeps_sendBroadcastPreview |].
  destruct (String.eqb _ "bbuild_cancel"); [keep' |].
  destruct (String.eqb _ "bbuild_send"); [| apply keeps_ret].
  apply keeps_bind; [apply keeps_executeBroadcast |]. intros ?. keep'.
Qed.

(** Package [main]. *)

Lemma keeps_handleAdminStatefulMessage (msg : Message) (from : User) :
  From msg = Some from -> keeps Good (main.handleAdminStatefulMessage msg).
Proof.
  intros Hfrom. unfold main.handleAdminStatefulMessage.
  apply keeps_bind; [apply (keeps_HandleAdminMessageInput msg from Hfrom) |].
  intros [|]; [apply keeps_logEvent |].
  apply keeps_bind; [apply keeps_HandleMessageInput |].
  intros [|]; apply keeps_logEvent.
Qed.

Lemma keeps_handleAdminCommand (b : main.BotInstance) (msg : Message) (from : User) :
  From msg = Some from -> keeps Good (main.handleAdminCommand b msg).
Proof.
  intros Hfrom. unfold main.handleAdminCommand.
  pose proof (keeps_handleAdminStatefulMessage msg from Hfrom) as Hstateful.
  destruct (IsCommand msg); [| exact Hstateful].
  destruct (String.eqb _ "start").
  { apply keeps_bind; [apply keeps_setCommandsForUser |]. intros ?.
    apply keeps_HandleStartCommand. }
  destruct (String.eqb _ "setwelcome"); [apply keeps_StartSetWelcomeProcess |].
  destruct (String.eqb _ "setbuttons"); [apply keeps_StartSetButtonsProcess |].
  destruct (String.eqb _ "broadcast"); [apply keeps_StartBroadcastBuilder |].
  destruct (String.eqb _ "listblocked"); [apply keeps_handleListBlocked |].
  destruct (String.eqb _ "stats"); [apply keeps_handleUserStats |].
  exact Hstateful.
Qed.

Lemma keeps_replyToUser (b : main.BotInstance) (msg : Message)
    (replied : RepliedMessage) :
  keeps Good (main.replyToUser b msg replied).
Proof. unfold main.replyToUser. keep'. Qed.

Lemma keeps_handleAdminMessage (b : main.BotInstance) (msg : Message) (from : User) :
  From msg = Some from -> keeps Good (main.handleAdminMessage b msg).
Proof.
  intros Hfrom. unfold main.handleAdminMessage.
  destruct (ReplyToMessage msg) as [replied |];
    [destruct (_ =? _); [apply keeps_replyToUser |] |];
    apply (keeps_handleAdminCommand b msg from Hfrom).
Qed.

Lemma keeps_handleCallbackQuery (b : main.BotInstance) (q : CallbackQuery)
    (message : Message) :
  QueryMessage q = Some message -> keeps Good (main.handleCallbackQuery b q).
Proof.
  intros Hmessage. unfold main.handleCallbackQuery. rewrite Hmessage.
  destruct (Strings.HasPrefix _ "unblock_").
  { destruct (Strings.Split _ _) as [| ? [| part1 [| ? ?]]]; try apply keeps_ret.
    destruct (Strconv.ParseInt part1) as [userID ok].
    destruct (negb ok); [apply keeps_ret |].
    apply keeps_bind; [apply keeps_RemoveBlockedUser |]. intros [e |]; [apply keeps_ret |].
    apply keeps_bind; [apply keeps_Request |]. intros ?. cbv zeta.
    apply keeps_bind; [apply keeps_deref |]. intros ?. apply keeps_handleListBlocked. }
  destruct (_ || _).
  { destruct (Strings.Split _ _) as [| ? [| ? [| part2 [| ? ?]]]]; try apply keeps_ret.
    destruct (Strconv.Atoi part2) as [newPage ok].
    destruct (negb ok); [apply keeps_ret |].
    apply keeps_bind; [apply keeps_deref |]. intros ?.
    apply keeps_bind; [apply keeps_handleListBlocked |]. intros ?. keep'. }
  destruct (Strings.HasPrefix _ "block_").
  { destruct (Strings.Split _ _) as [| ? [| part1 [| ? ?]]]; try apply keeps_ret.
    pose proof (ParseInt_int64 part1) as Hid.
    destruct (Strconv.ParseInt part1) as [userID ok]. cbn [fst] in Hid.
    destruct (negb ok); [apply keeps_ret |].
    apply keeps_bind; [apply keeps_AddBlockedUser, Hid |]. intros [e |]; keep'. }
  apply keeps_bind; [apply (keeps_HandleCallbackQuery q message Hmessage) |].
  intros [|]; keep'.
Qed.

Lemma keeps_handleUserMessage (b : main.BotInstance) (msg : Message) (from : User) :
  From msg = Some from -> keeps Good (main.handleUserMessage b msg).
Proof.
  intros Hfrom. unfold main.handleUserMessage. rewrite Hfrom.
  apply keeps_bind; [apply keeps_deref |]. intros from'.
  apply keeps_bind; [apply keeps_IsUserBlocked |]. intros [isBlocked [e |]];
    [apply keeps_ret |].
  destruct isBlocked; [keep' |].
  destruct (_ && _).
  { apply keeps_bind; [apply keeps_setCommandsForUser |]. intros ?.
    apply keeps_HandleStartCommand. }
  destruct (negb _); [| keep'].
  cbv zeta. apply keeps_bind; [apply keeps_IsUserBlocked |]. intros [isBlocked' err].
  apply keeps_bind; [| intros ?; keep'].
  destruct (negb _); [apply keeps_ret |].
  destruct (last (Photo msg)); [apply keeps_ret |].
  destruct (Sticker msg); [keep' |].
  destruct (Video msg); [apply keeps_ret |].
  destruct (Document msg); apply keeps_ret.
Qed.

Lemma keeps_handleMessage (b : main.BotInstance) (msg : Message) (from : User) :
  From msg = Some from -> keeps Good (main.handleMessage b msg).
Proof.
  intros Hfrom. unfold main.handleMessage. rewrite Hfrom.
  apply keeps_bind; [apply keeps_deref |]. intros from'.
  destruct (main.isAdmin b (ID from')).
  - apply (keeps_handleAdminMessage b msg from Hfrom).
  - apply (keeps_handleUserMessage b msg from Hfrom).
Qed.

Lemma keeps_handleUpdate (b : main.BotInstance) (update : Update) :
  wellFormed update -> keeps Good (main.handleUpdate b update).
Proof.
  unfold wellFormed, main.handleUpdate.
  destruct (UpdateMessage update) as [msg |].
  - intros (from & Hfrom & Hid). rewrite Hfrom.
    apply keeps_bind.
    { apply keeps_bind; [apply keeps_StoreUserInfo | intros ?; apply keeps_ret]. }
    intros ?. apply keeps_deref_bind.
    apply keeps_bind; [apply keeps_IsUserBlocked |]. intros [isBlocked err].
    apply keeps_bind.
    { destruct (negb isBlocked); [| apply keeps_ret].
      apply keeps_CheckAndAddUser, Hid. }
    intros ?. apply (keeps_handleMessage b msg from Hfrom).
  - destruct (UpdateCallbackQuery update) as [q |]; [| intros _; apply keeps_ret].
    intros (message & Hmessage). apply (keeps_handleCallbackQuery b q message Hmessage).
Qed.

Lemma keeps_Run (b : main.BotInstance) (updates : list Update) :
  Forall wellFormed updates -> keeps Good (main.Run b updates).
Proof.
  induction 1 as [| update rest Hupdate _ IH]; cbn [main.Run].
  - apply keeps_ret.
  - apply keeps_bind; [apply keeps_handleUpdate, Hupdate | intros ?; exact IH].
Qed.

End Keeps.

(** ** No panic, and the invariants of the state *)

Lemma mediaOK_draftOf (w : World) (chat : Z) : draftsOK w -> mediaOK (broadcast.draftOf w chat).
Proof.
  intros Hw. unfold broadcast.draftOf.
  destruct (Broadcasts w !! chat) as [d |] eqn:Hd; [exact (Hw chat d Hd) |].
  left. reflexivity.
Qed.

Lemma Inv_delivered (c : Chattable) (w : World) : Inv w -> Inv (delivered c w).
Proof. intros H. exact H. Qed.

Lemma Inv_read (w : World) : Inv w -> Inv (redisAnswered (redis w) w).
Proof. intros H. exact H. Qed.

Lemma Inv_logged (e : LogEvent) (w : World) : Inv w -> Inv (logged e w).
Proof. intros H. exact H. Qed.

Lemma Inv_started (t : FanOut) (w : World) : Inv w -> Inv (started t w).
Proof. intros H. exact H. Qed.

Lemma Inv_prompts (f : gmap Z Z -> gmap Z Z) (w : World) : Inv w -> Inv (setPromptIDs f w).
Proof. intros H. exact H. Qed.

Lemma Inv_HSet (key field value : string) (w : World) :
  Inv w -> Inv (redisAnswered (snd (cache.HSet key field value (redis w))) w).
Proof. intros H. exact H. Qed.

Lemma Inv_Set (key value : string) (w : World) :
  Inv w -> Inv (redisAnswered (snd (cache.Set' key value (redis w))) w).
Proof. intros H. exact H. Qed.

Lemma Inv_SAdd (key : string) (id : Z) (w : World) :
  int64 id -> Inv w ->
  Inv (redisAnswered (snd (cache.SAdd key (Strconv.FormatInt id) (redis w))) w).
Proof.
  intros Hid (Hs & Hd & Hsets). split; [exact Hs |]. split; [exact Hd |].
  intros member. cbn [redis redisAnswered]. rewrite !members_SAdd.
  intros [H | H].
  - destruct (decide (cache.UsersSetKey = key)) as [<- | _]; [| apply Hsets; left; exact H].
    apply elem_of_union in H as [H | H]; [| apply Hsets; left; exact H].
    apply elem_of_singleton in H as ->. exists id. split; [exact Hid | reflexivity].
  - destruct (decide (cache.BlockedUsersSet = key)) as [<- | _]; [| apply Hsets; right; exact H].
    apply elem_of_union in H as [H | H]; [| apply Hsets; right; exact H].
    apply elem_of_singleton in H as ->. exists id. split; [exact Hid | reflexivity].
Qed.

Lemma Inv_SRem (key member : string) (w : World) :
  Inv w -> Inv (redisAnswered (snd (cache.SRem key member (redis w))) w).
Proof.
  intros (Hs & Hd & Hsets). split; [exact Hs |]. split; [exact Hd |].
  intros m. cbn [redis redisAnswered]. rewrite !members_SRem.
  intros [H | H].
  - destruct (decide (cache.UsersSetKey = key)) as [<- | _]; [| apply Hsets; left; exact H].
    apply elem_of_difference in H as [H _]. apply Hsets. left. exact H.
  - destruct (decide (cache.BlockedUsersSet = key)) as [<- | _]; [| apply Hsets; right; exact H].
    apply elem_of_difference in H as [H _]. apply Hsets. right. exact H.
Qed.

Lemma Inv_state (chat s : Z) (w : World) :
  knownState s -> Inv w -> Inv (setAdminStates <[chat := s]> w).
Proof.
  intros Hknown (Hs & Hd & Hsets). split; [| split; [exact Hd | exact Hsets]].
  intros c s'. cbn [adminStates setAdminStates].
  destruct (decide (c = chat)) as [-> | Hne].
  - rewrite lookup_insert_eq. intros H. injection H as <-. exact Hknown.
  - rewrite lookup_insert_ne by congruence. apply Hs.
Qed.

Lemma Inv_draft (w0 : World) (chat : Z) (d : Draft.Message) (w : World) :
  Inv w0 -> Inv w -> (mediaOK (broadcast.draftOf w0 chat) -> mediaOK d) ->
  Inv (setBroadcasts <[chat := d]> w).
Proof.
  intros (_ & Hd0 & _) (Hs & Hd & Hsets) Hnew. split; [exact Hs |].
  split; [| exact Hsets].
  intros c d'. cbn [Broadcasts setBroadcasts].
  destruct (decide (c = chat)) as [-> | Hne].
  - rewrite lookup_insert_eq. intros H. injection H as <-.
    apply Hnew, mediaOK_draftOf, Hd0.
  - rewrite lookup_insert_ne by congruence. apply Hd.
Qed.

Lemma Inv_forget (chat : Z) (w : World) : Inv w -> Inv (setBroadcasts (delete chat) w).
Proof.
  intros (Hs & Hd & Hsets). split; [exact Hs |]. split; [| exact Hsets].
  intros c d. cbn [Broadcasts setBroadcasts]. intros H.
  apply lookup_delete_Some in H as [_ H]. exact (Hd c d H).
Qed.

Lemma Run_keeps_Inv (b : main.BotInstance) (updates : list Update) :
  Forall wellFormed updates -> keeps Inv (main.Run b updates).
Proof.
  apply keeps_Run.
  - exact Inv_delivered.
  - exact Inv_read.
  - exact Inv_logged.
  - exact Inv_started.
  - exact Inv_prompts.
  - exact Inv_HSet.
  - exact Inv_Set.
  - exact Inv_SAdd.
  - exact Inv_SRem.
  - exact Inv_state.
  - exact Inv_draft.
  - exact Inv_forget.
Qed.

Lemma handleUpdate_runs (b : main.BotInstance) (update : Update) :
  wellFormed update -> keeps (fun _ => True) (main.handleUpdate b update).
Proof. intros Hupdate. apply keeps_handleUpdate; try (intros; exact I). exact Hupdate. Qed.

Lemma handleUpdate_keeps_Inv (b : main.BotInstance) (update : Update) :
  wellFormed update -> keeps Inv (main.handleUpdate b update).
Proof.
  apply keeps_handleUpdate.
  - exact Inv_delivered.
  - exact Inv_read.
  - exact Inv_logged.
  - exact Inv_started.
  - exact Inv_prompts.
  - exact Inv_HSet.
  - exact Inv_Set.
  - exact Inv_SAdd.
  - exact Inv_SRem.
  - exact Inv_state.
  - exact Inv_draft.
  - exact Inv_forget.
Qed.

Lemma Inv_idle : Inv Sample.idle.
Proof.
  split; [| split].
  - intros chat s H. discriminate.
  - intros chat d H. discriminate.
  - intros member [H | H]; apply elem_of_empty in H; destruct H.
Qed.

(** X14: [handleUpdate] never panics on a well-formed update (a message has a
    sender whose identifier fits 64 bits, a callback query carries its
    message), whatever the store and the Bot API answer; and it preserves the
    invariant of the state: every recorded state is one of the six values of
    the source, every draft that has a medium has the kind photo or video,
    and the two user sets hold decimal renderings of 64-bit numbers only. A
    fan-out that the update starts is recorded as started; it runs apart from
    the handler. *)
Theorem update_never_panics_and_keeps_invariants (b : main.BotInstance)
    (update : Update) (w : World) :
  wellFormed update ->
  exists w' : World,
    main.handleUpdate b update w = Some (tt, w') /\ (Inv w -> Inv w').
Proof.
  intros Hupdate.
  destruct (handleUpdate_runs b update Hupdate w I) as ([] & w' & Hrun & _).
  exists w'. split; [exact Hrun |]. intros Hw.
  destruct (handleUpdate_keeps_Inv b update Hupdate w Hw) as ([] & w'' & Hrun' & Hw'').
  rewrite Hrun in Hrun'. injection Hrun' as <-. exact Hw''.
Qed.

Lemma update_never_panics_and_keeps_invariants_witness :
  let u := messageUpdate (Sample.textFrom 5 "hi") in
  wellFormed u /\ Inv Sample.idle
  /\ exists w' : World,
       main.handleUpdate Sample.bot u Sample.idle = Some (tt, w') /\ Inv w'.
Proof.
  intros u.
  assert (Hu : wellFormed u).
  { exists (Sample.user 5). split; [reflexivity | apply int64_small; simpl; lia]. }
  split; [exact Hu |]. split; [exact Inv_idle |].
  destruct (update_never_panics_and_keeps_invariants Sample.bot u Sample.idle Hu)
    as (w' & Hrun & Hinv).
  exists w'. split; [exact Hrun | exact (Hinv Inv_idle)].
Defined.

(** X15: when the token is set, the client of the Bot API can be created and
    the store answers the ping, [main] starts the bot and runs it over any
    list of well-formed updates without a panic, and the state it ends in
    satisfies the invariant, provided the two user sets of the store hold
    decimal renderings of 64-bit numbers at the start. The fan-outs started
    on the way are recorded, not run. *)
Theorem started_bot_runs_without_panic (env : Environment) (updates : list Update) :
  Getenv env "TELEGRAM_BOT_TOKEN" <> "" ->
  NewBotAPI env (Getenv env "TELEGRAM_BOT_TOKEN") = None ->
  Ping env (Getenv env "REDIS_ADDR") (Getenv env "REDIS_PASSWORD")
    (fst (Strconv.Atoi (Getenv env "REDIS_DB"))) = None ->
  setsOK (store env) ->
  Forall wellFormed updates ->
  exists w' : World, main.main env updates = inl (Some w') /\ Inv w'.
Proof.
  intros Htoken Hapi Hping Hstore Hupdates.
  unfold main.main, main.NewBotInstance.
  rewrite eqb_empty, bool_decide_eq_false_2 by exact Htoken. rewrite Hapi.
  destruct (Strconv.Atoi (Getenv env "REDIS_DB")) as [redisDB ok] eqn:Hdb.
  cbn [fst] in Hping. unfold cache.NewRedisClient. rewrite Hping.
  match goal with |- context [main.Run ?b updates ?w0] =>
    destruct (Run_keeps_Inv b updates Hupdates w0) as ([] & w' & Hrun & Hw');
    [| rewrite Hrun; exists w'; split; [reflexivity | exact Hw']]
  end.
  split; [| split; [| exact Hstore]].
  - intros chat s H. cbn [adminStates] in H. rewrite lookup_empty in H. discriminate.
  - intros chat d H. cbn [Broadcasts] in H. rewrite lookup_empty in H. discriminate.
Qed.

Lemma started_bot_runs_without_panic_witness :
  exists w' : World,
    main.main sampleEnvironment
      [messageUpdate (startFrom 5); messageUpdate (Sample.textFrom 5 "hi")]
    = inl (Some w')
    /\ Inv w'.
Proof.
  apply (started_bot_runs_without_panic sampleEnvironment
           [messageUpdate (startFrom 5); messageUpdate (Sample.textFrom 5 "hi")]).
  - discriminate.
  - reflexivity.
  - reflexivity.
  - intros member [H | H]; apply elem_of_empty in H; destruct H.
  - repeat constructor; exists (Sample.user 5);
      (split; [reflexivity | apply int64_small; simpl; lia]).
Defined.

(** ** Messages of users *)

Lemma escapeEach_none (s : string) : escapeEach (fun _ => false) s = s.
Proof. induction s as [| c s IH]; [reflexivity |]. cbn [escapeEach]. rewrite IH. reflexivity. Qed.

Lemma escapeEach_ext (f g : ascii -> bool) (s : string) :
  (forall c, f c = g c) -> escapeEach f s = escapeEach g s.
Proof.
  intros H. induction s as [| c s IH]; [reflexivity |].
  cbn [escapeEach]. rewrite H, IH. reflexivity.
Qed.

(** One more round of [ReplaceAll] escapes one more character. *)
Lemma ReplaceAll_escapeEach (escaped : ascii -> bool) (c : ascii) (s : string) :
  escaped c = false -> c <> "\"%char ->
  Strings.ReplaceAll (escapeEach escaped s) c (String "\" (String c ""))
  = escapeEach (fun x => escaped x || Ascii.eqb x c) s.
Proof.
  intros Hc Hslash. induction s as [| a s IH]; [reflexivity |].
  cbn [escapeEach]. destruct (escaped a) eqn:Ha.
  - cbn [orb Strings.ReplaceAll].
    rewrite (proj2 (Ascii.eqb_neq "\" c)) by congruence.
    destruct (Ascii.eqb a c) eqn:Hac.
    + apply Ascii.eqb_eq in Hac. congruence.
    + rewrite IH. reflexivity.
  - cbn [orb Strings.ReplaceAll]. destruct (Ascii.eqb a c) eqn:Hac.
    + apply Ascii.eqb_eq in Hac. subst a. rewrite IH. reflexivity.
    + rewrite IH. reflexivity.
Qed.

Lemma escape_rounds (chars : list ascii) :
  forall (escaped : ascii -> bool) (s : string),
  Forall (fun c => c <> "\"%char) chars ->
  NoDup chars -> Forall (fun c => escaped c = false) chars ->
  fold_left
    (fun text char => Strings.ReplaceAll text char (String "\" (String char "")))
    chars (escapeEach escaped s)
  = escapeEach (fun x => escaped x || existsb (Ascii.eqb x) chars) s.
Proof.
  induction chars as [| c chars IH]; intros escaped s Hslash Hnodup Hfresh.
  - cbn [fold_left existsb]. apply escapeEach_ext. intros x. rewrite orb_false_r. reflexivity.
  - cbn [fold_left existsb].
    inversion Hslash as [| ? ? Hc Hrest]; subst.
    inversion Hnodup as [| ? ? Hnotin Hnodup']; subst.
    inversion Hfresh as [| ? ? Hfc Hfrest]; subst.
    rewrite ReplaceAll_escapeEach by assumption.
    rewrite IH; [| assumption | assumption |].
    + apply escapeEach_ext. intros x. rewrite orb_assoc. reflexivity.
    + apply Forall_forall. intros x Hx.
      rewrite (proj1 (Forall_forall _ _) Hfrest x Hx). cbn [orb].
      apply Ascii.eqb_neq. intros ->. contradiction.
Qed.

Lemma escapeMarkdownV2_escapeEach (text : string) :
  main.escapeMarkdownV2 text = escapeEach reserved text.
Proof.
  unfold main.escapeMarkdownV2. rewrite <- (escapeEach_none text) at 1.
  rewrite escape_rounds.
  - reflexivity.
  - unfold main.reservedChars, reserved. repeat (constructor; [discriminate |]). constructor.
  - apply (bool_decide_unpack _). vm_compute. exact I.
  - apply Forall_forall. reflexivity.
Qed.

(** X16: the eighteen successive replacements of [escapeMarkdownV2] amount to
    one pass over the text that puts a backslash in front of each occurrence
    of the eighteen reserved characters and keeps every other byte: no
    backslash that a replacement inserted is touched by a later one. *)
Theorem escapeMarkdownV2_is_one_pass (text : string) :
  main.escapeMarkdownV2 text = escapeEach reserved text.
Proof. exact (escapeMarkdownV2_escapeEach text). Qed.

(** X17: a text message that is not empty and not the command start, from a
    sender who is neither an administrator nor blocked, while the store
    answers: the sender is added to the known users and the record of the
    sender is written; when an admin chat is configured, the caption naming
    the sender followed by the escaped text goes to the admin chat, under the
    link to the user and the button that blocks the user, and the user gets
    the receipt; when none is configured (0), the user gets the apology and
    nothing else is sent. The blocked set and the admin states are unchanged. *)
Theorem user_text_is_recorded_and_forwarded
    (b : main.BotInstance) (msg : Message) (from : User) (w : World) :
  From msg = Some from ->
  main.isAdmin b (ID from) = false ->
  Strconv.FormatInt (ID from) ∉ blockedUsers w ->
  storeAnswers w ->
  Text msg <> "" ->
  IsCommand msg && String.eqb (Command msg) "start" = false ->
  exists w' : World,
    main.handleUpdate b (messageUpdate msg) w = Some (tt, w')
    /\ sent w' = sent w ++ (if main.forwardToAdminID b =? 0
                            then [apology (ChatID msg)]
                            else [forwardedText b from (Text msg);
                                  receipt (ChatID msg)])
    /\ knownUsers w' = {[Strconv.FormatInt (ID from)]} ∪ knownUsers w
    /\ blockedUsers w' = blockedUsers w
    /\ fst <$> cache.GetUserInfo (ID from) w'
       = Some (FirstName from, LastName from, UserName from, None)
    /\ adminStates w' = adminStates w.
Proof.
  intros Hfrom Hadmin Hblocked Hok Htext Hstart.
  unfold main.handleUpdate, messageUpdate. cbn [UpdateMessage].
  unfold main.handleMessage, main.handleUserMessage. rewrite Hfrom. mrun.
  rewrite (StoreUserInfo_answers from w Hok). cbv beta iota.
  rewrite IsUserBlocked_answers by apply Hok. cbv beta iota.
  change (blockedUsers (storedUserInfo from w)) with (blockedUsers w).
  rewrite (bool_decide_eq_false_2 _ Hblocked). cbn [negb]. cbv beta iota.
  unfold cache.CheckAndAddUser. mrun.
  rewrite command_answers by apply Hok. cbv beta iota.
  rewrite Hadmin. cbv beta iota.
  rewrite IsUserBlocked_answers by apply Hok. cbv beta iota.
  set (w1 := redisAnswered (redis (storedUserInfo from w)) (storedUserInfo from w)).
  set (w2 := redisAnswered
               (snd (cache.SAdd cache.UsersSetKey (Strconv.FormatInt (ID from))
                       (redis w1))) w1).
  assert (Hb2 : blockedUsers w2 = blockedUsers w).
  { unfold blockedUsers, w2. cbn [redis redisAnswered]. rewrite members_SAdd.
    rewrite decide_False by discriminate. reflexivity. }
  assert (Hk2 : knownUsers w2 = {[Strconv.FormatInt (ID from)]} ∪ knownUsers w).
  { unfold knownUsers, w2. cbn [redis redisAnswered]. rewrite members_SAdd.
    rewrite decide_True by reflexivity. reflexivity. }
  assert (Hinfo : forall w3, redis w3 = redis w2 -> redisFail w3 = redisFail w ->
            fst <$> cache.GetUserInfo (ID from) w3
            = Some (FirstName from, LastName from, UserName from, None)).
  { intros w3 Hredis Hfail. rewrite GetUserInfo_answers by (rewrite Hfail; apply Hok).
    cbn [fmap option_fmap option_map fst]. rewrite Hredis.
    unfold w2, w1, storedUserInfo, cache.HSet, cache.SAdd.
    cbn [redis redisAnswered snd rhashes].
    rewrite !lookup_insert_eq. cbn [from_option]. unfold id.
    repeat (rewrite lookup_insert_eq || rewrite lookup_insert_ne by discriminate).
    reflexivity. }
  rewrite Hb2, (bool_decide_eq_false_2 _ Hblocked), Hstart.
  destruct (main.forwardToAdminID b =? 0) eqn:Hforward; cbn [negb]; cbv beta iota.
  - eexists. split; [reflexivity |].
    split; [reflexivity |]. split; [exact Hk2 |]. split; [exact Hb2 |].
    split; [apply Hinfo; reflexivity | reflexivity].
  - rewrite IsUserBlocked_answers by apply Hok. cbv beta iota.
    change (blockedUsers (redisAnswered (redis w2) w2)) with (blockedUsers w2).
    rewrite Hb2, (bool_decide_eq_false_2 _ Hblocked).
    rewrite eqb_empty, bool_decide_eq_false_2 by exact Htext. cbn [negb]. cbv beta iota.
    eexists. split; [reflexivity |].
    split; [| split; [exact Hk2 |]; split; [exact Hb2 |];
               split; [apply Hinfo; reflexivity | reflexivity]].
    cbn [sent delivered redisAnswered]. rewrite <- app_assoc.
    unfold forwardedText, main.userCaption.
    rewrite !escapeMarkdownV2_escapeEach. reflexivity.
Qed.

Lemma user_text_is_recorded_and_forwarded_witness :
  let msg := Sample.textFrom 5 "hi_there" in
  exists w' : World,
    main.handleUpdate Sample.bot (messageUpdate msg) Sample.idle = Some (tt, w')
    /\ sent w'
       = [MessageConfig 7
            ("收到来自用户 [Ann \(5\)](tg://user?id=5) 的消息:" +:+ nl +:+ nl
             +:+ "hi\_there")
            "MarkdownV2"
            (Some [[ButtonURL "与用户对话" "tg://user?id=5";
                    ButtonData "拉黑用户" "block_5"]]);
          NewMessage 5 "消息已收到，我们会尽快回复您。"]
    /\ knownUsers w' = {["5"]} ∪ knownUsers Sample.idle.
Proof.
  intros msg.
  assert (Hfree : Strconv.FormatInt 5 ∉ blockedUsers Sample.idle).
  { apply (proj1 (bool_decide_eq_false _)). vm_compute. reflexivity. }
  assert (Htext : Text msg <> "") by discriminate.
  destruct (user_text_is_recorded_and_forwarded Sample.bot msg (Sample.user 5)
              Sample.idle eq_refl eq_refl Hfree (fun _ => eq_refl) Htext eq_refl)
    as (w' & Hrun & Hsent & Hknown & _).
  exists w'. split; [exact Hrun |]. split; [| exact Hknown].
  rewrite Hsent. vm_compute. reflexivity.
Defined.

(** ** Replies of the administrator *)

Lemma isDigit_digit (c : ascii) :
  isDigit c = true -> exists d, Strconv.digit c = Some d.
Proof. unfold isDigit. intros H. apply bool_decide_eq_true in H. exact H. Qed.

Lemma digitRun_digits (ds rest : string) :
  allBytes isDigit ds = true ->
  match rest with
  | EmptyString => True
  | String c _ => Strconv.digit c = None
  end ->
  main.digitRun (ds +:+ rest) = (ds, rest).
Proof.
  intros Hds Hrest. induction ds as [| c ds IH].
  - rewrite append_nil_l. destruct rest as [| c r]; [reflexivity |].
    cbn [main.digitRun]. rewrite Hrest. reflexivity.
  - cbn [allBytes] in Hds. apply andb_true_iff in Hds as [Hc Hds].
    rewrite append_cons. cbn [main.digitRun].
    destruct (isDigit_digit c Hc) as [d ->]. rewrite (IH Hds). reflexivity.
Qed.

Lemma findUserID_without (s : string) :
  occurs openParen s = false -> main.findUserID s = None.
Proof.
  induction s as [| c s IH]; [reflexivity |].
  cbn [occurs main.findUserID]. intros H. apply orb_false_iff in H as [Hc H].
  fold openParen. rewrite Hc. exact (IH H).
Qed.

Lemma HasPrefix_head (c : ascii) (s : string) :
  Strings.HasPrefix (String c s) (String c "") = true.
Proof.
  unfold Strings.HasPrefix. cbn [String.prefix].
  destruct (ascii_dec c c) as [_ | H]; [| contradiction]. destruct s; reflexivity.
Qed.

Lemma findUserID_first (pre ds post : string) :
  occurs openParen pre = false ->
  allBytes isDigit ds = true -> ds <> "" ->
  main.findUserID (pre +:+ String openParen (ds +:+ String ")" post)) = Some ds.
Proof.
  intros Hpre Hds Hne. induction pre as [| c pre IH].
  - rewrite append_nil_l. cbn [main.findUserID]. fold openParen.
    rewrite Ascii.eqb_refl.
    rewrite (digitRun_digits ds (String ")" post) Hds) by reflexivity.
    rewrite eqb_empty, bool_decide_eq_false_2 by exact Hne.
    rewrite HasPrefix_head. reflexivity.
  - cbn [occurs] in Hpre. apply orb_false_iff in Hpre as [Hc Hpre].
    rewrite append_cons. cbn [main.findUserID]. fold openParen. rewrite Hc.
    exact (IH Hpre).
Qed.

Lemma FormatInt_positive (id : Z) :
  0 < id ->
  allBytes isDigit (Strconv.FormatInt id) = true /\ Strconv.FormatInt id <> "".
Proof.
  intros Hid. destruct id as [| p | p]; try lia.
  destruct (FormatInt_pos p) as (c & r & -> & Ha & _). split; [exact Ha | discriminate].
Qed.

(** X18: a reply of the administrator, in the admin chat, to a quoted
    message. When the text of the quoted message holds, at its first opening
    parenthesis, the decimal rendering of an identifier between 1 and 2^63 -
    1 followed by a closing parenthesis, a reply text that is not empty is
    sent to the chat of that identifier, and the administrator is then told
    whether the Bot API accepted it; states, drafts and store are unchanged.
    When neither the text nor the caption of the quoted message holds an
    opening parenthesis, only the notice that no user identifier was found is
    sent. *)
Theorem reply_reaches_the_quoted_user (b : main.BotInstance) (msg : Message)
    (replied : RepliedMessage) (w : World) :
  ReplyToMessage msg = Some replied ->
  main.forwardToAdminID b = ChatID msg ->
  (forall (pre post : string) (id : Z),
     ReplyText replied
     = pre +:+ String openParen (Strconv.FormatInt id +:+ String ")" post) ->
     occurs openParen pre = false -> 0 < id < 2 ^ 63 -> Text msg <> "" ->
     exists w' : World,
       main.handleAdminMessage b msg w = Some (tt, w')
       /\ sent w' = sent w ++ [NewMessage id (Text msg);
                               replyOutcome b id (apiResult w (length (sent w)))]
       /\ adminStates w' = adminStates w /\ Broadcasts w' = Broadcasts w
       /\ redis w' = redis w)
  /\ (occurs openParen (ReplyText replied) = false ->
      occurs openParen (ReplyCaption replied) = false ->
      main.handleAdminMessage b msg w = Some (tt, delivered (noUserNotice b) w)).
Proof.
  intros Hreply Hchat. split.
  - intros pre post id Htext Hpre Hid Hmsg.
    destruct (FormatInt_positive id ltac:(lia)) as [Hds Hne].
    unfold main.handleAdminMessage.
    rewrite Hreply, (proj2 (Z.eqb_eq _ _) Hchat).
    unfold main.replyToUser.
    assert (Hnonempty : ReplyText replied <> "").
    { rewrite Htext. destruct pre; discriminate. }
    rewrite (eqb_empty (ReplyText replied)), bool_decide_eq_false_2 by exact Hnonempty.
    cbn [negb]. cbv zeta.
    rewrite (eqb_empty (ReplyText replied)), bool_decide_eq_false_2 by exact Hnonempty.
    cbn [negb]. rewrite Htext, (findUserID_first pre _ post Hpre Hds Hne).
    rewrite ParseInt_FormatInt by (unfold int64; lia).
    replace (id =? 0) with false by (symmetry; apply Z.eqb_neq; lia).
    cbn [negb]. rewrite (eqb_empty (Text msg)), bool_decide_eq_false_2 by exact Hmsg.
    cbn [negb]. mrun. unfold replyOutcome.
    destruct (apiResult w (length (sent w))) as [m |];
      (eexists; split; [reflexivity |]; cbn [sent delivered]; rewrite <- app_assoc;
       repeat split).
  - intros Htext Hcaption. unfold main.handleAdminMessage.
    rewrite Hreply, (proj2 (Z.eqb_eq _ _) Hchat). unfold main.replyToUser. cbv zeta.
    assert (Hzero : (if negb (String.eqb
                                (if negb (String.eqb (ReplyText replied) "")
                                 then ReplyText replied
                                 else if negb (String.eqb (ReplyCaption replied) "")
                                      then ReplyCaption replied else "") "")
                     then match main.findUserID
                                  (if negb (String.eqb (ReplyText replied) "")
                                   then ReplyText replied
                                   else if negb (String.eqb (ReplyCaption replied) "")
                                        then ReplyCaption replied else "") with
                          | Some group =>
                              let '(id, ok) := Strconv.ParseInt group in
                              if ok then id else 0
                          | None => 0
                          end
                     else 0) = 0).
    { destruct (negb (String.eqb (ReplyText replied) "")).
      - rewrite (findUserID_without _ Htext). destruct (negb _); reflexivity.
      - destruct (negb (String.eqb (ReplyCaption replied) "")).
        + rewrite (findUserID_without _ Hcaption). destruct (negb _); reflexivity.
        + reflexivity. }
    rewrite Hzero. cbn [Z.eqb negb]. mrun. reflexivity.
Qed.

Lemma reply_reaches_the_quoted_user_witness :
  let msg := replyTo "From Ann (5): hi" "hello" in
  exists w' : World,
    main.handleAdminMessage Sample.bot msg Sample.idle = Some (tt, w')
    /\ sent w' = [NewMessage 5 "hello"; NewMessage 7 "✅ 已回复给用户。"].
Proof.
  intros msg.
  assert (Hid : 0 < 5 < 2 ^ 63) by (split; reflexivity).
  assert (Htext : Text msg <> "") by discriminate.
  destruct (proj1 (reply_reaches_the_quoted_user Sample.bot msg
                     {| ReplyText := "From Ann (5): hi"; ReplyCaption := "" |}
                     Sample.idle eq_refl eq_refl)
              "From Ann " ": hi" 5 eq_refl eq_refl Hid Htext)
    as (w' & Hrun & Hsent & _).
  exists w'. split; [exact Hrun | exact Hsent].
Defined.

(** ** The buttons that block and unblock *)

Lemma allBytes_weaken (P Q : ascii -> bool) (s : string) :
  (forall c, P c = true -> Q c = true) -> allBytes P s = true -> allBytes Q s = true.
Proof.
  intros HPQ. induction s as [| c s IH]; [reflexivity |]. cbn [allBytes].
  intros H. apply andb_true_iff in H as [Hc Hs]. rewrite (HPQ c Hc), (IH Hs). reflexivity.
Qed.

Lemma FormatInt_bytes (i : Z) : allBytes isDecimal (Strconv.FormatInt i) = true.
Proof.
  assert (Hpos : forall p, allBytes isDecimal (Strconv.FormatInt (Z.pos p)) = true).
  { intros p. destruct (FormatInt_pos p) as (c & r & -> & Ha & _).
    revert Ha. apply allBytes_weaken. intros x Hx. unfold isDecimal. rewrite Hx. reflexivity. }
  destruct i as [| p | p].
  - reflexivity.
  - apply Hpos.
  - rewrite FormatInt_neg. cbn [allBytes]. rewrite Hpos. reflexivity.
Qed.

Lemma occurs_allBytes (P : ascii -> bool) (c : ascii) (s : string) :
  allBytes P s = true -> P c = false -> occurs c s = false.
Proof.
  intros Hs Hc. induction s as [| a s IH]; [reflexivity |].
  cbn [allBytes] in Hs. apply andb_true_iff in Hs as [Ha Hs].
  cbn [occurs]. rewrite (IH Hs), orb_false_r. apply Ascii.eqb_neq. intros ->. congruence.
Qed.

Lemma FormatInt_without (c : ascii) (i : Z) :
  isDecimal c = false -> occurs c (Strconv.FormatInt i) = false.
Proof. apply occurs_allBytes, FormatInt_bytes. Qed.

Lemma Split_two (head tail : string) (sep : ascii) :
  occurs sep head = false -> occurs sep tail = false ->
  Strings.Split (head +:+ String sep tail) sep = [head; tail].
Proof.
  intros Hhead Htail. rewrite Split_append by exact Hhead.
  rewrite Split_without by exact Htail. reflexivity.
Qed.

Lemma Split_three (a b c : string) (sep : ascii) :
  occurs sep a = false -> occurs sep b = false -> occurs sep c = false ->
  Strings.Split (a +:+ String sep (b +:+ String sep c)) sep = [a; b; c].
Proof.
  intros Ha Hb Hc. rewrite Split_append by exact Ha.
  rewrite Split_two by assumption. reflexivity.
Qed.

Lemma HasPrefix_append (pre s : string) : Strings.HasPrefix (pre +:+ s) pre = true.
Proof.
  unfold Strings.HasPrefix. induction pre as [| c pre IH].
  - destruct s; reflexivity.
  - rewrite append_cons. cbn [String.prefix].
    destruct (ascii_dec c c) as [_ | H]; [exact IH | contradiction].
Qed.

Lemma AddBlockedUser_answers (userID : Z) (w : World) :
  redisFail w (redisCalls w) = None ->
  cache.AddBlockedUser userID w
  = Some (None, redisAnswered
                  (snd (cache.SAdd cache.BlockedUsersSet (Strconv.FormatInt userID)
                          (redis w))) w).
Proof.
  intros Hok. unfold cache.AddBlockedUser. mrun.
  rewrite command_answers by exact Hok. reflexivity.
Qed.

Lemma AddBlockedUser_fails (userID : Z) (e : string) (w : World) :
  redisFail w (redisCalls w) = Some e ->
  cache.AddBlockedUser userID w = Some (Some e, redisAnswered (redis w) w).
Proof.
  intros Hfail. unfold cache.AddBlockedUser. mrun.
  rewrite (command_fails _ _ e) by exact Hfail. reflexivity.
Qed.

Lemma RemoveBlockedUser_answers (userID : Z) (w : World) :
  redisFail w (redisCalls w) = None ->
  cache.RemoveBlockedUser userID w
  = Some (None, redisAnswered
                  (snd (cache.SRem cache.BlockedUsersSet (Strconv.FormatInt userID)
                          (redis w))) w).
Proof.
  intros Hok. unfold cache.RemoveBlockedUser. mrun.
  rewrite command_answers by exact Hok. reflexivity.
Qed.

Lemma RemoveBlockedUser_fails (userID : Z) (e : string) (w : World) :
  redisFail w (redisCalls w) = Some e ->
  cache.RemoveBlockedUser userID w = Some (Some e, redisAnswered (redis w) w).
Proof.
  intros Hfail. unfold cache.RemoveBlockedUser. mrun.
  rewrite (command_fails _ _ e) by exact Hfail. reflexivity.
Qed.

(** X19: the button whose data is block_ followed by the decimal rendering of
    a 64-bit identifier. When the store answers, the identifier is added to
    the blocked set and the query is answered with the confirmation; when the
    store fails, the blocked set is unchanged and nothing is sent, not even
    an acknowledgement. The known users and the admin states are unchanged. *)
Theorem block_button_blocks_its_user (b : main.BotInstance) (q : CallbackQuery)
    (id : Z) (w : World) :
  Data q = "block_" +:+ Strconv.FormatInt id -> int64 id ->
  exists w' : World,
    main.handleCallbackQuery b q w = Some (tt, w')
    /\ (redisFail w (redisCalls w) = None ->
        blockedUsers w' = {[Strconv.FormatInt id]} ∪ blockedUsers w
        /\ sent w' = sent w ++ [NewCallback (QueryID q) "✅ 用户已拉黑"])
    /\ (redisFail w (redisCalls w) <> None ->
        blockedUsers w' = blockedUsers w /\ sent w' = sent w)
    /\ knownUsers w' = knownUsers w /\ adminStates w' = adminStates w.
Proof.
  intros Hdata Hid. unfold main.handleCallbackQuery. rewrite Hdata.
  change (Strings.HasPrefix ("block_" +:+ Strconv.FormatInt id) "unblock_") with false.
  change (Strings.HasPrefix ("block_" +:+ Strconv.FormatInt id) "page_prev_") with false.
  change (Strings.HasPrefix ("block_" +:+ Strconv.FormatInt id) "page_next_") with false.
  rewrite HasPrefix_append.
  cbn [orb]. cbv iota.
  change ("block_" +:+ Strconv.FormatInt id)
    with ("block" +:+ String main.underscore (Strconv.FormatInt id)).
  rewrite Split_two by (first [reflexivity | apply FormatInt_without; reflexivity]).
  rewrite ParseInt_FormatInt by exact Hid. cbn [negb]. cbv iota.
  unfold mbind at 1, M_bind at 1.
  destruct (redisFail w (redisCalls w)) as [e |] eqn:Hfail.
  - rewrite (AddBlockedUser_fails id e w Hfail). cbv beta iota. mrun.
    eexists. split; [reflexivity |]. split; [discriminate |].
    split; [intros _; split; reflexivity | split; reflexivity].
  - rewrite (AddBlockedUser_answers id w Hfail). cbv beta iota. mrun.
    eexists. split; [reflexivity |].
    split; [| split; [intros H; contradiction |]].
    + intros _. split; [| reflexivity].
      unfold blockedUsers. cbn [redis delivered redisAnswered]. rewrite members_SAdd.
      rewrite decide_True by reflexivity. reflexivity.
    + split; [| reflexivity].
      unfold knownUsers. cbn [redis delivered redisAnswered]. rewrite members_SAdd.
      rewrite decide_False by discriminate. reflexivity.
Qed.

Lemma block_button_blocks_its_user_witness :
  exists w' : World,
    main.handleCallbackQuery Sample.bot (Sample.press 7 "block_5") Sample.idle
    = Some (tt, w')
    /\ blockedUsers w' = {["5"]} ∪ blockedUsers Sample.idle
    /\ sent w' = [NewCallback "q" "✅ 用户已拉黑"].
Proof.
  assert (Hid : int64 5) by (apply int64_small; lia).
  destruct (block_button_blocks_its_user Sample.bot (Sample.press 7 "block_5") 5
              Sample.idle eq_refl Hid)
    as (w' & Hrun & Hok & _).
  exists w'. split; [exact Hrun | exact (Hok eq_refl)].
Defined.

Lemma handleListBlocked_frame (chatID page : Z) (w : World) :
  exists w' : World,
    main.handleListBlocked chatID page w = Some (tt, w')
    /\ listingFrame (redis w) (adminStates w) (sent w) w'.
Proof.
  destruct (keeps_handleListBlocked (listingFrame (redis w) (adminStates w) (sent w)))
    with (chatID := chatID) (page := page) (w := w) as ([] & w' & Hrun & Hframe).
  - intros c w0 (Hr & Hs & rest & Hsent). split; [exact Hr |]. split; [exact Hs |].
    exists (rest ++ [c]). cbn [sent delivered]. rewrite Hsent, app_assoc. reflexivity.
  - intros w0 (Hr & Hs & Hsent). split; [exact Hr |]. split; [exact Hs | exact Hsent].
  - split; [reflexivity |]. split; [reflexivity |]. exists []. rewrite app_nil_r. reflexivity.
  - exists w'. split; assumption.
Qed.

(** X20: the button whose data is unblock_ followed by the decimal rendering
    of a 64-bit identifier. When the store answers, that member is removed
    from the blocked set and the query is answered with the confirmation,
    before the list is shown again; when the store fails, the blocked set is
    unchanged and nothing is sent. The known users and the admin states are
    unchanged. *)
Theorem unblock_button_unblocks_its_entry (b : main.BotInstance) (q : CallbackQuery)
    (message : Message) (member : string) (w : World) :
  QueryMessage q = Some message ->
  Data q = "unblock_" +:+ member -> canonical member ->
  exists w' : World,
    main.handleCallbackQuery b q w = Some (tt, w')
    /\ (redisFail w (redisCalls w) = None ->
        blockedUsers w' = blockedUsers w ∖ {[member]}
        /\ exists rest : list Chattable,
             sent w' = sent w ++ NewCallback (QueryID q) "✅ 用户已解除拉黑" :: rest)
    /\ (redisFail w (redisCalls w) <> None ->
        blockedUsers w' = blockedUsers w /\ sent w' = sent w)
    /\ knownUsers w' = knownUsers w /\ adminStates w' = adminStates w.
Proof.
  intros Hmessage Hdata (id & Hid & ->). unfold main.handleCallbackQuery.
  rewrite Hdata, Hmessage, HasPrefix_append. cbv iota.
  change ("unblock_" +:+ Strconv.FormatInt id)
    with ("unblock" +:+ String main.underscore (Strconv.FormatInt id)).
  rewrite Split_two by (first [reflexivity | apply FormatInt_without; reflexivity]).
  rewrite ParseInt_FormatInt by exact Hid. cbn [negb]. cbv iota.
  unfold mbind at 1, M_bind at 1.
  destruct (redisFail w (redisCalls w)) as [e |] eqn:Hfail.
  - rewrite (RemoveBlockedUser_fails id e w Hfail). cbv beta iota. mrun.
    eexists. split; [reflexivity |]. split; [discriminate |].
    split; [intros _; split; reflexivity | split; reflexivity].
  - rewrite (RemoveBlockedUser_answers id w Hfail). cbv beta iota. mrun.
    match goal with |- context [main.handleListBlocked ?c ?p ?w1] =>
      destruct (handleListBlocked_frame c p w1)
        as (w' & Hrun & Hredis & Hstates & rest & Hsent) end.
    rewrite Hrun. exists w'. split; [reflexivity |].
    cbn [redis adminStates sent delivered redisAnswered] in Hredis, Hstates, Hsent.
    split; [| split; [intros H; contradiction |]].
    + intros _. split.
      * unfold blockedUsers. rewrite Hredis, members_SRem.
        rewrite decide_True by reflexivity. reflexivity.
      * exists rest. rewrite Hsent, <- app_assoc. reflexivity.
    + split; [| exact Hstates].
      unfold knownUsers. rewrite Hredis, members_SRem.
      rewrite decide_False by discriminate. reflexivity.
Qed.

Lemma unblock_button_unblocks_its_entry_witness :
  let w := Sample.withSets ∅ {["5"]} Sample.idle in
  canonical "5"
  /\ exists w' : World,
       main.handleCallbackQuery Sample.bot (Sample.press 7 "unblock_5") w
       = Some (tt, w')
       /\ blockedUsers w' = blockedUsers w ∖ {["5"]}.
Proof.
  intros w.
  assert (Hmember : canonical "5").
  { exists 5. split; [apply int64_small; lia | reflexivity]. }
  split; [exact Hmember |].
  destruct (unblock_button_unblocks_its_entry Sample.bot (Sample.press 7 "unblock_5")
              (Sample.textFrom 7 "") "5" w eq_refl eq_refl Hmember)
    as (w' & Hrun & Hok & _).
  exists w'. split; [exact Hrun | exact (proj1 (Hok eq_refl))].
Defined.

(** ** Page buttons, malformed payloads and failed reads *)

(** X21: the buttons page_prev_ and page_next_ followed by the decimal
    rendering of a 64-bit number do the same: the list of blocked users is
    shown for that page in the chat of the message of the button, then the
    query is acknowledged with an empty text. *)
Theorem page_button_shows_its_page (b : main.BotInstance) (q : CallbackQuery)
    (message : Message) (page : Z) (w : World) :
  QueryMessage q = Some message -> int64 page ->
  Data q = "page_prev_" +:+ Strconv.FormatInt page
  \/ Data q = "page_next_" +:+ Strconv.FormatInt page ->
  main.handleCallbackQuery b q w
  = (_ ← main.handleListBlocked (ChatID message) page;
     _ ← Request (NewCallback (QueryID q) "");
     mret tt) w.
Proof.
  intros Hmessage Hpage Hdata. unfold main.handleCallbackQuery. rewrite Hmessage.
  destruct Hdata as [-> | ->].
  - change (Strings.HasPrefix ("page_prev_" +:+ Strconv.FormatInt page) "unblock_")
      with false.
    rewrite HasPrefix_append. cbn [orb]. cbv iota.
    change ("page_prev_" +:+ Strconv.FormatInt page)
      with ("page" +:+ String main.underscore
              ("prev" +:+ String main.underscore (Strconv.FormatInt page))).
    rewrite Split_three by (first [reflexivity | apply FormatInt_without; reflexivity]).
    unfold Strconv.Atoi. rewrite ParseInt_FormatInt by exact Hpage. reflexivity.
  - change (Strings.HasPrefix ("page_next_" +:+ Strconv.FormatInt page) "unblock_")
      with false.
    change (Strings.HasPrefix ("page_next_" +:+ Strconv.FormatInt page) "page_prev_")
      with false.
    rewrite HasPrefix_append. cbn [orb]. cbv iota.
    change ("page_next_" +:+ Strconv.FormatInt page)
      with ("page" +:+ String main.underscore
              ("next" +:+ String main.underscore (Strconv.FormatInt page))).
    rewrite Split_three by (first [reflexivity | apply FormatInt_without; reflexivity]).
    unfold Strconv.Atoi. rewrite ParseInt_FormatInt by exact Hpage. reflexivity.
Qed.

Lemma page_button_shows_its_page_witness :
  main.handleCallbackQuery Sample.bot (Sample.press 7 "page_next_2") Sample.idle
  = (_ ← main.handleListBlocked 7 2;
     _ ← Request (NewCallback "q" "");
     mret tt) Sample.idle.
Proof.
  assert (Hpage : int64 2) by (apply int64_small; lia).
  exact (page_button_shows_its_page Sample.bot (Sample.press 7 "page_next_2")
           (Sample.textFrom 7 "") 2 Sample.idle eq_refl Hpage (or_intror eq_refl)).
Defined.

Lemma Split_with (s : string) (sep : ascii) :
  occurs sep s = true ->
  exists (x y : string) (rest : list string), Strings.Split s sep = x :: y :: rest.
Proof.
  induction s as [| c s IH]; [discriminate |]. cbn [occurs Strings.Split].
  destruct (Ascii.eqb c sep) eqn:Hc.
  - intros _. pose proof (Split_pieces s sep) as Hp.
    destruct (Strings.Split s sep) as [| y rest] eqn:Hs.
    + destruct s; cbn [Strings.Split] in Hs; [discriminate |].
      destruct (Ascii.eqb a sep); [discriminate |].
      destruct (Strings.Split s sep); discriminate.
    + eexists _, _, _. reflexivity.
  - cbn [orb]. intros H. destruct (IH H) as (x & y & rest & ->).
    eexists _, _, _. reflexivity.
Qed.

(** X22: a callback whose data is one of the prefixes unblock_, block_,
    page_prev_, page_next_ followed by a payload that holds an underscore or
    does not read as a number is dropped: nothing is sent, the query is not
    acknowledged, and the state is exactly as before. *)
Theorem malformed_payload_is_dropped (b : main.BotInstance) (q : CallbackQuery)
    (payload : string) (w : World) :
  Data q = "unblock_" +:+ payload \/ Data q = "block_" +:+ payload
  \/ Data q = "page_prev_" +:+ payload \/ Data q = "page_next_" +:+ payload ->
  occurs main.underscore payload = true \/ snd (Strconv.ParseInt payload) = false ->
  main.handleCallbackQuery b q w = Some (tt, w).
Proof.
  intros Hdata Hbad. unfold main.handleCallbackQuery.
  destruct (occurs main.underscore payload) eqn:Hocc.
  - destruct (Split_with payload main.underscore Hocc) as (x & y & rest & Hsplit).
    destruct Hdata as [-> | [-> | [-> | ->]]].
    + rewrite HasPrefix_append. cbv iota.
      change ("unblock_" +:+ payload) with ("unblock" +:+ String main.underscore payload).
      rewrite Split_append by reflexivity. rewrite Hsplit. reflexivity.
    + change (Strings.HasPrefix ("block_" +:+ payload) "unblock_") with false.
      change (Strings.HasPrefix ("block_" +:+ payload) "page_prev_") with false.
      change (Strings.HasPrefix ("block_" +:+ payload) "page_next_") with false.
      rewrite HasPrefix_append. cbn [orb]. cbv iota.
      change ("block_" +:+ payload) with ("block" +:+ String main.underscore payload).
      rewrite Split_append by reflexivity. rewrite Hsplit. reflexivity.
    + change (Strings.HasPrefix ("page_prev_" +:+ payload) "unblock_") with false.
      rewrite HasPrefix_append. cbn [orb]. cbv iota.
      change ("page_prev_" +:+ payload)
        with ("page" +:+ String main.underscore
                ("prev" +:+ String main.underscore payload)).
      rewrite !Split_append by reflexivity. rewrite Hsplit. reflexivity.
    + change (Strings.HasPrefix ("page_next_" +:+ payload) "unblock_") with false.
      change (Strings.HasPrefix ("page_next_" +:+ payload) "page_prev_") with false.
      rewrite HasPrefix_append. cbn [orb]. cbv iota.
      change ("page_next_" +:+ payload)
        with ("page" +:+ String main.underscore
                ("next" +:+ String main.underscore payload)).
      rewrite !Split_append by reflexivity. rewrite Hsplit. reflexivity.
  - destruct Hbad as [Hbad | Hbad]; [discriminate |].
    destruct (Strconv.ParseInt payload) as [value ok] eqn:Hparse. cbn [snd] in Hbad.
    subst ok.
    destruct Hdata as [-> | [-> | [-> | ->]]].
    + rewrite HasPrefix_append. cbv iota.
      change ("unblock_" +:+ payload) with ("unblock" +:+ String main.underscore payload).
      rewrite Split_two by (first [reflexivity | exact Hocc]).
      rewrite Hparse. reflexivity.
    + change (Strings.HasPrefix ("block_" +:+ payload) "unblock_") with false.
      change (Strings.HasPrefix ("block_" +:+ payload) "page_prev_") with false.
      change (Strings.HasPrefix ("block_" +:+ payload) "page_next_") with false.
      rewrite HasPrefix_append. cbn [orb]. cbv iota.
      change ("block_" +:+ payload) with ("block" +:+ String main.underscore payload).
      rewrite Split_two by (first [reflexivity | exact Hocc]).
      rewrite Hparse. reflexivity.
    + change (Strings.HasPrefix ("page_prev_" +:+ payload) "unblock_") with false.
      rewrite HasPrefix_append. cbn [orb]. cbv iota.
      change ("page_prev_" +:+ payload)
        with ("page" +:+ String main.underscore
                ("prev" +:+ String main.underscore payload)).
      rewrite Split_three by (first [reflexivity | exact Hocc]).
      unfold Strconv.Atoi. rewrite Hparse. reflexivity.
    + change (Strings.HasPrefix ("page_next_" +:+ payload) "unblock_") with false.
      change (Strings.HasPrefix ("page_next_" +:+ payload) "page_prev_") with false.
      rewrite HasPrefix_append. cbn [orb]. cbv iota.
      change ("page_next_" +:+ payload)
        with ("page" +:+ String main.underscore
                ("next" +:+ String main.underscore payload)).
      rewrite Split_three by (first [reflexivity | exact Hocc]).
      unfold Strconv.Atoi. rewrite Hparse. reflexivity.
Qed.

Lemma malformed_payload_is_dropped_witness :
  main.handleCallbackQuery Sample.bot (Sample.press 7 "block_5_6") Sample.idle
  = Some (tt, Sample.idle).
Proof.
  exact (malformed_payload_is_dropped Sample.bot (Sample.press 7 "block_5_6") "5_6"
           Sample.idle (or_intror (or_introl eq_refl)) (or_introl eq_refl)).
Defined.

Lemma GetBlockedUserIDs_fails (e : string) (w : World) :
  redisFail w (redisCalls w) = Some e ->
  cache.GetBlockedUserIDs w = Some (([], Some e), redisAnswered (redis w) w).
Proof.
  intros Hfail. unfold cache.GetBlockedUserIDs. mrun.
  rewrite (command_fails _ _ e) by exact Hfail. reflexivity.
Qed.

(** X23: [handleUserStats] never panics. When the read of the known users
    fails, it sends the failure notice and nothing else, after that one call
    to the store. When that read is answered and the read of the blocked set
    fails, it sends the report with the number of known users as total and as
    active count, and 0 as blocked count. *)
Theorem stats_when_a_read_fails (chatID : Z) (w : World) :
  exists w' : World,
    main.handleUserStats chatID w = Some (tt, w')
    /\ (redisFail w (redisCalls w) <> None ->
        sent w' = sent w ++ [NewMessage chatID "❌ 获取用户统计失败。"]
        /\ redisCalls w' = S (redisCalls w))
    /\ (redisFail w (redisCalls w) = None ->
        redisFail w (S (redisCalls w)) <> None ->
        let total := Z.of_nat (size (knownUsers w)) in
        sent w' = sent w ++ [NewMessage chatID (statsReport total total 0)]).
Proof.
  unfold main.handleUserStats. unfold mbind at 1, M_bind at 1.
  destruct (redisFail w (redisCalls w)) as [e |] eqn:Hfirst.
  - rewrite (GetAllUserIDs_fails _ e) by exact Hfirst. cbv beta iota. mrun.
    eexists. split; [reflexivity |]. split; [| intros H; discriminate].
    intros _. split; reflexivity.
  - rewrite GetAllUserIDs_answers by exact Hfirst. cbv beta iota.
    unfold mbind at 1, M_bind at 1.
    destruct (redisFail w (S (redisCalls w))) as [e |] eqn:Hsecond.
    + rewrite (GetBlockedUserIDs_fails e) by exact Hsecond. cbv beta iota. mrun.
      eexists. split; [reflexivity |]. split; [intros H; contradiction |].
      intros _ _. cbv zeta. cbn [sent delivered redisAnswered]. f_equal. f_equal. f_equal.
      unfold main.len. cbn [length]. rewrite Z.sub_0_r. reflexivity.
    + rewrite GetBlockedUserIDs_answers by exact Hsecond. cbv beta iota. mrun.
      eexists. split; [reflexivity |]. split; [intros H; contradiction |].
      intros _ H. contradiction.
Qed.

(** ** The start-up *)











(** ** The dispatcher *)

(** X25: [StartSetWelcomeProcess] records the state under the identifier of
    the chat, and [HandleAdminMessageInput] looks it up under the identifier
    of the sender. When an administrator who has no state of their own starts
    the editor in a chat whose identifier differs from theirs, the next
    message there is not taken by the welcome flow: the broadcast flow claims
    it and does nothing with it. Nothing is sent, the store is unchanged and
    the state stays as it was. *)
Theorem welcome_editor_is_keyed_by_sender (msg : Message) (from : User) (w : World) :
  From msg = Some from ->
  ID from <> ChatID msg ->
  adminStates w !! ID from = None ->
  exists w1 w' : World,
    welcome.StartSetWelcomeProcess (ChatID msg) w = Some (tt, w1)
    /\ adminStates w1 !! ChatID msg = Some welcome.StateAwaitingWelcomeMessage
    /\ main.handleAdminStatefulMessage msg w1 = Some (tt, w')
    /\ logs w' = logs w1 ++ [LogHandledByBroadcast (ChatID msg)]
    /\ sent w' = sent w1 /\ redis w' = redis w /\ adminStates w' = adminStates w1.
Proof.
  intros Hfrom Hne Hstate.
  assert (Hstart : exists w1,
            welcome.StartSetWelcomeProcess (ChatID msg) w = Some (tt, w1)
            /\ adminStates w1
               = <[ChatID msg := welcome.StateAwaitingWelcomeMessage]> (adminStates w)
            /\ redis w1 = redis w).
  { unfold welcome.StartSetWelcomeProcess. unfold mbind at 1, M_bind at 1.
    destruct (redisFail w (redisCalls w)) as [e |] eqn:Hfail.
    - rewrite (GetConfigValue_fails _ e) by exact Hfail. cbv beta iota. mrun.
      eexists. split; [reflexivity |]. split; reflexivity.
    - rewrite GetConfigValue_answers by exact Hfail. cbv beta iota. mrun.
      eexists. split; [reflexivity |]. split; reflexivity. }
  destruct Hstart as (w1 & Hrun & Hstates & Hredis).
  exists w1. rewrite Hrun.
  assert (Hchat : adminStates w1 !! ChatID msg = Some welcome.StateAwaitingWelcomeMessage).
  { rewrite Hstates. apply lookup_insert_eq. }
  assert (Hsender : adminStates w1 !! ID from = None).
  { rewrite Hstates, lookup_insert_ne by congruence. exact Hstate. }
  unfold main.handleAdminStatefulMessage, welcome.HandleAdminMessageInput. rewrite Hfrom.
  mrun. rewrite Hsender. cbv beta iota.
  unfold broadcast.HandleMessageInput. mrun. rewrite Hchat. cbv beta iota.
  change (welcome.StateAwaitingWelcomeMessage =? broadcast.StateBroadcastAwaitText)
    with false.
  change (welcome.StateAwaitingWelcomeMessage =? broadcast.StateBroadcastAwaitMedia)
    with false.
  change (welcome.StateAwaitingWelcomeMessage =? broadcast.StateBroadcastAwaitButtons)
    with false.
  cbv beta iota.
  eexists. split; [reflexivity |]. split; [reflexivity |]. split; [reflexivity |].
  split; [reflexivity |]. split; [reflexivity |]. split; [exact Hredis | reflexivity].
Qed.

Lemma welcome_editor_is_keyed_by_sender_witness :
  exists w1 w' : World,
    welcome.StartSetWelcomeProcess (-100) Sample.idle = Some (tt, w1)
    /\ main.handleAdminStatefulMessage (groupText "Hi there") w1 = Some (tt, w')
    /\ logs w' = [LogHandledByBroadcast (-100)]
    /\ redis w' = redis Sample.idle.
Proof.
  destruct (welcome_editor_is_keyed_by_sender (groupText "Hi there") (Sample.user 7)
              Sample.idle eq_refl ltac:(discriminate) eq_refl)
    as (w1 & w' & Hstart & _ & Hrun & Hlogs & _ & Hredis & _).
  exists w1, w'. split; [exact Hstart |]. split; [exact Hrun |].
  split; [| exact Hredis].
  rewrite Hlogs. unfold welcome.StartSetWelcomeProcess in Hstart.
  injection Hstart as <-. reflexivity.
Defined.

(** X26: the command start, not sent as a reply, from an administrator, or
    from a user who is not blocked while the store answers the block check:
    the command menu of the chat is registered (six commands for an
    administrator, one for a user) and then the greeting, whose text is not
    empty, is sent. The admin states and the store are unchanged. *)
Theorem start_registers_the_menu_and_greets (b : main.BotInstance) (msg : Message)
    (from : User) (w : World) :
  From msg = Some from ->
  IsCommand msg = true -> Command msg = "start" -> ReplyToMessage msg = None ->
  main.isAdmin b (ID from) = true
  \/ (redisFail w (redisCalls w) = None
      /\ Strconv.FormatInt (ID from) ∉ blockedUsers w) ->
  exists (text : string) (markup : option InlineKeyboardMarkup) (w' : World),
    main.handleMessage b msg w = Some (tt, w')
    /\ sent w' = sent w ++ [commandMenu b (ChatID msg);
                            MessageConfig (ChatID msg) text "" markup]
    /\ text <> "" /\ adminStates w' = adminStates w /\ redis w' = redis w.
Proof.
  intros Hfrom Hcommand Hstart Hreply Hrole.
  unfold main.handleMessage. rewrite Hfrom. mrun.
  destruct (main.isAdmin b (ID from)) eqn:Hadmin.
  - unfold main.handleAdminMessage. rewrite Hreply.
    unfold main.handleAdminCommand. rewrite Hcommand, Hstart. cbn [String.eqb Ascii.eqb Bool.eqb].
    cbv beta iota. unfold main.setCommandsForUser. mrun.
    rewrite HandleStartCommand_runs.
    eexists _, _, _. split; [reflexivity |].
    cbn [sent delivered redisAnswered adminStates redis]. rewrite <- app_assoc.
    split; [reflexivity |]. split; [apply greetingText_nonempty |]. split; reflexivity.
  - destruct Hrole as [H | [Hok Hfree]]; [discriminate |].
    unfold main.handleUserMessage. rewrite Hfrom. mrun.
    rewrite IsUserBlocked_answers by exact Hok. cbv beta iota.
    rewrite (bool_decide_eq_false_2 _ Hfree). rewrite Hcommand, Hstart.
    cbn [String.eqb Ascii.eqb Bool.eqb andb]. cbv beta iota.
    unfold main.setCommandsForUser. mrun.
    rewrite HandleStartCommand_runs.
    eexists _, _, _. split; [reflexivity |].
    cbn [sent delivered redisAnswered adminStates redis]. rewrite <- app_assoc.
    split; [reflexivity |]. split; [apply greetingText_nonempty |]. split; reflexivity.
Qed.

Lemma start_registers_the_menu_and_greets_witness :
  exists (text : string) (markup : option InlineKeyboardMarkup) (w' : World),
    main.handleMessage Sample.bot (startFrom 5) Sample.idle = Some (tt, w')
    /\ sent w' = [SetMyCommandsConfig 5 [("start", "获取欢迎信息")];
                  MessageConfig 5 text "" markup]
    /\ text <> "".
Proof.
  assert (Hfree : Strconv.FormatInt 5 ∉ blockedUsers Sample.idle).
  { apply (proj1 (bool_decide_eq_false _)). vm_compute. reflexivity. }
  destruct (start_registers_the_menu_and_greets Sample.bot (startFrom 5)
              (Sample.user 5) Sample.idle eq_refl eq_refl eq_refl eq_refl
              (or_intror (conj eq_refl Hfree)))
    as (text & markup & w' & Hrun & Hsent & Htext & _).
  exists text, markup, w'. split; [exact Hrun |]. split; [exact Hsent | exact Htext].
Defined.

(** X27: a callback whose data starts with none of the prefixes unblock_,
    page_prev_, page_next_, block_ and bbuild_ is acknowledged with an empty
    text, and nothing else happens. *)
Theorem unknown_callback_is_only_acknowledged (b : main.BotInstance)
    (q : CallbackQuery) (w : World) :
  Strings.HasPrefix (Data q) "unblock_" = false ->
  Strings.HasPrefix (Data q) "page_prev_" = false ->
  Strings.HasPrefix (Data q) "page_next_" = false ->
  Strings.HasPrefix (Data q) "block_" = false ->
  Strings.HasPrefix (Data q) "bbuild_" = false ->
  main.handleCallbackQuery b q w
  = Some (tt, delivered (NewCallback (QueryID q) "") w).
Proof.
  intros H1 H2 H3 H4 H5. unfold main.handleCallbackQuery.
  rewrite H1, H2, H3, H4. cbn [orb]. cbv iota.
  unfold broadcast.HandleCallbackQuery. rewrite H5. cbn [negb]. mrun. reflexivity.
Qed.

Lemma unknown_callback_is_only_acknowledged_witness :
  main.handleCallbackQuery Sample.bot (Sample.press 7 "noop") Sample.idle
  = Some (tt, delivered (NewCallback "q" "") Sample.idle).
Proof.
  exact (unknown_callback_is_only_acknowledged Sample.bot (Sample.press 7 "noop")
           Sample.idle eq_refl eq_refl eq_refl eq_refl eq_refl).
Defined.

(** ** A cancelled draft *)

(** X28: after Cancel, a Send pressed in the same chat finds no draft. The
    cancel asks for the deletion of the menu message and says that the
    builder was cancelled; the send is answered by the notice that the
    broadcast is empty. No fan-out is started, no call is made to the store,
    and the chat ends with no draft, no menu record and the state 0. *)
Theorem cancelled_draft_is_never_sent (cancel send : CallbackQuery)
    (menu later : Message) (w : World) :
  Data cancel = "bbuild_cancel" -> QueryMessage cancel = Some menu ->
  Data send = "bbuild_send" -> QueryMessage send = Some later ->
  ChatID later = ChatID menu ->
  let chat := ChatID menu in
  exists w' : World,
    (_ ← broadcast.HandleCallbackQuery cancel;
     broadcast.HandleCallbackQuery send) w = Some (true, w')
    /\ sent w' = sent w ++ [NewCallback (QueryID cancel) "";
                            NewDeleteMessage chat (MessageID menu);
                            NewMessage chat "广播创建已取消。";
                            NewCallback (QueryID send) "";
                            sendEmptyNotice chat;
                            NewDeleteMessage chat (MessageID later)]
    /\ spawned w' = spawned w /\ redisCalls w' = redisCalls w
    /\ Broadcasts w' !! chat = None /\ adminStates w' !! chat = Some 0
    /\ BroadcastPromptMessageIDs w' !! chat = None.
Proof.
  intros Hcancel Hmenu Hsend Hlater Hchat chat.
  unfold mbind at 1, M_bind at 1.
  assert (Hfirst : broadcast.HandleCallbackQuery cancel w
            = Some (true,
                    delivered (NewMessage chat "广播创建已取消。")
                      (delivered (NewDeleteMessage chat (MessageID menu))
                         (setPromptIDs (delete chat)
                            (setBroadcasts (delete chat)
                               (setAdminStates <[chat := 0]>
                                  (delivered (NewCallback (QueryID cancel) "") w))))))).
  { unfold broadcast.HandleCallbackQuery. rewrite Hcancel, Hmenu. msimpl. reflexivity. }
  rewrite Hfirst. cbv beta iota.
  match goal with |- context [broadcast.HandleCallbackQuery send ?x] =>
    set (w1 := x) end.
  assert (Hdraft : broadcast.draftOf w1 (ChatID later) = Draft.zero).
  { unfold broadcast.draftOf, w1.
    cbn [Broadcasts delivered setPromptIDs setBroadcasts setAdminStates].
    rewrite Hchat. fold chat. rewrite lookup_delete_eq. reflexivity. }
  rewrite (refused_send_tears_down send later w1 Hsend Hlater)
    by (rewrite Hdraft; reflexivity).
  eexists. split; [reflexivity |]. rewrite Hchat. fold chat.
  cbn [sent spawned redisCalls Broadcasts adminStates BroadcastPromptMessageIDs
       delivered setPromptIDs setBroadcasts setAdminStates]. unfold w1.
  cbn [sent spawned redisCalls Broadcasts adminStates BroadcastPromptMessageIDs
       delivered setPromptIDs setBroadcasts setAdminStates].
  split; [rewrite <- !app_assoc; reflexivity |].
  split; [reflexivity |]. split; [reflexivity |].
  split; [apply lookup_delete_eq |]. split; [apply lookup_insert_eq |].
  apply lookup_delete_eq.
Qed.

Lemma cancelled_draft_is_never_sent_witness :
  let w := Sample.withDraft 7 (textDraft "Sale") Sample.idle in
  exists w' : World,
    (_ ← broadcast.HandleCallbackQuery (Sample.press 7 "bbuild_cancel");
     broadcast.HandleCallbackQuery (Sample.press 7 "bbuild_send")) w = Some (true, w')
    /\ spawned w' = [] /\ Broadcasts w' !! 7 = None.
Proof.
  intros w.
  destruct (cancelled_draft_is_never_sent (Sample.press 7 "bbuild_cancel")
              (Sample.press 7 "bbuild_send") (Sample.textFrom 7 "")
              (Sample.textFrom 7 "") w eq_refl eq_refl eq_refl eq_refl eq_refl)
    as (w' & Hrun & _ & Hspawned & _ & Hdraft & _).
  exists w'. split; [exact Hrun |]. split; [exact Hspawned | exact Hdraft].
Defined.

(** ** The builder menu and the preview *)

(** X29: the keyboard of the builder menu offers Send and Preview exactly
    when the draft has a text or a medium, and offers the three edit buttons
    and Cancel for every draft. *)
Theorem builder_menu_offers_send_only_with_content (d : Draft.Message) :
  let keyboard := broadcast.getBroadcastBuilderKeyboard d in
  (offers keyboard "bbuild_send" <-> Draft.Text d <> "" \/ Draft.MediaID d <> "")
  /\ (offers keyboard "bbuild_preview" <-> Draft.Text d <> "" \/ Draft.MediaID d <> "")
  /\ offers keyboard "bbuild_set_text" /\ offers keyboard "bbuild_set_media"
  /\ offers keyboard "bbuild_set_buttons" /\ offers keyboard "bbuild_cancel".
Proof.
  cbv zeta. unfold broadcast.getBroadcastBuilderKeyboard, offers,
    NewInlineKeyboardMarkup, NewInlineKeyboardRow, NewInlineKeyboardButtonData.
  rewrite !eqb_empty.
  destruct (bool_decide_reflect (Draft.Text d = "")) as [Ht | Ht];
    destruct (bool_decide_reflect (Draft.MediaID d = "")) as [Hm | Hm];
    cbn [negb orb app concat In];
    (split; [| split; [| split; [| split; [| split]]]]);
    try (eexists; cbn [In]; 
         first [left; reflexivity | right; left; reflexivity
               | right; right; left; reflexivity
               | right; right; right; left; reflexivity
               | right; right; right; right; left; reflexivity
               | right; right; right; right; right; left; reflexivity]);
    (split;
     [ intros [text H];
       first [ (left; exact Ht) | (right; exact Hm)
             | (exfalso; repeat (destruct H as [H | H]; [discriminate H |]); exact H) ]
     | intros H;
       first [ (destruct H as [H | H]; contradiction)
             | (eexists; cbn [In];
                first [left; reflexivity | right; left; reflexivity
                      | right; right; left; reflexivity
                      | right; right; right; left; reflexivity
                      | right; right; right; right; left; reflexivity
                      | right; right; right; right; right; left; reflexivity]) ] ]).
Qed.

(** X30: the preview of a draft that can be sent sends the header of the
    preview and then, to the chat of the administrator, the very message the
    fan-out sends to a recipient; it starts no fan-out, makes no call to the
    store and changes neither states nor drafts. *)
Theorem preview_shows_what_is_broadcast (chatID : Z) (w : World) :
  sendable (broadcast.draftOf w chatID) ->
  exists w' : World,
    broadcast.sendBroadcastPreview chatID w = Some (tt, w')
    /\ sent w' = sent w ++ [previewHeader chatID;
                            complexMessage chatID (broadcast.draftOf w chatID)]
    /\ spawned w' = spawned w /\ adminStates w' = adminStates w
    /\ Broadcasts w' = Broadcasts w /\ redisCalls w' = redisCalls w.
Proof.
  intros Hd. unfold broadcast.sendBroadcastPreview. mrun.
  rewrite (nonempty_draft _ (proj2 Hd)).
  rewrite sendComplexMessage_sendable by exact Hd. cbv beta iota.
  eexists. split; [reflexivity |]. cbn [sent delivered]. rewrite <- app_assoc.
  repeat split.
Qed.

Lemma preview_shows_what_is_broadcast_witness :
  let w := Sample.withDraft 7 (textDraft "Sale") Sample.idle in
  sendable (textDraft "Sale")
  /\ exists w' : World,
       broadcast.sendBroadcastPreview 7 w = Some (tt, w')
       /\ sent w' = [previewHeader 7; MessageConfig 7 "📢 Sale" "" None].
Proof.
  intros w.
  assert (Hd : sendable (textDraft "Sale")).
  { split; [left; reflexivity | left; discriminate]. }
  split; [exact Hd |].
  destruct (preview_shows_what_is_broadcast 7 w Hd) as (w' & Hrun & Hsent & _).
  exists w'. split; [exact Hrun | exact Hsent].
Defined.
